(** * release-assets-action: the upload script, embedded and verified

    A shallow embedding of [src/scripts/upload-assets.js], the function
    that [module.exports] holds.  The script runs inside the
    github-script action: it validates its inputs, resolves one release
    (indexed lookup by tag, then the paginated listing), expands glob
    patterns into a list of files, uploads every file as a release asset
    (deleting and retrying on a name conflict when that is allowed) and
    sets the [download_urls] output.

    The embedding is a state, trace and exception monad:
    - the remote service is an abstract [World] changed by the four
      octokit calls, each of which either resolves or rejects;
    - every call of [core.*], every octokit call with its answer and
      every glob expansion is written to the trace, in program order;
    - [return] after [core.setFailed] and [throw] end the run early; the
      [while] loop of the paginated listing is bounded by fuel. *)

From Stdlib Require Import String Ascii List Bool Arith Lia DecimalString.
Import ListNotations.

#[local] Open Scope string_scope.
#[local] Open Scope list_scope.

Set Implicit Arguments.

(** ** Values of the JavaScript side *)

(** What a JavaScript expression of the script can hold where the script
    does not fix the type: the result of [JSON.parse], an element of the
    pattern array, the raw [denyOverwrite] parameter. *)
#[local] Unset Elimination Schemes.
Inductive JsValue : Type :=
| JUndefined
| JNull
| JBool (b : bool)
| JNumber (lexeme : string)
| JString (s : string)
| JArray (items : list JsValue)
| JObject (fields : list (string * JsValue)).
#[local] Set Elimination Schemes.

(** An error object as the script reads it: [error.status] (absent on a
    plain [Error] or [TypeError]) and [error.message]. *)
Record JsError : Type := mkError {
  status : option nat;
  message : string
}.

(** A call into a collaborator either gives a value or throws (for an
    awaited promise: resolves or rejects). *)
Inductive Reply (A : Type) : Type :=
| Ok (a : A)
| Fail (e : JsError).
Arguments Ok {A} a.
Arguments Fail {A} e.

Module Asset.
Record t : Type := mk {
  id : nat;
  name : string;
  browser_download_url : string
}.
End Asset.

Module Release.
Record t : Type := mk {
  id : nat;
  tag_name : string;
  name : string;
  assets : list Asset.t;
  draft : bool
}.
End Release.

(** [context.ref] and [context.repo]. *)
Module Context.
Record t : Type := mk {
  ref : string;
  owner : string;
  repo : string
}.
End Context.

(** The parameters of the exported function other than the injected
    collaborators. *)
Record Params : Type := mkParams {
  assetPathsInput : string;
  releaseTag : string;
  releaseName : string;
  denyOverwrite : JsValue
}.

(** ** Collaborators *)

(** [github.rest.repos]: the four operations the script awaits.  Each
    takes the remote state and gives its answer and the state after. *)
Record Octokit (World : Type) : Type := mkOctokit {
  getReleaseByTag :
    string -> string -> string -> World -> Reply Release.t * World;
  listReleases :
    string -> string -> nat -> nat -> World -> Reply (list Release.t) * World;
  uploadReleaseAsset :
    string -> string -> nat -> string -> list Byte.byte -> World ->
    Reply Asset.t * World;
  deleteReleaseAsset :
    string -> string -> nat -> World -> Reply unit * World
}.

(** [glob.create(pattern, {followSymbolicLinks: false})] followed by
    [globber.glob()], [fs.statSync(p).isFile()] and [fs.readFileSync]. *)
Record FileSystem : Type := mkFileSystem {
  glob : JsValue -> Reply (list string);
  statSync_isFile : string -> Reply bool;
  readFileSync : string -> Reply (list Byte.byte)
}.

(** Built-ins of the language and of Node that the script calls:
    [JSON.parse], [JSON.stringify], [String.prototype.trim],
    [path.basename] and the conversion of a value inside a template
    literal. *)
Record JsRuntime : Type := mkJsRuntime {
  JSON_parse : string -> Reply JsValue;
  JSON_stringify : JsValue -> string;
  trim : string -> string;
  basename : string -> string;
  ToString : JsValue -> string
}.

(** ** The trace *)

Inductive Event : Type :=
| Info (msg : string)
| Warning (msg : string)
| Error (msg : string)
| SetFailed (msg : string)
| SetOutput (key value : string)
| Summary (heading raw : string) (items : list string)
| GetReleaseByTag (tag : string) (answer : Reply Release.t)
| ListReleases (per_page page : nat) (answer : Reply (list Release.t))
| UploadReleaseAsset (release_id : nat) (name : string)
    (data : list Byte.byte) (answer : Reply Asset.t)
| DeleteReleaseAsset (asset_id : nat) (answer : Reply unit)
| Glob (pattern : JsValue) (answer : Reply (list string)).

(** ** Strings as the script uses them *)

(** A string in a condition: the empty string is falsy. *)
Definition truthy (s : string) : bool :=
  match s with
  | EmptyString => false
  | String _ _ => true
  end.

Definition startsWith (s p : string) : bool := String.prefix p s.

Definition includes (s p : string) : bool :=
  match String.index 0 p s with
  | Some _ => true
  | None => false
  end.

(** [s.replace(p, r)] for a string pattern: the first occurrence only. *)
Definition replace (s p r : string) : string :=
  match String.index 0 p s with
  | Some i =>
      String.substring 0 i s ++ r ++
      String.substring (i + String.length p)
        (String.length s - (i + String.length p)) s
  | None => s
  end.

(** A non-negative integer inside a template literal. *)
Definition string_of_nat (n : nat) : string :=
  NilZero.string_of_uint (Nat.to_uint n).

Definition newline : string := String (ascii_of_nat 10) EmptyString.

(** ** The monad of the script *)

(** How a piece of the script ends: with a value, by [return] from the
    exported function, by a thrown error, or (the listing loop only) with
    the fuel spent. *)
Inductive Res (A : Type) : Type :=
| Val (a : A)
| Return
| Throw (e : JsError)
| OutOfFuel.
Arguments Val {A} a.
Arguments Return {A}.
Arguments Throw {A} e.
Arguments OutOfFuel {A}.

Section Monad.
Variable World : Type.

Definition M (A : Type) : Type := World -> Res A * World * list Event.

Definition ret {A} (a : A) : M A := fun w => (Val a, w, []).

Definition bind {A B} (m : M A) (k : A -> M B) : M B :=
  fun w =>
    match m w with
    | (Val a, w1, t1) =>
        match k a w1 with
        | (r, w2, t2) => (r, w2, t1 ++ t2)
        end
    | (Return, w1, t1) => (Return, w1, t1)
    | (Throw e, w1, t1) => (Throw e, w1, t1)
    | (OutOfFuel, w1, t1) => (OutOfFuel, w1, t1)
    end.

Definition emit (e : Event) : M unit := fun w => (Val tt, w, [e]).

Definition return_ {A} : M A := fun w => (Return, w, []).

Definition throw {A} (e : JsError) : M A := fun w => (Throw e, w, []).

Definition out_of_fuel {A} : M A := fun w => (OutOfFuel, w, []).

(** [try { m } catch (error) { h error }]: only a thrown error is
    caught; a [return] inside the block leaves the function. *)
Definition try_catch {A} (m : M A) (h : JsError -> M A) : M A :=
  fun w =>
    match m w with
    | (Throw e, w1, t1) =>
        match h e w1 with
        | (r, w2, t2) => (r, w2, t1 ++ t2)
        end
    | other => other
    end.

(** A synchronous collaborator that may throw. *)
Definition lift {A} (r : Reply A) : M A :=
  match r with
  | Ok a => ret a
  | Fail e => throw e
  end.

(** An awaited call: the answer is recorded, a rejection is thrown. *)
Definition await {A} (call : World -> Reply A * World)
    (record : Reply A -> Event) : M A :=
  fun w =>
    match call w with
    | (Ok a, w1) => (Val a, w1, [record (Ok a)])
    | (Fail e, w1) => (Throw e, w1, [record (Fail e)])
    end.
End Monad.

Arguments ret {World A} a.
Arguments emit {World} e.
Arguments return_ {World A}.
Arguments throw {World A} e.
Arguments out_of_fuel {World A}.
Arguments lift {World A} r.

Declare Scope script_scope.
Delimit Scope script_scope with script.
Notation "x <- m ;; k" := (bind m (fun x => k))
  (at level 100, m at next level, right associativity) : script_scope.
Notation "m ;; k" := (bind m (fun _ => k))
  (at level 100, right associativity) : script_scope.
#[local] Open Scope script_scope.

(** ** The script *)

(** [denyOverwrite === 'true' || denyOverwrite === true] *)
Definition strictly_equal_string (v : JsValue) (s : string) : bool :=
  match v with
  | JString s' => String.eqb s' s
  | _ => false
  end.

Definition strictly_equal_bool (v : JsValue) (b : bool) : bool :=
  match v with
  | JBool b' => Bool.eqb b' b
  | _ => false
  end.

Definition denyOverwriteBool (denyOverwrite : JsValue) : bool :=
  strictly_equal_string denyOverwrite "true" ||
  strictly_equal_bool denyOverwrite true.

(** The predicate given to [releases.find] in the listing loop. *)
Definition matches (targetTag trimmedReleaseName : string)
    (r : Release.t) : bool :=
  if truthy targetTag && truthy trimmedReleaseName then
    String.eqb (Release.tag_name r) targetTag &&
    String.eqb (Release.name r) trimmedReleaseName
  else if truthy targetTag then
    String.eqb (Release.tag_name r) targetTag
  else
    String.eqb (Release.name r) trimmedReleaseName.

Definition describe (release : Release.t) : string :=
  Release.name release ++ " (" ++ Release.tag_name release ++ ")".

Definition found_message (targetTag trimmedReleaseName : string)
    (release : Release.t) : string :=
  if truthy targetTag && truthy trimmedReleaseName then
    "Found release by tag and name: " ++ describe release
  else if truthy targetTag then
    "Found release by tag: " ++ describe release
  else
    "Found release by name: " ++ describe release.

Definition not_found_message (targetTag trimmedReleaseName : string)
    : string :=
  if truthy targetTag && truthy trimmedReleaseName then
    "No release found with tag '" ++ targetTag ++ "' and name '" ++
    trimmedReleaseName ++ "'"
  else if truthy targetTag then
    "No release found with tag '" ++ targetTag ++ "'"
  else
    "No release found with name '" ++ trimmedReleaseName ++ "'".

Definition mismatch_message (release : Release.t)
    (trimmedReleaseName : string) : string :=
  "Release name mismatch: found '" ++ Release.name release ++
  "' but expected '" ++ trimmedReleaseName ++ "'".

Definition conflict_message (fileName : string) : string :=
  "Error: Overwriting artifacts is not prohibited ❌" ++ newline ++
  "Asset '" ++ fileName ++ "' already exists in this release." ++ newline ++
  "Set 'deny_overwrite: false' to allow replacing existing assets.".

Definition no_files_message : string := "No files found to upload".

(** The log lines of the upload loop. *)
Definition uploading_message (fileName : string)
    (fileContent : list Byte.byte) : string :=
  "Uploading: " ++ fileName ++ " (" ++
  string_of_nat (List.length fileContent) ++ " bytes)".

Definition uploaded_message (fileName : string) : string :=
  "✅ Uploaded: " ++ fileName.

Definition overwriting_message (fileName : string) : string :=
  "Glob wildcard overwriting existing file " ++ fileName.

Definition deleted_message (fileName : string) : string :=
  "Deleted existing asset: " ++ fileName.

Definition missing_message (fileName : string) : string :=
  "Asset " ++ fileName ++ " not found in release assets list".

Definition replace_failed_message (fileName : string)
    (retryError : JsError) : string :=
  "Failed to replace " ++ fileName ++ ": " ++ message retryError.

Definition upload_failed_message (fileName : string)
    (error : JsError) : string :=
  "Failed to upload " ++ fileName ++ ": " ++ message error.

(** [error.status === 422 && error.message.includes('already_exists')] *)
Definition already_exists (error : JsError) : bool :=
  match status error with
  | Some code => Nat.eqb code 422
  | None => false
  end && includes (message error) "already_exists".

Definition not_found (error : JsError) : bool :=
  match status error with
  | Some code => Nat.eqb code 404
  | None => false
  end.

(** Reading a property of [undefined]. *)
Definition TypeError (property : string) : JsError :=
  mkError None
    ("Cannot read properties of undefined (reading '" ++ property ++ "')").

(** [new Set(iterable)] keeps a value the first time it is added;
    [[...set]] lists the values in insertion order. *)
Definition Set_add (set : list string) (x : string) : list string :=
  if existsb (String.eqb x) set then set else set ++ [x].

Definition Set_of (l : list string) : list string :=
  fold_left Set_add l [].

Section Script.
Variable World : Type.
Variable github : Octokit World.
Variable fs : FileSystem.
Variable js : JsRuntime.
Variable context : Context.t.

Let owner := Context.owner context.
Let repo := Context.repo context.

(** *** Parse inputs (lines 21-61) *)

Definition parse_asset_paths (assetPathsInput : string)
    : M World (list JsValue) :=
  assetPaths <-
    try_catch (lift (JSON_parse js assetPathsInput))
      (fun error =>
         emit (SetFailed
           ("Failed to parse asset_paths as JSON: " ++ message error)) ;;
         return_) ;;
  match assetPaths with
  | JArray (first :: rest) => ret (first :: rest)
  | _ =>
      emit (SetFailed "asset_paths must be a non-empty JSON array") ;;
      return_
  end.

Definition determine_target (releaseTag releaseName : string)
    : M World (string * string) :=
  let trimmedReleaseName := trim js releaseName in
  targetTag <-
    (let targetTag := trim js releaseTag in
     if negb (truthy targetTag) then
       let ref := Context.ref context in
       if startsWith ref "refs/tags/" then
         ret (replace ref "refs/tags/" "")
       else if negb (truthy trimmedReleaseName) then
         emit (SetFailed
           "No release_tag or release_name provided and workflow not triggered by tag push") ;;
         return_
       else ret targetTag
     else ret targetTag) ;;
  (if truthy targetTag
   then emit (Info ("Target release tag: " ++ targetTag))
   else ret tt) ;;
  (if truthy trimmedReleaseName
   then emit (Info ("Target release name: " ++ trimmedReleaseName))
   else ret tt) ;;
  ret (targetTag, trimmedReleaseName).

(** *** Find the release (lines 63-176) *)

Definition get_by_tag (targetTag trimmedReleaseName : string)
    : M World (option Release.t) :=
  try_catch
    (emit (Info ("Attempting to fetch release by tag: " ++ targetTag)) ;;
     emit (Info ("Repository: " ++ owner ++ "/" ++ repo)) ;;
     release <- await (getReleaseByTag github owner repo targetTag)
                  (GetReleaseByTag targetTag) ;;
     emit (Info ("Found release by tag: " ++ describe release)) ;;
     if truthy trimmedReleaseName &&
        negb (String.eqb (Release.name release) trimmedReleaseName)
     then
       emit (SetFailed (mismatch_message release trimmedReleaseName)) ;;
       return_
     else ret (Some release))
    (fun error =>
       if not_found error then
         emit (Info
           "Release not found by tag API (might be draft), searching all releases...") ;;
         ret None
       else throw error).

(** The [while (!found)] loop, one page per unit of fuel. *)
Fixpoint search_releases (fuel : nat)
    (targetTag trimmedReleaseName : string) (page : nat)
    : M World (option Release.t) :=
  match fuel with
  | 0 => out_of_fuel
  | S fuel' =>
      releases <- await (listReleases github owner repo 100 page)
                    (ListReleases 100 page) ;;
      match find (matches targetTag trimmedReleaseName) releases with
      | Some release =>
          emit (Info (found_message targetTag trimmedReleaseName release)) ;;
          ret (Some release)
      | None =>
          if Nat.ltb (List.length releases) 100 then ret None
          else search_releases fuel' targetTag trimmedReleaseName (S page)
      end
  end.

Definition find_release (fuel : nat)
    (targetTag trimmedReleaseName : string) : M World (option Release.t) :=
  release <-
    (if truthy targetTag
     then get_by_tag targetTag trimmedReleaseName
     else ret None) ;;
  match release with
  | Some found => ret (Some found)
  | None =>
      if truthy targetTag || truthy trimmedReleaseName then
        emit (Info "Searching all releases (including drafts)...") ;;
        release <- search_releases fuel targetTag trimmedReleaseName 1 ;;
        match release with
        | Some found => ret (Some found)
        | None =>
            emit (SetFailed
              (not_found_message targetTag trimmedReleaseName)) ;;
            return_
        end
      else ret None
  end.

(** *** Expand glob patterns and collect all files (lines 178-217) *)

(** The inner loop: [fs.statSync(match).isFile()] decides whether the
    match is pushed to [files]. *)
Fixpoint keep_files (globbed files : list string)
    : M World (list string) :=
  match globbed with
  | [] => ret files
  | candidate :: rest =>
      isFile <- lift (statSync_isFile fs candidate) ;;
      keep_files rest (if isFile then files ++ [candidate] else files)
  end.

Definition no_match_warning (pattern : JsValue) : Event :=
  Warning ("No files matched pattern: " ++ ToString js pattern).

Definition matched_info (pattern : JsValue) (count : nat) : Event :=
  Info ("Pattern '" ++ ToString js pattern ++ "' matched " ++
        string_of_nat count ++ " file(s)").

Fixpoint expand_patterns (assetPaths : list JsValue)
    (filesToUpload : list string) : M World (list string) :=
  match assetPaths with
  | [] => ret filesToUpload
  | pattern :: rest =>
      globbed <- await (fun w => (glob fs pattern, w)) (Glob pattern) ;;
      files <- keep_files globbed [] ;;
      if Nat.eqb (List.length files) 0 then
        emit (no_match_warning pattern) ;;
        expand_patterns rest filesToUpload
      else
        emit (matched_info pattern (List.length files)) ;;
        expand_patterns rest (filesToUpload ++ files)
  end.

Definition collect_files (assetPaths : list JsValue)
    : M World (list string) :=
  filesToUpload <- expand_patterns assetPaths [] ;;
  let uniqueFilesToUpload := Set_of filesToUpload in
  if Nat.eqb (List.length uniqueFilesToUpload) 0 then
    emit (SetFailed no_files_message) ;;
    return_
  else
    (if negb (Nat.eqb (List.length filesToUpload)
                (List.length uniqueFilesToUpload))
     then emit (Warning
            ("Removed " ++
             string_of_nat (List.length filesToUpload -
                            List.length uniqueFilesToUpload) ++
             " duplicate file(s) from overlapping glob patterns"))
     else ret tt) ;;
    emit (Info ("Total files to upload: " ++
                string_of_nat (List.length uniqueFilesToUpload))) ;;
    ret uniqueFilesToUpload.

(** *** Upload each file (lines 219-288) *)

(** [release] is still [undefined] when neither a tag nor a name was
    left after parsing; reading a property of it throws. *)
Definition property {A} (release : option Release.t)
    (field : Release.t -> A) (label : string) : M World A :=
  match release with
  | Some r => ret (field r)
  | None => throw (TypeError label)
  end.

Definition upload (release : option Release.t) (fileName : string)
    (fileContent : list Byte.byte) : M World Asset.t :=
  release_id <- property release Release.id "id" ;;
  await (uploadReleaseAsset github owner repo release_id fileName fileContent)
    (UploadReleaseAsset release_id fileName fileContent).

(** The inner [try] of the conflict branch: find the asset in
    [release.assets], delete it, upload again. *)
Definition replace_asset (release : option Release.t)
    (fileName : string) (fileContent : list Byte.byte)
    (error : JsError) (downloadUrls : list string)
    : M World (list string) :=
  try_catch
    (known <- property release Release.assets "assets" ;;
     match find (fun a => String.eqb (Asset.name a) fileName) known with
     | Some existingAsset =>
         await (deleteReleaseAsset github owner repo
                  (Asset.id existingAsset))
           (DeleteReleaseAsset (Asset.id existingAsset)) ;;
         emit (Info (deleted_message fileName)) ;;
         asset <- upload release fileName fileContent ;;
         emit (Info (uploaded_message fileName)) ;;
         ret (downloadUrls ++ [Asset.browser_download_url asset])
     | None =>
         emit (Error (missing_message fileName)) ;;
         throw error
     end)
    (fun retryError =>
       emit (Error (replace_failed_message fileName retryError)) ;;
       throw retryError).

(** The body of the upload loop for one [filePath]. *)
Definition upload_file (release : option Release.t)
    (denyOverwriteBool : bool) (downloadUrls : list string)
    (filePath : string) : M World (list string) :=
  let fileName := basename js filePath in
  fileContent <- lift (readFileSync fs filePath) ;;
  emit (Info (uploading_message fileName fileContent)) ;;
  try_catch
    (asset <- upload release fileName fileContent ;;
     emit (Info (uploaded_message fileName)) ;;
     ret (downloadUrls ++ [Asset.browser_download_url asset]))
    (fun error =>
       if already_exists error then
         (if denyOverwriteBool then
            emit (SetFailed (conflict_message fileName)) ;;
            throw error
          else ret tt) ;;
         emit (Warning (overwriting_message fileName)) ;;
         replace_asset release fileName fileContent error downloadUrls
       else
         emit (Error (upload_failed_message fileName error)) ;;
         throw error).

Fixpoint upload_files (release : option Release.t)
    (denyOverwriteBool : bool) (uniqueFilesToUpload : list string)
    (downloadUrls : list string) : M World (list string) :=
  match uniqueFilesToUpload with
  | [] => ret downloadUrls
  | filePath :: rest =>
      downloadUrls' <-
        upload_file release denyOverwriteBool downloadUrls filePath ;;
      upload_files release denyOverwriteBool rest downloadUrls'
  end.

(** *** Set output and step summary (lines 290-302) *)

Definition output_value (downloadUrls : list string) : string :=
  JSON_stringify js (JArray (map JString downloadUrls)).

Definition set_output (release : option Release.t)
    (downloadUrls : list string) : M World unit :=
  emit (SetOutput "download_urls" (output_value downloadUrls)) ;;
  emit (Info ("✅ Successfully uploaded " ++
              string_of_nat (List.length downloadUrls) ++ " asset(s)")) ;;
  release_name <- property release Release.name "name" ;;
  tag_name <- property release Release.tag_name "tag_name" ;;
  emit (Summary "Release Assets Uploaded"
          ("Release: " ++ release_name ++ " (" ++ tag_name ++ ")")
          (map (fun url => ("[" ++ basename js url ++ "](" ++ url ++ ")")%string)
             downloadUrls)).

(** *** The exported function *)

(** Lines 21-61: the asset paths, then the tag and the name. *)
Definition parse_inputs (params : Params)
    : M World (list JsValue * (string * string)) :=
  assetPaths <- parse_asset_paths (assetPathsInput params) ;;
  target <- determine_target (releaseTag params) (releaseName params) ;;
  ret (assetPaths, target).

Definition upload_assets (fuel : nat) (params : Params) : M World unit :=
  let denyOverwriteBool := denyOverwriteBool (denyOverwrite params) in
  inputs <- parse_inputs params ;;
  let assetPaths := fst inputs in
  let targetTag := fst (snd inputs) in
  let trimmedReleaseName := snd (snd inputs) in
  release <- find_release fuel targetTag trimmedReleaseName ;;
  uniqueFilesToUpload <- collect_files assetPaths ;;
  downloadUrls <-
    upload_files release denyOverwriteBool uniqueFilesToUpload [] ;;
  set_output release downloadUrls.
End Script.

(** ** What a trace shows *)

(** The resolved uploads of a trace, in order: the name the asset was
    uploaded under and the download URL the service answered. *)
Definition uploaded (t : list Event) : list (string * string) :=
  flat_map (fun ev =>
    match ev with
    | UploadReleaseAsset _ name _ (Ok asset) =>
        [(name, Asset.browser_download_url asset)]
    | _ => []
    end) t.

(** The values given to [core.setOutput], in order. *)
Definition outputs (t : list Event) : list (string * string) :=
  flat_map (fun ev =>
    match ev with
    | SetOutput key value => [(key, value)]
    | _ => []
    end) t.

(** The messages given to [core.setFailed], in order. *)
Definition failures (t : list Event) : list string :=
  flat_map (fun ev =>
    match ev with
    | SetFailed msg => [msg]
    | _ => []
    end) t.

(** The calls of [listReleases], in order: page size, page number and
    answer. *)
Definition listed (t : list Event)
    : list (nat * nat * Reply (list Release.t)) :=
  flat_map (fun ev =>
    match ev with
    | ListReleases per_page page answer => [(per_page, page, answer)]
    | _ => []
    end) t.

(** Calls of the remote service. *)
Definition is_remote (ev : Event) : bool :=
  match ev with
  | GetReleaseByTag _ _ | ListReleases _ _ _
  | UploadReleaseAsset _ _ _ _ | DeleteReleaseAsset _ _ => true
  | _ => false
  end.

Definition is_upload (ev : Event) : bool :=
  match ev with
  | UploadReleaseAsset _ _ _ _ => true
  | _ => false
  end.

(** ** The collector, as the specification words it *)

(** Deduplication that keeps the first occurrence of every path: a path
    is kept unless it was met earlier in the sequence. *)
Fixpoint dedup_after (seen l : list string) : list string :=
  match l with
  | [] => []
  | x :: rest =>
      if existsb (String.eqb x) seen then dedup_after seen rest
      else x :: dedup_after (x :: seen) rest
  end.

Definition dedup_first (l : list string) : list string := dedup_after [] l.

(** The matches of one pattern and the regular files among them, read
    off the file system; a call that throws contributes nothing (the
    collector then throws as well). *)
Definition globbed (fs : FileSystem) (pattern : JsValue) : list string :=
  match glob fs pattern with
  | Ok found => found
  | Fail _ => []
  end.

Definition regular (fs : FileSystem) (path : string) : bool :=
  match statSync_isFile fs path with
  | Ok b => b
  | Fail _ => false
  end.

Definition regular_files (fs : FileSystem) (pattern : JsValue)
    : list string :=
  filter (regular fs) (globbed fs pattern).

Definition upload_plan (fs : FileSystem) (assetPaths : list JsValue)
    : list string :=
  dedup_first (flat_map (regular_files fs) assetPaths).

(** No call of the collector throws on these patterns. *)
Definition readable (fs : FileSystem) (assetPaths : list JsValue) : Prop :=
  Forall (fun pattern =>
    exists found, glob fs pattern = Ok found /\
      Forall (fun path => exists b, statSync_isFile fs path = Ok b) found)
    assetPaths.

(** What the collector writes for one pattern when nothing throws: the
    expansion, then a warning (no regular file) or a count. *)
Definition pattern_events (fs : FileSystem) (js : JsRuntime)
    (pattern : JsValue) : list Event :=
  [Glob pattern (glob fs pattern);
   if Nat.eqb (List.length (regular_files fs pattern)) 0
   then no_match_warning js pattern
   else matched_info js pattern (List.length (regular_files fs pattern))].

(** Events of the phases that come before the upload loop. *)
Definition early (ev : Event) : bool :=
  match ev with
  | Info _ | Warning _ | SetFailed _ | GetReleaseByTag _ _
  | ListReleases _ _ _ | Glob _ _ => true
  | _ => false
  end.

(** ** A small hosting service, file system and runtime to run the script on *)

Module Mock.
Record world : Type := mkWorld {
  releases : list Release.t;
  stored : list Asset.t;
  next_id : nat
}.

Definition http (code : nat) (text : string) : JsError :=
  mkError (Some code) text.

Definition url_of (name : string) : string :=
  "https://example.test/download/" ++ name.

Definition get_by_tag (tag : string) (w : world)
    : Reply Release.t * world :=
  match find (fun r => negb (Release.draft r) &&
                       String.eqb (Release.tag_name r) tag) (releases w) with
  | Some r => (Ok r, w)
  | None => (Fail (http 404 "Not Found"), w)
  end.

Definition list_page (per_page page : nat) (w : world)
    : Reply (list Release.t) * world :=
  (Ok (firstn per_page (skipn ((page - 1) * per_page) (releases w))), w).

Definition upload_asset (name : string) (w : world)
    : Reply Asset.t * world :=
  if existsb (fun a => String.eqb (Asset.name a) name) (stored w) then
    (Fail (http 422 "Validation Failed: already_exists"), w)
  else
    let asset := Asset.mk (next_id w) name (url_of name) in
    (Ok asset, mkWorld (releases w) (stored w ++ [asset]) (S (next_id w))).

Definition delete_asset (asset_id : nat) (w : world)
    : Reply unit * world :=
  if existsb (fun a => Nat.eqb (Asset.id a) asset_id) (stored w) then
    (Ok tt,
     mkWorld (releases w)
       (filter (fun a => negb (Nat.eqb (Asset.id a) asset_id)) (stored w))
       (next_id w))
  else (Fail (http 404 "Not Found"), w).

Definition github : Octokit world :=
  mkOctokit
    (fun _ _ tag => get_by_tag tag)
    (fun _ _ per_page page => list_page per_page page)
    (fun _ _ _ name _ => upload_asset name)
    (fun _ _ asset_id => delete_asset asset_id).

Fixpoint lookup {A} (key : string) (table : list (string * A))
    : option A :=
  match table with
  | [] => None
  | (k, v) :: rest => if String.eqb k key then Some v else lookup key rest
  end.

(** Patterns are looked up in a table; [dirs] are the directories. *)
Definition fs (globs : list (string * list string)) (dirs : list string)
    : FileSystem :=
  mkFileSystem
    (fun pattern =>
       match pattern with
       | JString p =>
           match lookup p globs with
           | Some found => Ok found
           | None => Ok []
           end
       | _ => Fail (mkError None "patterns must be strings")
       end)
    (fun path => Ok (negb (existsb (String.eqb path) dirs)))
    (fun _ => Ok []).

Definition space : ascii := ascii_of_nat 32.
Definition slash : ascii := ascii_of_nat 47.
Definition quote : string := String (ascii_of_nat 34) EmptyString.

Fixpoint trim_left (s : string) : string :=
  match s with
  | String c rest => if Ascii.eqb c space then trim_left rest else s
  | EmptyString => EmptyString
  end.

Fixpoint trim_right (s : string) : string :=
  match s with
  | String c rest =>
      match trim_right rest with
      | EmptyString =>
          if Ascii.eqb c space then EmptyString else String c EmptyString
      | kept => String c kept
      end
  | EmptyString => EmptyString
  end.

Fixpoint last_segment (s acc : string) : string :=
  match s with
  | String c rest =>
      if Ascii.eqb c slash then last_segment rest EmptyString
      else last_segment rest (acc ++ String c EmptyString)
  | EmptyString => acc
  end.

Definition stringify (v : JsValue) : string :=
  match v with
  | JArray items =>
      "[" ++ String.concat ","
               (map (fun item =>
                       match item with
                       | JString s => (quote ++ s ++ quote)%string
                       | _ => "null"%string
                       end) items) ++ "]"
  | _ => "null"
  end.

(** [JSON.parse] knows the inputs of [table] and rejects the rest. *)
Definition js (table : list (string * JsValue)) : JsRuntime :=
  mkJsRuntime
    (fun text =>
       match lookup text table with
       | Some v => Ok v
       | None => Fail (mkError None "Unexpected token")
       end)
    stringify
    (fun s => trim_right (trim_left s))
    (fun path => last_segment path EmptyString)
    (fun v => match v with JString s => s | _ => "[object]" end).
End Mock.

(** ** The vocabulary of the statements *)

(** [stopped r0 r]: [r0] is not a value and [r] is the same way out. *)
Definition stopped {A B} (r0 : Res A) (r : Res B) : Prop :=
  match r0, r with
  | Return, Return => True
  | Throw e0, Throw e => e0 = e
  | OutOfFuel, OutOfFuel => True
  | _, _ => False
  end.

(** The first attempt of a file that the service refuses. *)
Definition refused (r : Release.t) (fileName : string)
    (content : list Byte.byte) (e : JsError) : list Event :=
  [Info (uploading_message fileName content);
   UploadReleaseAsset (Release.id r) fileName content (Fail e)].

(** The value is an array with at least one element. *)
Definition nonempty_array (v : JsValue) : Prop :=
  exists first rest, v = JArray (first :: rest).

(** The three ways an input is invalid: the asset paths do not parse,
    they parse to something that is not a non-empty array, or there is
    no tag, no name and the ref is not of the form [refs/tags/<tag>]. *)
Definition invalid_input (js : JsRuntime) (context : Context.t)
    (params : Params) : Prop :=
  (exists e, JSON_parse js (assetPathsInput params) = Fail e) \/
  (exists v, JSON_parse js (assetPathsInput params) = Ok v /\
             ~ nonempty_array v) \/
  (trim js (releaseTag params) = EmptyString /\
   trim js (releaseName params) = EmptyString /\
   ~ exists tag, Context.ref context = ("refs/tags/" ++ tag)%string).

(** The [stat] call answers for this path. *)
Definition stat_answers (fs : FileSystem) (path : string) : Prop :=
  exists b, statSync_isFile fs path = Ok b.

(** The trace of the listing calls that gave full pages without a match,
    numbered from [page]. *)
Fixpoint page_events (page : nat) (full : list (list Release.t))
    : list Event :=
  match full with
  | [] => []
  | releases :: rest =>
      ListReleases 100 page (Ok releases) :: page_events (S page) rest
  end.

(** A page after which the loop asks for the next one. *)
Definition passed_over (targetTag trimmedReleaseName : string)
    (releases : list Release.t) : Prop :=
  find (matches targetTag trimmedReleaseName) releases = None /\
  100 <= List.length releases.

(** The trace of the indexed lookup up to the answer of the service. *)
Definition lookup_events (context : Context.t) (targetTag : string)
    (answer : Reply Release.t) : list Event :=
  [Info ("Attempting to fetch release by tag: " ++ targetTag);
   Info ("Repository: " ++ Context.owner context ++ "/" ++
         Context.repo context);
   GetReleaseByTag targetTag answer].

Definition searching_info : Event :=
  Info "Searching all releases (including drafts)...".

(** The listing is finite: every page after page [n] is short. *)
Definition bounded_listing {World} (github : Octokit World)
    (context : Context.t) (n : nat) : Prop :=
  forall w page releases w1,
    n < page ->
    listReleases github (Context.owner context) (Context.repo context)
      100 page w = (Ok releases, w1) ->
    List.length releases < 100.

(** What one pass of the loop body guarantees. *)
Definition step_facts (release : option Release.t) (deny : bool)
    (urls : list string) (fileName : string)
    (res : Res (list string)) (t : list Event) : Prop :=
  outputs t = [] /\
  match res with
  | Val urls' =>
      exists url,
        urls' = urls ++ [url] /\ uploaded t = [(fileName, url)] /\
        failures t = [] /\ release <> None
  | Throw _ => True
  | _ => False
  end /\
  (deny = true ->
   forall rid name data e,
     In (UploadReleaseAsset rid name data (Fail e)) t ->
     already_exists e = true ->
     res = Throw e /\
     exists before,
       t = before ++ [UploadReleaseAsset rid name data (Fail e);
                      SetFailed (conflict_message name)]).

(** What the loop guarantees over a plan. *)
Definition loop_facts (js : JsRuntime) (release : option Release.t)
    (deny : bool) (urls files : list string)
    (res : Res (list string)) (t : list Event) : Prop :=
  outputs t = [] /\
  match res with
  | Val urls' =>
      urls' = urls ++ map snd (uploaded t) /\
      map fst (uploaded t) = map (basename js) files /\
      failures t = [] /\ (files <> [] -> release <> None)
  | Throw _ => True
  | _ => False
  end /\
  (deny = true ->
   forall rid name data e,
     In (UploadReleaseAsset rid name data (Fail e)) t ->
     already_exists e = true ->
     res = Throw e /\
     exists before,
       t = before ++ [UploadReleaseAsset rid name data (Fail e);
                      SetFailed (conflict_message name)]).

(** The three events that end a run in which every file was uploaded. *)
Definition closing_events (js : JsRuntime) (release : Release.t)
    (urls : list string) : list Event :=
  [SetOutput "download_urls" (output_value js urls);
   Info ("✅ Successfully uploaded " ++
         string_of_nat (List.length urls) ++ " asset(s)");
   Summary "Release Assets Uploaded"
     ("Release: " ++ Release.name release ++ " (" ++
      Release.tag_name release ++ ")")
     (map (fun url => ("[" ++ basename js url ++ "](" ++ url ++ ")")%string)
        urls)].

(** ** Inputs for concrete runs *)

Module Scenario.
Definition context : Context.t :=
  Context.mk "refs/heads/main" "acme" "widgets".

Definition tarballs : string := "dist/*.tar.gz".

(** The text of the [asset_paths] input: a JSON array of one string. *)
Definition asset_paths (pattern : string) : string :=
  "[" ++ Mock.quote ++ pattern ++ Mock.quote ++ "]".

Definition js : JsRuntime :=
  Mock.js [(asset_paths tarballs, JArray [JString tarballs]);
           (asset_paths "missing/*.zip", JArray [JString "missing/*.zip"]);
           ("[]", JArray []);
           ("7", JNumber "7")].

Definition fs : FileSystem :=
  Mock.fs [(tarballs, ["dist/a.tar.gz"; "dist/b.tar.gz"])] [].

(** Two overlapping patterns; [dist/sub] is a directory. *)
Definition overlapping : FileSystem :=
  Mock.fs [("dist/b*", ["dist/b.tar.gz"]);
           ("dist/*", ["dist/a.tar.gz"; "dist/sub"; "dist/b.tar.gz"])]
    ["dist/sub"].

Definition old_b : Asset.t :=
  Asset.mk 41 "b.tar.gz" (Mock.url_of "b.tar.gz").

(** A published release without assets, the same release holding
    [b.tar.gz], and a draft with the same tag and another name. *)
Definition fresh : Release.t :=
  Release.mk 7 "v1.0.0" "Good Name" [] false.

Definition stocked : Release.t :=
  Release.mk 7 "v1.0.0" "Good Name" [old_b] false.

Definition draft : Release.t :=
  Release.mk 8 "v1.0.0" "Bad Name" [] true.

Definition upcoming : Release.t :=
  Release.mk 9 "v2.0.0" "Next" [] true.

Definition old_releases : list Release.t :=
  map (fun i => Release.mk (1000 + i) "v0" "Old" [] false) (seq 0 100).

Definition empty_world : Mock.world := Mock.mkWorld [fresh; draft] [] 100.

Definition stocked_world : Mock.world :=
  Mock.mkWorld [stocked] [old_b] 100.

Definition long_world : Mock.world :=
  Mock.mkWorld (old_releases ++ [upcoming]) [] 100.

Definition params (pattern tag name : string) (deny : JsValue) : Params :=
  mkParams (asset_paths pattern) tag name deny.

Definition run (fuel : nat) (p : Params) (w : Mock.world)
    : Res unit * Mock.world * list Event :=
  upload_assets Mock.github fs js context fuel p w.

Definition conflict : JsError :=
  Mock.http 422 "Validation Failed: already_exists".
End Scenario.

(** ** Further vocabulary: the shape of a whole trace *)

(** The events of the three parts of a run: resolving the release,
    collecting the files, uploading them and reporting. *)
Definition resolving (ev : Event) : bool :=
  match ev with
  | Info _ | SetFailed _ | GetReleaseByTag _ _ | ListReleases _ _ _ => true
  | _ => false
  end.

Definition collecting (ev : Event) : bool :=
  match ev with
  | Info _ | Warning _ | SetFailed _ | Glob _ _ => true
  | _ => false
  end.

Definition uploading (ev : Event) : bool :=
  match ev with
  | GetReleaseByTag _ _ | ListReleases _ _ _ | Glob _ _ => false
  | _ => true
  end.

Definition is_delete (ev : Event) : bool :=
  match ev with
  | DeleteReleaseAsset _ _ => true
  | _ => false
  end.

(** The calls of [getReleaseByTag], in order: tag and answer. *)
Definition looked_up (t : list Event) : list (string * Reply Release.t) :=
  flat_map (fun ev =>
    match ev with
    | GetReleaseByTag tag answer => [(tag, answer)]
    | _ => []
    end) t.

(** A piece of the script reports a failure at most once, as the last
    thing it writes, and then gives no value. *)
Definition fails_last {A} (res : Res A) (t : list Event) : Prop :=
  failures t = [] \/
  ((forall a, res <> Val a) /\
   exists before msg, t = before ++ [SetFailed msg] /\ failures before = []).

(** How the resolver ends once the listing loop, started after the
    events [before], has ended with [r2]. *)
Definition after_listing {World} (targetTag trimmedReleaseName : string)
    (before : list Event)
    (listing : Res (option Release.t) * World * list Event)
    : Res (option Release.t) * World * list Event :=
  match listing with
  | (Val (Some found), w2, t2) =>
      (Val (Some found), w2, before ++ searching_info :: t2)
  | (Val None, w2, t2) =>
      (Return, w2,
       before ++ searching_info :: t2 ++
       [SetFailed (not_found_message targetTag trimmedReleaseName)])
  | (Return, w2, t2) => (Return, w2, before ++ searching_info :: t2)
  | (Throw e, w2, t2) => (Throw e, w2, before ++ searching_info :: t2)
  | (OutOfFuel, w2, t2) => (OutOfFuel, w2, before ++ searching_info :: t2)
  end.

Definition not_by_tag_info : Event :=
  Info "Release not found by tag API (might be draft), searching all releases...".

(** What the collector writes after the patterns when it gives a plan:
    the count of duplicates, if any, and the size of the plan. *)
Definition plan_events (all unique : list string) : list Event :=
  (if negb (Nat.eqb (List.length all) (List.length unique))
   then [Warning ("Removed " ++
                  string_of_nat (List.length all - List.length unique) ++
                  " duplicate file(s) from overlapping glob patterns")]
   else []) ++
  [Info ("Total files to upload: " ++ string_of_nat (List.length unique))].

(** What the parser writes when it gives a target. *)
Definition target_events (targetTag trimmedReleaseName : string)
    : list Event :=
  (if truthy targetTag
   then [Info ("Target release tag: " ++ targetTag)] else []) ++
  (if truthy trimmedReleaseName
   then [Info ("Target release name: " ++ trimmedReleaseName)] else []).

(** [pass] is the trace of one pass of the upload loop, for
    [filePath]: its uploads carry the base name of the file, and there
    are at most two of them and at most one deletion; with overwriting
    denied, at most one upload and no deletion. *)
Definition pass_of (js : JsRuntime) (deny : bool) (filePath : string)
    (pass : list Event) : Prop :=
  (forall rid name data answer,
     In (UploadReleaseAsset rid name data answer) pass ->
     name = basename js filePath) /\
  List.length (filter is_upload pass) <= 2 /\
  List.length (filter is_delete pass) <= 1 /\
  (deny = true ->
   List.length (filter is_upload pass) <= 1 /\ filter is_delete pass = []).

(** [release] is the release of the run: what the resolver gives for
    the target of the parser, from the state [w] the run starts in. *)
Definition resolved {World} (github : Octokit World) (js : JsRuntime)
    (context : Context.t) (fuel : nat) (params : Params) (w : World)
    (release : Release.t) : Prop :=
  exists assetPaths targetTag trimmedReleaseName tp wf tf,
    parse_inputs js context params w =
      (Val (assetPaths, (targetTag, trimmedReleaseName)), w, tp) /\
    find_release github context fuel targetTag trimmedReleaseName w =
      (Val (Some release), wf, tf).

(** ** A service that rejects calls *)

Module Faulty.
(** The indexed lookup is rejected with [error]; the rest is [Mock]. *)
Definition no_lookup (error : JsError) : Octokit Mock.world :=
  mkOctokit
    (fun _ _ _ w => (Fail error, w))
    (fun _ _ per_page page => Mock.list_page per_page page)
    (fun _ _ _ name _ => Mock.upload_asset name)
    (fun _ _ asset_id => Mock.delete_asset asset_id).

(** Every upload is rejected with [error]; the rest is [Mock]. *)
Definition no_upload (error : JsError) : Octokit Mock.world :=
  mkOctokit
    (fun _ _ tag => Mock.get_by_tag tag)
    (fun _ _ per_page page => Mock.list_page per_page page)
    (fun _ _ _ _ _ w => (Fail error, w))
    (fun _ _ asset_id => Mock.delete_asset asset_id).

Definition forbidden : JsError := Mock.http 403 "Resource not accessible".
Definition unavailable : JsError := Mock.http 503 "Service Unavailable".
End Faulty.

(** ** A service with a fixed listing *)

Module Archive.
(** The listing is that of [Scenario.long_world] whatever the state of
    the service; the rest is [Mock]. *)
Definition github : Octokit Mock.world :=
  mkOctokit
    (fun _ _ tag => Mock.get_by_tag tag)
    (fun _ _ per_page page w =>
       (fst (Mock.list_page per_page page Scenario.long_world), w))
    (fun _ _ _ name _ => Mock.upload_asset name)
    (fun _ _ asset_id => Mock.delete_asset asset_id).
End Archive.

(** * Facts *)

(** ** Tactics *)

(** Unfold the operations of the monad, so that a piece of the script
    without loops is a tree of [match]es on the answers it reads. *)
Ltac expose :=
  cbv beta delta
    [bind ret emit return_ throw out_of_fuel try_catch lift await property]
    in *;
  cbn beta iota zeta delta [app fst snd] in *.

(** Split on an innermost scrutinee of the goal, then reduce. *)
Ltac split_goal :=
  match goal with
  | |- context [match ?x with _ => _ end] =>
      lazymatch x with
      | context [match _ with _ => _ end] => fail
      | _ => let E := fresh "E" in destruct x eqn:E
      end
  end;
  cbn beta iota zeta delta [app fst snd] in *.

Ltac split_in H :=
  match type of H with
  | context [match ?x with _ => _ end] =>
      lazymatch x with
      | context [match _ with _ => _ end] => fail
      | _ => let E := fresh "E" in destruct x eqn:E
      end
  end;
  cbn beta iota zeta delta [app fst snd] in H.

Ltac in_trace H :=
  repeat match type of H with
         | In _ (_ :: _) => destruct H as [H | H]
         | In _ [] => destruct H
         | _ = _ => first [discriminate H | injection H as <- <- <- <-]
         end.

(** ** The monad *)

Section MonadFacts.
Variable World : Type.

Lemma bind_inv {A B} (m : M World A) (k : A -> M World B) w r w' t :
  bind m k w = (r, w', t) ->
  (exists a w1 t1 t2,
      m w = (Val a, w1, t1) /\ k a w1 = (r, w', t2) /\ t = t1 ++ t2) \/
  (exists r0, m w = (r0, w', t) /\ stopped r0 r).
Proof.
  unfold bind. destruct (m w) as [[r0 w1] t1].
  destruct r0 as [a| |e|].
  - destruct (k a w1) as [[r2 w2] t2] eqn:Hk. intros [= <- <- <-].
    left. now exists a, w1, t1, t2.
  - intros [= <- <- <-]. right. now exists Return.
  - intros [= <- <- <-]. right. now exists (Throw e).
  - intros [= <- <- <-]. right. now exists OutOfFuel.
Qed.

Lemma bind_val {A B} (m : M World A) (k : A -> M World B) w a w1 t1 :
  m w = (Val a, w1, t1) ->
  bind m k w =
  (fst (fst (k a w1)), snd (fst (k a w1)), t1 ++ snd (k a w1)).
Proof.
  unfold bind. intros ->. now destruct (k a w1) as [[r2 w2] t2].
Qed.

Lemma stopped_not_val {A B} (r0 : Res A) (b : B) : ~ stopped r0 (Val b).
Proof. now destruct r0. Qed.
End MonadFacts.

(** ** Strings *)

Lemma truthy_false (s : string) : truthy s = false <-> s = EmptyString.
Proof. destruct s; simpl; split; congruence. Qed.

Lemma truthy_true (s : string) : truthy s = true <-> s <> EmptyString.
Proof. destruct s; simpl; split; congruence. Qed.

Lemma startsWith_iff (s p : string) :
  startsWith s p = true <-> exists rest, s = (p ++ rest)%string.
Proof.
  unfold startsWith. revert s.
  induction p as [|c p IH]; intros s; simpl.
  - destruct s; split; eauto.
  - destruct s as [|d s]; simpl.
    + split; [discriminate | intros [rest H]; discriminate].
    + destruct (ascii_dec c d) as [->|Hcd].
      * rewrite IH. split; intros [rest H]; exists rest; congruence.
      * split; [discriminate | intros [rest H]; congruence].
Qed.

Lemma substring_all (s : string) : String.substring 0 (String.length s) s = s.
Proof. induction s; simpl; congruence. Qed.

Lemma substring_skip (p rest : string) :
  String.substring (String.length p) (String.length rest) (p ++ rest) = rest.
Proof. induction p; simpl; [apply substring_all | assumption]. Qed.

Lemma append_length (p rest : string) :
  String.length (p ++ rest) = String.length p + String.length rest.
Proof. induction p; simpl; congruence. Qed.

(** On a string that starts with the pattern, [replace] by the empty
    string leaves what follows the pattern. *)
Lemma replace_prefix (p rest : string) :
  replace (p ++ rest) p "" = rest.
Proof.
  unfold replace.
  assert (Hi : String.index 0 p (p ++ rest) = Some 0).
  { assert (Hp : String.prefix p (p ++ rest) = true)
      by (apply (startsWith_iff (p ++ rest) p); now exists rest).
    destruct p as [|c p]; simpl in *.
    - now destruct rest.
    - now rewrite Hp. }
  rewrite Hi. simpl.
  rewrite append_length.
  replace (String.length p + String.length rest - String.length p)
    with (String.length rest) by lia.
  replace (String.substring 0 0 (p ++ rest)) with EmptyString
    by (now destruct (p ++ rest)%string).
  simpl. apply substring_skip.
Qed.

(** ** Lists *)

Lemma find_app_none {A} (f : A -> bool) (l1 l2 : list A) :
  find f l1 = None -> find f (l1 ++ l2) = find f l2.
Proof.
  induction l1 as [|a l1 IH]; simpl; [reflexivity |].
  destruct (f a); [discriminate | exact IH].
Qed.

Lemma find_concat_passed {A} (f : A -> bool) (full : list (list A)) (l : list A) :
  Forall (fun page => find f page = None) full ->
  find f (concat (full ++ [l])) = find f l.
Proof.
  induction 1 as [|page full Hpage Hfull IH]; simpl.
  - now rewrite app_nil_r.
  - now rewrite find_app_none.
Qed.

Lemma find_none_iff {A} (f : A -> bool) (l : list A) :
  find f l = None <-> forall x, In x l -> f x = false.
Proof.
  split.
  - intros H x Hin. now apply (find_none f l H).
  - intros H. induction l as [|a l IH]; simpl; [reflexivity |].
    rewrite (H a (or_introl eq_refl)). apply IH.
    intros x Hin. apply H. now right.
Qed.

Lemma flat_map_nil_iff {A B} (f : A -> list B) (l : list A) :
  flat_map f l = [] <-> forall x, In x l -> f x = [].
Proof.
  induction l as [|a l IH]; simpl.
  - split; [intros _ x [] | reflexivity].
  - split.
    + intros H. apply app_eq_nil in H. destruct H as [Ha Hl].
      intros x [<- | Hin]; [assumption | now apply IH].
    + intros H. rewrite (H a (or_introl eq_refl)). apply IH.
      intros x Hin. apply H. now right.
Qed.

Lemma flat_map_ext_in {A B} (f g : A -> list B) (l : list A) :
  (forall x, In x l -> f x = g x) -> flat_map f l = flat_map g l.
Proof.
  induction l as [|a l IH]; intros H; simpl; [reflexivity |].
  rewrite (H a (or_introl eq_refl)), IH; [reflexivity |].
  intros x Hin. apply H. now right.
Qed.

(** From here on the messages stay as they are written: [simpl] and
    [cbn] do not unfold the concatenation of strings. *)
#[local] Arguments String.append : simpl never.

(** ** The set of collected paths *)

Lemma existsb_eqb_In (x : string) (l : list string) :
  existsb (String.eqb x) l = true <-> In x l.
Proof.
  rewrite existsb_exists. split.
  - intros (y & Hy & Heq). apply String.eqb_eq in Heq. now subst.
  - intros H. exists x. split; [assumption | apply String.eqb_refl].
Qed.

Lemma Set_add_In (set : list string) (x y : string) :
  In y (Set_add set x) <-> In y set \/ y = x.
Proof.
  unfold Set_add. destruct (existsb (String.eqb x) set) eqn:E.
  - apply existsb_eqb_In in E. split; [tauto | intros [H | ->]; assumption].
  - rewrite in_app_iff. simpl. split.
    + intros [H | [<- | []]]; [now left | now right].
    + intros [H | ->]; [now left | right; now left].
Qed.

Lemma Set_add_NoDup (set : list string) (x : string) :
  NoDup set -> NoDup (Set_add set x).
Proof.
  intros Hnd. unfold Set_add.
  destruct (existsb (String.eqb x) set) eqn:E; [assumption |].
  assert (Hx : ~ In x set).
  { intros Hin. apply existsb_eqb_In in Hin. congruence. }
  clear E. induction Hnd as [|y set Hy Hnd IH]; simpl.
  - constructor; [tauto | constructor].
  - constructor.
    + rewrite in_app_iff. simpl. intros [H | [H | []]]; [tauto |].
      subst. apply Hx. now left.
    + apply IH. intros H. apply Hx. now right.
Qed.

Lemma fold_Set_add_NoDup (l set : list string) :
  NoDup set -> NoDup (fold_left Set_add l set).
Proof.
  revert set. induction l as [|x l IH]; intros set Hnd; simpl.
  - assumption.
  - apply IH. now apply Set_add_NoDup.
Qed.

Lemma fold_Set_add_In (l set : list string) (y : string) :
  In y (fold_left Set_add l set) <-> In y set \/ In y l.
Proof.
  revert set. induction l as [|x l IH]; intros set; simpl.
  - tauto.
  - rewrite IH, Set_add_In. intuition.
Qed.

(** The set built by insertion is the first-occurrence deduplication:
    what is already in the set plays the part of what was met before. *)
Lemma fold_Set_add_dedup (l set seen : list string) :
  (forall x, In x seen <-> In x set) ->
  fold_left Set_add l set = set ++ dedup_after seen l.
Proof.
  revert set seen. induction l as [|x l IH]; intros set seen Hsame; simpl.
  - now rewrite app_nil_r.
  - unfold Set_add at 2.
    destruct (existsb (String.eqb x) set) eqn:Eset;
      destruct (existsb (String.eqb x) seen) eqn:Eseen.
    + now apply IH.
    + apply existsb_eqb_In, Hsame, existsb_eqb_In in Eset. congruence.
    + apply existsb_eqb_In, Hsame, existsb_eqb_In in Eseen. congruence.
    + rewrite (IH (set ++ [x]) (x :: seen)).
      * now rewrite <- app_assoc.
      * intros y. simpl. rewrite in_app_iff, Hsame. simpl. tauto.
  Qed.

Lemma Set_of_dedup_first (l : list string) : Set_of l = dedup_first l.
Proof. unfold Set_of, dedup_first. now rewrite (fold_Set_add_dedup l [] []). Qed.

Lemma Set_of_NoDup (l : list string) : NoDup (Set_of l).
Proof. apply fold_Set_add_NoDup. constructor. Qed.

Lemma Set_of_In (l : list string) (y : string) : In y (Set_of l) <-> In y l.
Proof. unfold Set_of. rewrite fold_Set_add_In. simpl. tauto. Qed.

Lemma Set_of_nil (l : list string) : Set_of l = [] <-> l = [].
Proof.
  split; [| now intros ->].
  intros H. destruct l as [|x l]; [reflexivity |].
  assert (Hin : In x (Set_of (x :: l))) by (apply Set_of_In; now left).
  rewrite H in Hin. destruct Hin.
Qed.

(** The order of first occurrences: the deduplication of a sequence
    followed by a new path ends with that path. *)
Lemma Set_of_app (l1 l2 : list string) :
  Set_of (l1 ++ l2) = fold_left Set_add l2 (Set_of l1).
Proof. unfold Set_of. apply fold_left_app. Qed.

(** ** Projections of a trace *)

Lemma uploaded_app (t1 t2 : list Event) :
  uploaded (t1 ++ t2) = uploaded t1 ++ uploaded t2.
Proof. apply flat_map_app. Qed.

Lemma outputs_app (t1 t2 : list Event) :
  outputs (t1 ++ t2) = outputs t1 ++ outputs t2.
Proof. apply flat_map_app. Qed.

Lemma failures_app (t1 t2 : list Event) :
  failures (t1 ++ t2) = failures t1 ++ failures t2.
Proof. apply flat_map_app. Qed.

(** A trace of early events shows no upload and sets no output. *)
Lemma early_quiet (t : list Event) :
  forallb early t = true ->
  uploaded t = [] /\ outputs t = [] /\
  forall ev, In ev t -> is_upload ev = false.
Proof.
  induction t as [|ev t IH]; simpl; [now repeat split |].
  rewrite andb_true_iff. intros [Hev Ht].
  destruct (IH Ht) as (Hup & Hout & Hin).
  destruct ev; try discriminate Hev; simpl; repeat split; auto;
    intros ev' [<- | H]; auto.
Qed.

Lemma failures_pattern_events (fs : FileSystem) (js : JsRuntime)
    (assetPaths : list JsValue) :
  failures (flat_map (pattern_events fs js) assetPaths) = [].
Proof.
  induction assetPaths as [|pattern rest IH]; [reflexivity |].
  cbn [flat_map]. rewrite failures_app, IH. unfold pattern_events.
  now destruct (Nat.eqb (List.length (regular_files fs pattern)) 0).
Qed.

(** ** The collector *)

Section CollectorFacts.
Variable World : Type.
Variable fs : FileSystem.
Variable js : JsRuntime.

Lemma keep_files_inv globbed_ files (w : World) res w' t :
  keep_files fs globbed_ files w = (res, w', t) ->
  w' = w /\ t = [] /\
  match res with
  | Val kept =>
      kept = files ++ filter (regular fs) globbed_ /\
      Forall (stat_answers fs) globbed_
  | Throw _ => ~ Forall (stat_answers fs) globbed_
  | _ => False
  end.
Proof.
  revert files w res w' t.
  induction globbed_ as [|path rest IH]; intros files w res w' t; simpl.
  - unfold ret. intros [= <- <- <-].
    rewrite app_nil_r. repeat split. constructor.
  - intros H. apply bind_inv in H.
    destruct H as [(b & w1 & t1 & t2 & Hstat & Hrest & ->) | (r0 & Hstat & Hstop)].
    + unfold lift in Hstat.
      destruct (statSync_isFile fs path) as [b'|e] eqn:Eb;
        [| discriminate Hstat].
      injection Hstat as <- <- <-.
      apply IH in Hrest. destruct Hrest as (-> & -> & Hres).
      repeat split. destruct res as [kept| |e|]; try assumption.
      * destruct Hres as [-> Hall]. unfold regular at 2. rewrite Eb.
        split; [| constructor; [now exists b' | assumption]].
        destruct b'; [now rewrite <- app_assoc | reflexivity].
      * intros Hall. inversion Hall. now apply Hres.
    + unfold lift in Hstat.
      destruct (statSync_isFile fs path) as [b'|e] eqn:Eb.
      * injection Hstat as <- <- <-. destruct res; contradiction.
      * injection Hstat as <- <- <-.
        destruct res as [kept| |e'|]; try contradiction.
        repeat split. intros Hall. inversion Hall as [|? ? [b Hb] ?].
        congruence.
Qed.

Lemma readable_cons pattern rest :
  readable fs (pattern :: rest) <->
  (exists found, glob fs pattern = Ok found /\ Forall (stat_answers fs) found) /\
  readable fs rest.
Proof.
  unfold readable. split.
  - intros H. inversion H. now split.
  - intros [H1 H2]. now constructor.
Qed.

Lemma expand_patterns_inv assetPaths filesToUpload (w : World) res w' t :
  expand_patterns fs js assetPaths filesToUpload w = (res, w', t) ->
  w' = w /\ forallb early t = true /\
  match res with
  | Val files =>
      files = filesToUpload ++ flat_map (regular_files fs) assetPaths /\
      readable fs assetPaths /\
      t = flat_map (pattern_events fs js) assetPaths
  | Throw _ => ~ readable fs assetPaths
  | _ => False
  end.
Proof.
  revert filesToUpload w res w' t.
  induction assetPaths as [|pattern rest IH];
    intros filesToUpload w res w' t H; simpl in H.
  - unfold ret in H. injection H as <- <- <-. simpl. rewrite app_nil_r.
    repeat split. constructor.
  - cbn [flat_map]. apply bind_inv in H.
    destruct H as [(found & w1 & t1 & t2 & Hglob & Hnext & ->)
                  | (r0 & Hglob & Hstop)].
    + unfold await in Hglob.
      destruct (glob fs pattern) as [found'|e] eqn:Eglob;
        [| discriminate Hglob].
      injection Hglob as <- <- <-.
      apply bind_inv in Hnext.
      destruct Hnext as [(files & w2 & t3 & t4 & Hkeep & Hnext & ->)
                        | (r0 & Hkeep & Hstop)].
      * apply keep_files_inv in Hkeep.
        destruct Hkeep as (-> & -> & -> & Hstats). simpl in Hnext.
        assert (Hreg : regular_files fs pattern = filter (regular fs) found')
          by (unfold regular_files, globbed; now rewrite Eglob).
        assert (Hev : pattern_events fs js pattern =
                      [Glob pattern (Ok found');
                       if Nat.eqb (List.length (filter (regular fs) found')) 0
                       then no_match_warning js pattern
                       else matched_info js pattern
                              (List.length (filter (regular fs) found'))])
          by (unfold pattern_events; now rewrite Hreg, Eglob).
        destruct (Nat.eqb (List.length (filter (regular fs) found')) 0) eqn:En;
          unfold bind at 1, emit at 1 in Hnext;
          match type of Hnext with
          | context [expand_patterns fs js rest ?acc w] =>
              destruct (expand_patterns fs js rest acc w)
                as [[r2 w2] t2] eqn:Hrest
          end;
          injection Hnext as <- <- <-;
          apply IH in Hrest; destruct Hrest as (-> & Hearly & Hres);
          (split; [reflexivity |]);
          (split; [simpl; exact Hearly |]);
          destruct r2 as [files| |e|]; try assumption.
        -- destruct Hres as (-> & Hread & ->). rewrite Hreg, Hev.
           apply Nat.eqb_eq in En. apply length_zero_iff_nil in En.
           rewrite En. simpl. repeat split.
           apply readable_cons. split; [now exists found' | assumption].
        -- intros Hread. apply readable_cons in Hread. now apply Hres.
        -- destruct Hres as (-> & Hread & ->). rewrite Hreg, Hev.
           rewrite <- app_assoc. repeat split.
           apply readable_cons. split; [now exists found' | assumption].
        -- intros Hread. apply readable_cons in Hread. now apply Hres.
      * apply keep_files_inv in Hkeep. destruct Hkeep as (-> & -> & Hres).
        destruct r0 as [x| |e|]; try contradiction.
        destruct res as [x| |e'|]; try contradiction.
        repeat split. intros Hread. apply readable_cons in Hread.
        destruct Hread as [(found & Hfound & Hstats) _].
        apply Hres. congruence.
    + unfold await in Hglob.
      destruct (glob fs pattern) as [found'|e] eqn:Eglob;
        injection Hglob as <- <- <-; destruct res; try contradiction.
      repeat split. intros Hread. apply readable_cons in Hread.
      destruct Hread as [(found & Hfound & _) _]. congruence.
Qed.

Lemma collect_files_inv assetPaths (w : World) res w' t :
  collect_files fs js assetPaths w = (res, w', t) ->
  w' = w /\ forallb early t = true /\
  match res with
  | Val files =>
      files = upload_plan fs assetPaths /\ files <> [] /\
      readable fs assetPaths /\ failures t = [] /\
      exists rest, t = flat_map (pattern_events fs js) assetPaths ++ rest
  | Return =>
      readable fs assetPaths /\ upload_plan fs assetPaths = [] /\
      flat_map (regular_files fs) assetPaths = [] /\
      t = flat_map (pattern_events fs js) assetPaths ++
          [SetFailed no_files_message]
  | Throw _ => ~ readable fs assetPaths
  | OutOfFuel => False
  end.
Proof.
  unfold collect_files. intros H. apply bind_inv in H.
  destruct H as [(files & w1 & t1 & t2 & Hexp & Hnext & ->)
                | (r0 & Hexp & Hstop)];
    apply expand_patterns_inv in Hexp;
    destruct Hexp as (-> & Hearly & Hres).
  - destruct Hres as (-> & Hread & ->). simpl in Hnext. unfold upload_plan.
    rewrite <- Set_of_dedup_first.
    set (all := flat_map (regular_files fs) assetPaths) in *.
    destruct (Nat.eqb (List.length (Set_of all)) 0) eqn:En.
    + apply Nat.eqb_eq, length_zero_iff_nil in En.
      expose. injection Hnext as <- <- <-.
      rewrite forallb_app, Hearly. repeat split; try assumption.
      now apply Set_of_nil.
    + apply Nat.eqb_neq in En. expose.
      destruct (negb (Nat.eqb (List.length all) (List.length (Set_of all))));
        injection Hnext as <- <- <-;
        rewrite forallb_app, failures_app, failures_pattern_events, Hearly;
        repeat split; try assumption;
        try (intros Hnil; now rewrite Hnil in En);
        eexists; reflexivity.
  - destruct r0 as [x| |e|]; try contradiction.
    destruct res as [x| |e'|]; try contradiction. now repeat split.
Qed.
End CollectorFacts.

Lemma regular_true (fs : FileSystem) (path : string) :
  regular fs path = true <-> statSync_isFile fs path = Ok true.
Proof.
  unfold regular. destruct (statSync_isFile fs path) as [[|]|e];
    split; congruence.
Qed.

(** ** The resolver *)

Section ResolverFacts.
Variable World : Type.
Variable github : Octokit World.
Variable context : Context.t.

Let owner := Context.owner context.
Let repo := Context.repo context.

Lemma get_by_tag_eq targetTag trimmedReleaseName (w : World) :
  get_by_tag github context targetTag trimmedReleaseName w =
  match getReleaseByTag github owner repo targetTag w with
  | (Ok release, w1) =>
      if truthy trimmedReleaseName &&
         negb (String.eqb (Release.name release) trimmedReleaseName)
      then
        (Return, w1,
         lookup_events context targetTag (Ok release) ++
         [Info ("Found release by tag: " ++ describe release);
          SetFailed (mismatch_message release trimmedReleaseName)])
      else
        (Val (Some release), w1,
         lookup_events context targetTag (Ok release) ++
         [Info ("Found release by tag: " ++ describe release)])
  | (Fail e, w1) =>
      if not_found e then
        (Val None, w1,
         lookup_events context targetTag (Fail e) ++
         [Info "Release not found by tag API (might be draft), searching all releases..."])
      else (Throw e, w1, lookup_events context targetTag (Fail e))
  end.
Proof.
  unfold get_by_tag, lookup_events. expose. fold owner repo.
  repeat split_goal; reflexivity.
Qed.

(** The listing loop, unrolled: full pages without a match, then the
    page that ends it. *)
Lemma search_releases_inv fuel targetTag trimmedReleaseName page
    (w : World) res w' t :
  search_releases github context fuel targetTag trimmedReleaseName page w =
    (res, w', t) ->
  exists full final,
    t = page_events page full ++ final /\
    Forall (passed_over targetTag trimmedReleaseName) full /\
    List.length full <= fuel /\
    ((exists releases release,
        final = [ListReleases 100 (page + List.length full) (Ok releases);
                 Info (found_message targetTag trimmedReleaseName release)] /\
        find (matches targetTag trimmedReleaseName) releases = Some release /\
        res = Val (Some release)) \/
     (exists releases,
        final = [ListReleases 100 (page + List.length full) (Ok releases)] /\
        find (matches targetTag trimmedReleaseName) releases = None /\
        List.length releases < 100 /\
        res = Val None) \/
     (exists e,
        final = [ListReleases 100 (page + List.length full) (Fail e)] /\
        res = Throw e) \/
     (final = [] /\ res = OutOfFuel /\ List.length full = fuel)).
Proof.
  revert page w res w' t.
  induction fuel as [|fuel IH]; intros page w res w' t H; simpl in H.
  - unfold out_of_fuel in H. injection H as <- <- <-.
    exists [], []. repeat split; auto. right. right. right. auto.
  - unfold bind at 1, await in H. fold owner repo in H.
    destruct (listReleases github owner repo 100 page w)
      as [[releases|e] w1] eqn:Hlist.
    + destruct (find (matches targetTag trimmedReleaseName) releases)
        as [release|] eqn:Hfind.
      * expose. injection H as <- <- <-.
        exists [], [ListReleases 100 page (Ok releases);
                    Info (found_message targetTag trimmedReleaseName release)].
        simpl. rewrite Nat.add_0_r. repeat split; auto with arith.
        left. now exists releases, release.
      * destruct (Nat.ltb (List.length releases) 100) eqn:Hshort.
        -- expose. injection H as <- <- <-.
           exists [], [ListReleases 100 page (Ok releases)].
           simpl. rewrite Nat.add_0_r. repeat split; auto with arith.
           right. left. exists releases.
           apply Nat.ltb_lt in Hshort. auto.
        -- destruct (search_releases github context fuel targetTag
                       trimmedReleaseName (S page) w1)
             as [[r2 w2] t2] eqn:Hrest.
           injection H as <- <- <-.
           apply IH in Hrest.
           destruct Hrest as (full & final & -> & Hfull & Hlen & Hend).
           exists (releases :: full), final. simpl.
           replace (page + S (List.length full))
             with (S page + List.length full) by lia.
           repeat split; auto with arith.
           ++ constructor; [| assumption]. split; [assumption |].
              apply Nat.ltb_ge in Hshort. exact Hshort.
           ++ destruct Hend as [H | [H | [H | (-> & -> & <-)]]]; auto.
              right. right. right. auto.
    + injection H as <- <- <-.
      exists [], [ListReleases 100 page (Fail e)].
      simpl. rewrite Nat.add_0_r. repeat split; auto with arith.
      right. right. left. now exists e.
Qed.

(** With a finite listing and enough fuel the loop ends. *)
Lemma search_releases_ends n fuel targetTag trimmedReleaseName page
    (w : World) :
  bounded_listing github context n ->
  0 < fuel -> n + 1 < page + fuel ->
  fst (fst (search_releases github context fuel targetTag
              trimmedReleaseName page w)) <> OutOfFuel.
Proof.
  intros Hbound. revert page w.
  induction fuel as [|fuel IH]; intros page w Hpos Hfuel; [lia |].
  simpl. unfold bind at 1, await. fold owner repo.
  destruct (listReleases github owner repo 100 page w)
    as [[releases|e] w1] eqn:Hlist; [| simpl; discriminate].
  destruct (find (matches targetTag trimmedReleaseName) releases);
    [simpl; discriminate |].
  destruct (Nat.ltb (List.length releases) 100) eqn:Hshort;
    [simpl; discriminate |].
  apply Nat.ltb_ge in Hshort.
  assert (Hpage : page <= n).
  { destruct (Nat.le_gt_cases page n) as [Hle | Hgt]; [assumption |].
    pose proof (Hbound w page releases w1 Hgt Hlist). lia. }
  specialize (IH (S page) w1).
  destruct (search_releases github context fuel targetTag
              trimmedReleaseName (S page) w1) as [[r2 w2] t2].
  simpl in *. apply IH; lia.
Qed.
End ResolverFacts.

Lemma matches_iff (targetTag trimmedReleaseName : string) (r : Release.t) :
  truthy targetTag || truthy trimmedReleaseName = true ->
  (matches targetTag trimmedReleaseName r = true <->
   (truthy targetTag = true -> Release.tag_name r = targetTag) /\
   (truthy trimmedReleaseName = true -> Release.name r = trimmedReleaseName)).
Proof.
  unfold matches.
  destruct (truthy targetTag), (truthy trimmedReleaseName); simpl;
    try discriminate; intros _;
    rewrite ?andb_true_iff, ?String.eqb_eq; intuition congruence.
Qed.

Lemma mismatch_is_not_not_found (r : Release.t)
    (targetTag trimmedReleaseName : string) :
  mismatch_message r trimmedReleaseName <>
  not_found_message targetTag trimmedReleaseName.
Proof.
  unfold mismatch_message, not_found_message.
  repeat split_goal; cbv [String.append]; discriminate.
Qed.

Lemma page_events_early (full : list (list Release.t)) (page : nat) :
  forallb early (page_events page full) = true /\
  failures (page_events page full) = [].
Proof.
  revert page. induction full as [|releases rest IH]; intros page; simpl.
  - now split.
  - apply IH.
Qed.

(** ** Traces of the phases *)

Section PhaseFacts.
Variable World : Type.
Variable github : Octokit World.
Variable fs : FileSystem.
Variable js : JsRuntime.
Variable context : Context.t.

Lemma parse_inputs_trace params (w : World) res w' t :
  parse_inputs js context params w = (res, w', t) ->
  w' = w /\ forallb early t = true /\
  match res with
  | Val inputs =>
      JSON_parse js (assetPathsInput params) = Ok (JArray (fst inputs)) /\
      failures t = []
  | Return => True
  | _ => False
  end.
Proof.
  unfold parse_inputs, parse_asset_paths, determine_target. expose.
  intros H. repeat split_in H; injection H as <- <- <-;
    repeat split; reflexivity || assumption.
Qed.

Lemma find_release_trace fuel targetTag trimmedReleaseName
    (w : World) res w' t :
  find_release github context fuel targetTag trimmedReleaseName w =
    (res, w', t) ->
  forallb early t = true /\ (forall r, res = Val r -> failures t = []).
Proof.
  unfold find_release. intros H. apply bind_inv in H.
  assert (Hsearch : forall w0 r2 w2 t2,
            search_releases github context fuel targetTag
              trimmedReleaseName 1 w0 = (r2, w2, t2) ->
            forallb early t2 = true /\ failures t2 = []).
  { intros w0 r2 w2 t2 H2. apply search_releases_inv in H2.
    destruct H2 as (full & final & -> & _ & _ & Hend).
    rewrite forallb_app, failures_app.
    destruct (page_events_early full 1) as [-> ->].
    destruct Hend as [(releases & release & -> & _)
                     | [(releases & -> & _) | [(e & -> & _) | (-> & _)]]];
      now split. }
  assert (Hlist : forall r0 w0 r w1 t1,
            match r0 with
            | Some found => ret (Some found)
            | None =>
                if truthy targetTag || truthy trimmedReleaseName then
                  bind (emit searching_info) (fun _ =>
                    bind (search_releases github context fuel targetTag
                            trimmedReleaseName 1)
                      (fun release =>
                         match release with
                         | Some found => ret (Some found)
                         | None =>
                             bind (emit (SetFailed
                                     (not_found_message targetTag
                                        trimmedReleaseName)))
                               (fun _ => return_)
                         end))
                else ret None
            end w0 = (r, w1, t1) ->
            forallb early t1 = true /\
            (forall x : option Release.t, r = Val x -> failures t1 = [])).
  { intros r0 w0 r w1 t1 H1. destruct r0 as [found|].
    - unfold ret in H1. injection H1 as <- <- <-. now split.
    - destruct (truthy targetTag || truthy trimmedReleaseName).
      + unfold bind at 1, emit at 1 in H1. unfold bind at 1 in H1.
        destruct (search_releases github context fuel targetTag
                    trimmedReleaseName 1 w0) as [[r2 w2] t2] eqn:H2.
        destruct (Hsearch _ _ _ _ H2) as [He Hf].
        destruct r2 as [[found|]| |e|]; expose;
          injection H1 as <- <- <-; cbn [forallb early andb failures flat_map];
          rewrite ?forallb_app, ?failures_app, ?app_nil_r, ?He, ?Hf;
          split; try reflexivity; try discriminate; auto.
      + unfold ret in H1. injection H1 as <- <- <-. now split. }
  destruct H as [(r0 & w1 & t1 & t2 & Hget & Hnext & ->) | (r0 & Hget & Hstop)].
  - apply Hlist in Hnext. destruct Hnext as [He Hf].
    destruct (truthy targetTag).
    + rewrite get_by_tag_eq in Hget.
      repeat split_in Hget; try discriminate Hget;
        injection Hget as <- <- <-;
        rewrite forallb_app, He; (split; [reflexivity |]);
        intros x Hx; rewrite failures_app, (Hf x Hx); reflexivity.
    + unfold ret in Hget. injection Hget as <- <- <-. now split.
  - destruct (truthy targetTag).
    + rewrite get_by_tag_eq in Hget.
      repeat split_in Hget; injection Hget as <- <- <-;
        try contradiction; (split; [reflexivity |]);
        intros x ->; contradiction.
    + unfold ret in Hget. injection Hget as <- <- <-. contradiction.
Qed.
End PhaseFacts.

(** ** One file of the upload loop *)

Section UploadFacts.
Variable World : Type.
Variable github : Octokit World.
Variable fs : FileSystem.
Variable js : JsRuntime.
Variable context : Context.t.

Let owner := Context.owner context.
Let repo := Context.repo context.

(** What the loop body does once the first upload of a file is refused
    with a name conflict, branch by branch. *)
Lemma upload_file_conflict r deny urls filePath w content e w1 :
  readFileSync fs filePath = Ok content ->
  uploadReleaseAsset github owner repo (Release.id r)
    (basename js filePath) content w = (Fail e, w1) ->
  already_exists e = true ->
  upload_file github fs js context (Some r) deny urls filePath w =
  let fileName := basename js filePath in
  let start := refused r fileName content e in
  if deny then
    (Throw e, w1, start ++ [SetFailed (conflict_message fileName)])
  else
    match find (fun a => String.eqb (Asset.name a) fileName)
            (Release.assets r) with
    | None =>
        (Throw e, w1,
         start ++ [Warning (overwriting_message fileName);
                   Error (missing_message fileName);
                   Error (replace_failed_message fileName e)])
    | Some existing =>
        match deleteReleaseAsset github owner repo (Asset.id existing) w1 with
        | (Fail e2, w2) =>
            (Throw e2, w2,
             start ++ [Warning (overwriting_message fileName);
                       DeleteReleaseAsset (Asset.id existing) (Fail e2);
                       Error (replace_failed_message fileName e2)])
        | (Ok u, w2) =>
            match uploadReleaseAsset github owner repo (Release.id r)
                    fileName content w2 with
            | (Fail e3, w3) =>
                (Throw e3, w3,
                 start ++ [Warning (overwriting_message fileName);
                           DeleteReleaseAsset (Asset.id existing) (Ok u);
                           Info (deleted_message fileName);
                           UploadReleaseAsset (Release.id r) fileName
                             content (Fail e3);
                           Error (replace_failed_message fileName e3)])
            | (Ok asset, w3) =>
                (Val (urls ++ [Asset.browser_download_url asset]), w3,
                 start ++ [Warning (overwriting_message fileName);
                           DeleteReleaseAsset (Asset.id existing) (Ok u);
                           Info (deleted_message fileName);
                           UploadReleaseAsset (Release.id r) fileName
                             content (Ok asset);
                           Info (uploaded_message fileName)])
            end
        end
    end.
Proof.
  intros Hread Hup Hconflict.
  unfold upload_file, replace_asset, upload, refused. expose.
  fold owner repo. rewrite Hread, Hup, Hconflict.
  cbn beta iota zeta delta [app fst snd].
  repeat split_goal; reflexivity.
Qed.

(** A file whose first upload resolves. *)
Lemma upload_file_ok r deny urls filePath w content asset w1 :
  readFileSync fs filePath = Ok content ->
  uploadReleaseAsset github owner repo (Release.id r)
    (basename js filePath) content w = (Ok asset, w1) ->
  upload_file github fs js context (Some r) deny urls filePath w =
  (Val (urls ++ [Asset.browser_download_url asset]), w1,
   [Info (uploading_message (basename js filePath) content);
    UploadReleaseAsset (Release.id r) (basename js filePath) content
      (Ok asset);
    Info (uploaded_message (basename js filePath))]).
Proof.
  intros Hread Hup. unfold upload_file, upload. expose.
  fold owner repo. now rewrite Hread, Hup.
Qed.

(** The loop on a plan that starts with a file the body throws on. *)
Lemma upload_files_throw release deny filePath rest urls w e w1 t :
  upload_file github fs js context release deny urls filePath w =
    (Throw e, w1, t) ->
  upload_files github fs js context release deny (filePath :: rest) urls w =
    (Throw e, w1, t).
Proof. intros H. simpl. unfold bind. now rewrite H. Qed.

Lemma upload_files_next release deny filePath rest urls w urls1 w1 t :
  upload_file github fs js context release deny urls filePath w =
    (Val urls1, w1, t) ->
  upload_files github fs js context release deny (filePath :: rest) urls w =
  (fst (fst (upload_files github fs js context release deny rest urls1 w1)),
   snd (fst (upload_files github fs js context release deny rest urls1 w1)),
   t ++ snd (upload_files github fs js context release deny rest urls1 w1)).
Proof. intros H. simpl. now apply bind_val. Qed.
End UploadFacts.

(** ** The upload loop as a whole *)

Section LoopFacts.
Variable World : Type.
Variable github : Octokit World.
Variable fs : FileSystem.
Variable js : JsRuntime.
Variable context : Context.t.

Lemma upload_file_trace release deny urls filePath (w : World) res w' t :
  upload_file github fs js context release deny urls filePath w =
    (res, w', t) ->
  step_facts release deny urls (basename js filePath) res t.
Proof.
  unfold upload_file, replace_asset, upload, step_facts. expose.
  intros H.
  repeat split_in H; injection H as <- <- <-;
    (split; [reflexivity |]); (split; [try exact I |]).
  all: try (eexists; repeat split; try reflexivity; discriminate).
  all: intros Hdeny rid name data err Hin Hconflict; try discriminate Hdeny.
  all: in_trace Hin; try congruence.
  all: split; [reflexivity |].
  all: eexists [_]; reflexivity.
Qed.

Lemma upload_files_trace release deny files urls (w : World) res w' t :
  upload_files github fs js context release deny files urls w =
    (res, w', t) ->
  loop_facts js release deny urls files res t.
Proof.
  revert urls w res w' t.
  induction files as [|filePath rest IH]; intros urls w res w' t H;
    simpl in H.
  - unfold ret in H. injection H as <- <- <-. unfold loop_facts. simpl.
    rewrite app_nil_r. repeat split; try tauto; intros _ ? ? ? ? [].
  - apply bind_inv in H.
    destruct H as [(urls1 & w1 & t1 & t2 & Hfile & Hrest & ->)
                  | (r0 & Hfile & Hstop)];
      apply upload_file_trace in Hfile;
      destruct Hfile as (Hout1 & Hres1 & Hdeny1).
    + apply IH in Hrest. destruct Hrest as (Hout2 & Hres2 & Hdeny2).
      destruct Hres1 as (url & -> & Hup1 & Hfail1 & Hsome).
      unfold loop_facts.
      rewrite outputs_app, Hout1, Hout2, uploaded_app, Hup1, failures_app,
        Hfail1.
      split; [reflexivity | split].
      * destruct res as [urls'| |e|]; try assumption.
        destruct Hres2 as (-> & Hnames & Hfail2 & _).
        simpl. rewrite Hnames, <- app_assoc. repeat split; auto.
      * intros Hdeny rid name data e Hin Hconflict.
        apply in_app_or in Hin. destruct Hin as [Hin | Hin].
        -- destruct (Hdeny1 Hdeny rid name data e Hin Hconflict) as [Hno _].
           discriminate Hno.
        -- destruct (Hdeny2 Hdeny rid name data e Hin Hconflict)
             as [-> (before & ->)].
           split; [reflexivity |].
           exists (t1 ++ before). now rewrite app_assoc.
    + destruct r0 as [x| |e|]; try contradiction.
      destruct res as [x| |e'|]; try contradiction.
      simpl in Hstop. subst e'.
      unfold loop_facts. split; [assumption | split; [exact I |]].
      exact Hdeny1.
Qed.

Lemma set_output_eq (release : Release.t) urls (w : World) :
  set_output js (Some release) urls w =
  (Val tt, w,
   [SetOutput "download_urls" (output_value js urls);
    Info ("✅ Successfully uploaded " ++
          string_of_nat (List.length urls) ++ " asset(s)");
    Summary "Release Assets Uploaded"
      ("Release: " ++ Release.name release ++ " (" ++
       Release.tag_name release ++ ")")
      (map (fun url =>
              ("[" ++ basename js url ++ "](" ++ url ++ ")")%string) urls)]).
Proof. reflexivity. Qed.
End LoopFacts.

(** ** The run as a whole *)

Section RunFacts.
Variable World : Type.
Variable github : Octokit World.
Variable fs : FileSystem.
Variable js : JsRuntime.
Variable context : Context.t.

(** A run either stops before the upload loop, having written early
    events only, or reaches the loop with the plan of the collector;
    the loop then stops the run, or all files are uploaded and the run
    ends with the closing events. *)
Lemma upload_assets_inv fuel params (w : World) res w' t :
  upload_assets github fs js context fuel params w = (res, w', t) ->
  (forallb early t = true /\ forall u, res <> Val u) \/
  (exists assetPaths release w1 t1 ru wu tu,
     JSON_parse js (assetPathsInput params) = Ok (JArray assetPaths) /\
     forallb early t1 = true /\ failures t1 = [] /\
     upload_plan fs assetPaths <> [] /\
     upload_files github fs js context release
       (denyOverwriteBool (denyOverwrite params))
       (upload_plan fs assetPaths) [] w1 = (ru, wu, tu) /\
     ((stopped ru res /\ w' = wu /\ t = t1 ++ tu) \/
      (exists urls r,
         ru = Val urls /\ release = Some r /\ res = Val tt /\ w' = wu /\
         t = t1 ++ tu ++ closing_events js r urls))).
Proof.
  unfold upload_assets. intros H. apply bind_inv in H.
  destruct H as [(inputs & wp & tp & t2 & Hparse & H & ->)
                | (rp & Hparse & Hstop)];
    apply parse_inputs_trace in Hparse;
    destruct Hparse as (-> & Hearlyp & Hresp).
  2:{ left. split; [assumption |]. intros u ->.
      now apply stopped_not_val in Hstop. }
  destruct Hresp as [Hjson Hfailp]. cbn zeta in H.
  apply bind_inv in H.
  destruct H as [(release & wf & tf & t3 & Hfind & H & ->)
                | (rf & Hfind & Hstop)];
    apply find_release_trace in Hfind; destruct Hfind as [Hearlyf Hfailf].
  2:{ left. rewrite forallb_app, Hearlyp, Hearlyf.
      split; [reflexivity |]. intros u ->.
      now apply stopped_not_val in Hstop. }
  specialize (Hfailf release eq_refl).
  apply bind_inv in H.
  destruct H as [(files & wc & tc & t4 & Hcollect & H & ->)
                | (rc & Hcollect & Hstop)];
    apply collect_files_inv in Hcollect;
    destruct Hcollect as (-> & Hearlyc & Hresc).
  2:{ left. rewrite !forallb_app, Hearlyp, Hearlyf, Hearlyc.
      split; [reflexivity |]. intros u ->.
      now apply stopped_not_val in Hstop. }
  destruct Hresc as (-> & Hplan & _ & Hfailc & _).
  right. exists (fst inputs), release, wf, (tp ++ tf ++ tc).
  apply bind_inv in H.
  destruct H as [(urls & wu & tu & t5 & Hloop & H & ->)
                | (ru & Hloop & Hstop)].
  - exists (Val urls), wu, tu.
    rewrite !forallb_app, !failures_app, Hearlyp, Hearlyf, Hearlyc,
      Hfailp, Hfailf, Hfailc.
    repeat split; try assumption.
    right. pose proof (upload_files_trace _ _ _ _ _ _ _ _ _ Hloop)
      as (_ & (_ & _ & _ & Hsome) & _).
    destruct release as [r|]; [| now destruct (Hsome Hplan)].
    rewrite set_output_eq in H. injection H as <- <- <-.
    exists urls, r. repeat split. now rewrite <- !app_assoc.
  - exists ru, w', t4.
    rewrite !forallb_app, !failures_app, Hearlyp, Hearlyf, Hearlyc,
      Hfailp, Hfailf, Hfailc.
    repeat split; try assumption.
    left. repeat split; [assumption |]. now rewrite <- !app_assoc.
Qed.
(** The two kinds of run: one that sets no output and does not run to
    the end, and one that runs to the end, reports no failure, has
    uploaded the plan file by file and sets the output once. *)
Lemma run_summary fuel params (w : World) res w' t :
  upload_assets github fs js context fuel params w = (res, w', t) ->
  (outputs t = [] /\ res <> Val tt) \/
  (res = Val tt /\ failures t = [] /\
   exists assetPaths,
     JSON_parse js (assetPathsInput params) = Ok (JArray assetPaths) /\
     map fst (uploaded t) =
       map (basename js) (upload_plan fs assetPaths) /\
     outputs t = [("download_urls", output_value js (map snd (uploaded t)))]).
Proof.
  intros H. apply upload_assets_inv in H.
  destruct H as [[Hearly Hres]
                | (assetPaths & release & w1 & t1 & ru & wu & tu & Hjson &
                   Hearly & Hfail1 & Hplan & Hloop & Hend)].
  - left. split; [now apply early_quiet | apply Hres].
  - apply early_quiet in Hearly. destruct Hearly as (Hup1 & Hout1 & _).
    apply upload_files_trace in Hloop.
    destruct Hloop as (Houtu & Hresu & _).
    destruct Hend as [(Hstop & -> & ->)
                     | (urls & r & -> & -> & -> & -> & ->)].
    + left. rewrite outputs_app, Hout1, Houtu. split; [reflexivity |].
      intros ->. now apply stopped_not_val in Hstop.
    + right. destruct Hresu as (-> & Hnames & Hfailu & _).
      rewrite !failures_app, !uploaded_app, !outputs_app,
        Hfail1, Hfailu, Hup1, Hout1, Houtu.
      cbn [app closing_events failures uploaded outputs flat_map].
      rewrite app_nil_r.
      split; [reflexivity | split; [reflexivity |]].
      exists assetPaths. repeat split; assumption.
Qed.
End RunFacts.

(** * The claims *)

Section Claims.
Variable World : Type.
Variable github : Octokit World.
Variable fs : FileSystem.
Variable js : JsRuntime.
Variable context : Context.t.

Let owner := Context.owner context.
Let repo := Context.repo context.

(** C1.  The fallback listing.  When a tag or a name is set and the
    indexed lookup, if there is a tag, answered not-found, the resolver
    announces the search and asks for pages 1, 2, ... of 100 releases.
    Every page before the last one listed is full and has no match.
    The last page ends the search in one of three ways: it holds a
    match, and the first match in list order over all listed pages is
    the resolved release; or it is short and nothing listed matches,
    and the run returns after [core.setFailed] with the message for the
    criteria in use; or the service rejects the call, which is thrown.
    The predicate compares tag and name exactly, each only when it is
    set, and does not look at the draft flag.  The three not-found
    messages name the tag, the name, or both.  On a finite listing the
    loop ends as soon as the fuel exceeds the number of full pages. *)
Theorem listing_fallback (fuel : nat) (targetTag trimmedReleaseName : string)
    (w : World) (res : Res (option Release.t)) (w' : World)
    (t : list Event) :
  truthy targetTag || truthy trimmedReleaseName = true ->
  (truthy targetTag = true ->
   exists e w0,
     getReleaseByTag github owner repo targetTag w = (Fail e, w0) /\
     not_found e = true) ->
  find_release github context fuel targetTag trimmedReleaseName w =
    (res, w', t) ->
  (exists before full final,
     t = before ++ searching_info :: page_events 1 full ++ final /\
     listed before = [] /\ failures before = [] /\
     Forall (passed_over targetTag trimmedReleaseName) full /\
     ((exists releases release,
         final = [ListReleases 100 (1 + List.length full) (Ok releases);
                  Info (found_message targetTag trimmedReleaseName release)] /\
         find (matches targetTag trimmedReleaseName)
           (concat (full ++ [releases])) = Some release /\
         matches targetTag trimmedReleaseName release = true /\
         res = Val (Some release)) \/
      (exists releases,
         final = [ListReleases 100 (1 + List.length full) (Ok releases);
                  SetFailed (not_found_message targetTag trimmedReleaseName)] /\
         List.length releases < 100 /\
         (forall r, In r (concat (full ++ [releases])) ->
                    matches targetTag trimmedReleaseName r = false) /\
         res = Return) \/
      (exists e,
         final = [ListReleases 100 (1 + List.length full) (Fail e)] /\
         res = Throw e) \/
      (final = [] /\ res = OutOfFuel /\ List.length full = fuel))) /\
  (forall n, bounded_listing github context n -> n < fuel ->
             res <> OutOfFuel) /\
  (forall r,
     matches targetTag trimmedReleaseName r = true <->
     (truthy targetTag = true -> Release.tag_name r = targetTag) /\
     (truthy trimmedReleaseName = true ->
      Release.name r = trimmedReleaseName)) /\
  (truthy targetTag = true -> truthy trimmedReleaseName = true ->
   not_found_message targetTag trimmedReleaseName =
   ("No release found with tag '" ++ targetTag ++ "' and name '" ++
    trimmedReleaseName ++ "'")%string) /\
  (truthy targetTag = true -> truthy trimmedReleaseName = false ->
   not_found_message targetTag trimmedReleaseName =
   ("No release found with tag '" ++ targetTag ++ "'")%string) /\
  (truthy targetTag = false ->
   not_found_message targetTag trimmedReleaseName =
   ("No release found with name '" ++ trimmedReleaseName ++ "'")%string).
Proof.
  intros Hcriteria Hlookup Hrun.
  (* the part of the run before the search *)
  assert (Hsplit : exists before w0,
             listed before = [] /\ failures before = [] /\
             forall r2 w2 t2,
               search_releases github context fuel targetTag
                 trimmedReleaseName 1 w0 = (r2, w2, t2) ->
               find_release github context fuel targetTag
                 trimmedReleaseName w =
               match r2 with
               | Val (Some found) =>
                   (Val (Some found), w2, before ++ searching_info :: t2)
               | Val None =>
                   (Return, w2,
                    before ++ searching_info :: t2 ++
                    [SetFailed
                       (not_found_message targetTag trimmedReleaseName)])
               | Return => (Return, w2, before ++ searching_info :: t2)
               | Throw e => (Throw e, w2, before ++ searching_info :: t2)
               | OutOfFuel => (OutOfFuel, w2, before ++ searching_info :: t2)
               end).
  { unfold find_release. destruct (truthy targetTag) eqn:Htag.
    - destruct (Hlookup eq_refl) as (e & w0 & Hget & H404).
      exists (lookup_events context targetTag (Fail e) ++
              [Info "Release not found by tag API (might be draft), searching all releases..."]),
             w0.
      split; [reflexivity | split; [reflexivity |]].
      intros r2 w2 t2 Hsearch.
      unfold bind at 1. rewrite get_by_tag_eq. fold owner repo.
      rewrite Hget, H404. cbn [orb]. unfold bind at 1, emit at 1.
      unfold bind at 1. rewrite Hsearch. unfold searching_info.
      destruct r2 as [[found|]| | |]; expose;
        rewrite <- ?app_assoc, ?app_nil_r; reflexivity.
    - simpl in Hcriteria. rewrite Hcriteria.
      exists [], w. split; [reflexivity | split; [reflexivity |]].
      intros r2 w2 t2 Hsearch. cbn [orb]. expose. rewrite Hsearch.
      unfold searching_info.
      destruct r2 as [[found|]| | |]; rewrite ?app_nil_r; reflexivity. }
  destruct Hsplit as (before & w0 & Hlisted & Hfailed & Hfind).
  destruct (search_releases github context fuel targetTag
              trimmedReleaseName 1 w0) as [[r2 w2] t2] eqn:Hsearch.
  specialize (Hfind r2 w2 t2 eq_refl). rewrite Hfind in Hrun.
  split; [| split; [| split; [| repeat split]]].
  - pose proof (search_releases_inv _ _ _ _ _ _ _ Hsearch)
      as (full & final & -> & Hfull & Hlen & Hend).
    assert (Hnone : Forall (fun page =>
              find (matches targetTag trimmedReleaseName) page = None) full).
    { eapply Forall_impl; [| exact Hfull]. now intros page [Hp _]. }
    destruct Hend as [(releases & release & -> & Hmatch & ->)
                     | [(releases & -> & Hmatch & Hshort & ->)
                       | [(e & -> & ->) | (-> & -> & Hspent)]]];
      injection Hrun as <- <- <-.
    + exists before, full. eexists. repeat split; try eassumption.
      left. exists releases, release. repeat split.
      * now rewrite find_concat_passed.
      * now apply find_some in Hmatch.
    + exists before, full. eexists.
      split; [| repeat split; try eassumption].
      * rewrite <- app_assoc. reflexivity.
      * right. left. exists releases. repeat split; [assumption |].
        apply find_none_iff. now rewrite find_concat_passed.
    + exists before, full. eexists. repeat split; try eassumption.
      right. right. left. now exists e.
    + exists before, full, []. repeat split; try eassumption.
      right. right. right. auto.
  - intros n Hbound Hfuel ->.
    pose proof (search_releases_ends (fuel := fuel) targetTag
                  trimmedReleaseName 1 w0 Hbound) as Hends.
    rewrite Hsearch in Hends. simpl in Hends.
    destruct r2 as [[found|]| | |]; try discriminate Hrun.
    apply Hends; [lia | lia | reflexivity].
  - intros r. now apply matches_iff.
  - intros Htag Hname. unfold not_found_message. now rewrite Htag, Hname.
  - intros Htag Hname. unfold not_found_message. now rewrite Htag, Hname.
  - intros Htag. unfold not_found_message. now rewrite Htag.
Qed.

(** C2.  With overwriting denied, an upload that the service refuses
    with a name conflict is the last call of the run: the only event
    after it is [core.setFailed] with the conflict message, whose
    second line names the asset, the run throws the conflict error and
    no output is set.  In the loop, the refused file ends the plan: the
    files after it are not read and the list of URLs is not returned. *)
Theorem denied_conflict_aborts (fuel : nat) (params : Params)
    (w : World) (res : Res unit) (w' : World) (t : list Event)
    (rid : nat) (name : string) (data : list Byte.byte) (e : JsError) :
  denyOverwriteBool (denyOverwrite params) = true ->
  upload_assets github fs js context fuel params w = (res, w', t) ->
  In (UploadReleaseAsset rid name data (Fail e)) t ->
  already_exists e = true ->
  res = Throw e /\
  (exists before,
     t = before ++ [UploadReleaseAsset rid name data (Fail e);
                    SetFailed (conflict_message name)]) /\
  conflict_message name =
    ("Error: Overwriting artifacts is not prohibited ❌" ++ newline ++
     "Asset '" ++ name ++ "' already exists in this release." ++ newline ++
     "Set 'deny_overwrite: false' to allow replacing existing assets.")%string /\
  outputs t = [] /\
  (forall r filePath rest urls w0 w1,
     readFileSync fs filePath = Ok data ->
     basename js filePath = name ->
     uploadReleaseAsset github (Context.owner context)
       (Context.repo context) (Release.id r) name data w0 = (Fail e, w1) ->
     upload_files github fs js context (Some r) true (filePath :: rest)
       urls w0 =
     (Throw e, w1,
      refused r name data e ++ [SetFailed (conflict_message name)])).
Proof.
  intros Hdeny Hrun Hin Hconflict.
  assert (Hloop : forall r filePath rest urls w0 w1,
     readFileSync fs filePath = Ok data ->
     basename js filePath = name ->
     uploadReleaseAsset github (Context.owner context)
       (Context.repo context) (Release.id r) name data w0 = (Fail e, w1) ->
     upload_files github fs js context (Some r) true (filePath :: rest)
       urls w0 =
     (Throw e, w1,
      refused r name data e ++ [SetFailed (conflict_message name)])).
  { intros r filePath rest urls w0 w1 Hread <- Hup.
    apply upload_files_throw.
    now rewrite (upload_file_conflict github fs js context r true urls
                   filePath w0 Hread Hup Hconflict). }
  pose proof Hrun as Hsum. apply run_summary in Hsum.
  apply upload_assets_inv in Hrun.
  destruct Hrun as [[Hearly _]
                   | (assetPaths & release & w1 & t1 & ru & wu & tu & _ &
                      Hearly & _ & _ & Hfiles & Hend)].
  - apply early_quiet in Hearly. destruct Hearly as (_ & _ & Hnone).
    now apply Hnone in Hin.
  - apply early_quiet in Hearly. destruct Hearly as (_ & _ & Hnone).
    apply upload_files_trace in Hfiles.
    destruct Hfiles as (_ & _ & Hdenied). rewrite Hdeny in Hdenied.
    specialize (Hdenied eq_refl rid name data e).
    assert (Hin' : In (UploadReleaseAsset rid name data (Fail e)) tu).
    { destruct Hend as [(_ & _ & ->) | (urls & r & _ & _ & _ & _ & ->)];
        apply in_app_or in Hin; destruct Hin as [Hin | Hin];
        try (now apply Hnone in Hin); try assumption.
      apply in_app_or in Hin. destruct Hin as [Hin | Hin]; [assumption |].
      unfold closing_events in Hin. in_trace Hin. }
    destruct (Hdenied Hin' Hconflict) as [-> (before & ->)].
    destruct Hend as [(Hstop & -> & ->) | (urls & r & Hval & _)];
      [| discriminate Hval].
    destruct res as [x| |e'|]; try contradiction. simpl in Hstop. subst e'.
    repeat split; try assumption.
    + exists (t1 ++ before). now rewrite app_assoc.
    + destruct Hsum as [[Hout _] | (Hval & _)];
        [assumption | discriminate Hval].
Qed.

(** C3.  A file whose upload is refused with a name conflict while
    overwriting is allowed.  When the snapshot [release.assets] read at
    resolution time has no asset of that name, the loop throws the
    conflict error after logging the inconsistency: no deletion is
    requested and no later file is tried.  When it has one, that asset
    is deleted, once; a refused deletion is thrown; after a deletion
    the upload is tried again, once; a refused retry is thrown; a
    resolved retry appends exactly one URL for the file, the URL of the
    new asset, and the loop goes on with the rest of the plan; when it
    ends, the URLs it gives are those of the resolved uploads, one for
    this file and one for each file after it. *)
Theorem conflict_overwrite_allowed
    (r : Release.t) (filePath : string) (rest urls : list string)
    (w w1 : World) (content : list Byte.byte) (e : JsError) :
  let fileName := basename js filePath in
  let loop := upload_files github fs js context (Some r) false in
  let conflict :=
    refused r fileName content e ++ [Warning (overwriting_message fileName)] in
  readFileSync fs filePath = Ok content ->
  uploadReleaseAsset github owner repo (Release.id r) fileName content w =
    (Fail e, w1) ->
  already_exists e = true ->
  (find (fun a => String.eqb (Asset.name a) fileName) (Release.assets r)
     = None ->
   loop (filePath :: rest) urls w =
     (Throw e, w1,
      conflict ++ [Error (missing_message fileName);
                   Error (replace_failed_message fileName e)])) /\
  (forall existing,
     find (fun a => String.eqb (Asset.name a) fileName) (Release.assets r)
       = Some existing ->
     (forall e2 w2,
        deleteReleaseAsset github owner repo (Asset.id existing) w1 =
          (Fail e2, w2) ->
        loop (filePath :: rest) urls w =
          (Throw e2, w2,
           conflict ++ [DeleteReleaseAsset (Asset.id existing) (Fail e2);
                        Error (replace_failed_message fileName e2)])) /\
     (forall u w2,
        deleteReleaseAsset github owner repo (Asset.id existing) w1 =
          (Ok u, w2) ->
        (forall e3 w3,
           uploadReleaseAsset github owner repo (Release.id r) fileName
             content w2 = (Fail e3, w3) ->
           loop (filePath :: rest) urls w =
             (Throw e3, w3,
              conflict ++
              [DeleteReleaseAsset (Asset.id existing) (Ok u);
               Info (deleted_message fileName);
               UploadReleaseAsset (Release.id r) fileName content (Fail e3);
               Error (replace_failed_message fileName e3)])) /\
        (forall asset w3,
           uploadReleaseAsset github owner repo (Release.id r) fileName
             content w2 = (Ok asset, w3) ->
           let replaced :=
             conflict ++
             [DeleteReleaseAsset (Asset.id existing) (Ok u);
              Info (deleted_message fileName);
              UploadReleaseAsset (Release.id r) fileName content (Ok asset);
              Info (uploaded_message fileName)] in
           upload_file github fs js context (Some r) false urls filePath w =
             (Val (urls ++ [Asset.browser_download_url asset]), w3,
              replaced) /\
           uploaded replaced =
             [(fileName, Asset.browser_download_url asset)] /\
           forall res w' t,
             loop rest (urls ++ [Asset.browser_download_url asset]) w3 =
               (res, w', t) ->
             loop (filePath :: rest) urls w = (res, w', replaced ++ t) /\
             forall urls',
               res = Val urls' ->
               urls' = urls ++ Asset.browser_download_url asset ::
                               map snd (uploaded t) /\
               map fst (uploaded (replaced ++ t)) =
                 fileName :: map (basename js) rest))).
Proof.
  intros fileName loop conflict Hread Hup Hconflict.
  pose proof (upload_file_conflict github fs js context r false urls
                filePath w Hread Hup Hconflict) as Hfile.
  cbn zeta in Hfile. fold fileName in Hfile.
  split.
  - intros Hfind. rewrite Hfind in Hfile.
    apply upload_files_throw. exact Hfile.
  - intros existing Hfind. rewrite Hfind in Hfile. split.
    + intros e2 w2 Hdel. fold owner repo in Hfile. rewrite Hdel in Hfile.
      apply upload_files_throw. exact Hfile.
    + intros u w2 Hdel. fold owner repo in Hfile. rewrite Hdel in Hfile.
      split.
      * intros e3 w3 Hretry. rewrite Hretry in Hfile.
        apply upload_files_throw. exact Hfile.
      * intros asset w3 Hretry replaced. rewrite Hretry in Hfile.
        split; [exact Hfile | split; [reflexivity |]].
        intros res w' t Hrest. split.
        -- unfold loop.
           rewrite (upload_files_next _ _ _ _ _ _ _ _ _ _ Hfile).
           fold loop. now rewrite Hrest.
        -- intros urls' ->. apply upload_files_trace in Hrest.
           destruct Hrest as (_ & (-> & Hnames & _) & _).
           rewrite uploaded_app, <- app_assoc. split; [reflexivity |].
           cbn [map app fst]. now rewrite <- Hnames.
Qed.

(** C4.  When a tag and a name are set and the indexed lookup resolves
    to a release with another name, the resolver returns after
    [core.setFailed] with the mismatch message, whatever the listing
    would answer: [listReleases] is not called.  The message is not the
    not-found message, and a run whose parser gave this tag and name
    ends there. *)
Theorem name_mismatch_stops (fuel : nat)
    (targetTag trimmedReleaseName : string) (w w1 : World)
    (release : Release.t) :
  truthy targetTag = true ->
  truthy trimmedReleaseName = true ->
  getReleaseByTag github owner repo targetTag w = (Ok release, w1) ->
  Release.name release <> trimmedReleaseName ->
  let t :=
    lookup_events context targetTag (Ok release) ++
    [Info ("Found release by tag: " ++ describe release);
     SetFailed (mismatch_message release trimmedReleaseName)] in
  find_release github context fuel targetTag trimmedReleaseName w =
    (Return, w1, t) /\
  listed t = [] /\
  failures t = [mismatch_message release trimmedReleaseName] /\
  mismatch_message release trimmedReleaseName <>
    not_found_message targetTag trimmedReleaseName /\
  (forall params w0 t0 assetPaths,
     parse_inputs js context params w0 =
       (Val (assetPaths, (targetTag, trimmedReleaseName)), w, t0) ->
     upload_assets github fs js context fuel params w0 =
       (Return, w1, t0 ++ t)).
Proof.
  intros Htag Hname Hget Hdiff t.
  assert (Hfind : find_release github context fuel targetTag
                    trimmedReleaseName w = (Return, w1, t)).
  { unfold find_release. rewrite Htag. unfold bind at 1.
    rewrite get_by_tag_eq. fold owner repo. rewrite Hget, Hname.
    apply String.eqb_neq in Hdiff. rewrite Hdiff. reflexivity. }
  repeat split; try assumption; try reflexivity.
  - apply mismatch_is_not_not_found.
  - intros params w0 t0 assetPaths Hparse.
    unfold upload_assets, bind at 1. rewrite Hparse.
    cbn [fst snd]. unfold bind at 1. rewrite Hfind. reflexivity.
Qed.

(** C5.  When the collector gives a list, the list has no path twice,
    every path in it is a regular file (a path whose [stat] says it is
    not a file, such as a directory, is not in it), and it is the
    first-occurrence deduplication of the regular matches of the
    patterns, concatenated in pattern order.  The collector does give
    that list whenever no [glob] or [stat] call throws and some pattern
    matches a regular file. *)
Theorem collector_output (assetPaths : list JsValue) (w : World) :
  (forall files w' t,
     collect_files fs js assetPaths w = (Val files, w', t) ->
     NoDup files /\
     (forall path, In path files -> statSync_isFile fs path = Ok true) /\
     (forall path, statSync_isFile fs path = Ok false -> ~ In path files) /\
     files = dedup_first (flat_map (regular_files fs) assetPaths) /\
     (forall path,
        In path files <->
        exists pattern,
          In pattern assetPaths /\ In path (globbed fs pattern) /\
          statSync_isFile fs path = Ok true)) /\
  (readable fs assetPaths ->
   flat_map (regular_files fs) assetPaths <> [] ->
   exists t,
     collect_files fs js assetPaths w =
       (Val (upload_plan fs assetPaths), w, t)).
Proof.
  assert (Hin : forall path,
            In path (upload_plan fs assetPaths) <->
            exists pattern,
              In pattern assetPaths /\ In path (globbed fs pattern) /\
              statSync_isFile fs path = Ok true).
  { intros path. unfold upload_plan.
    rewrite <- Set_of_dedup_first, Set_of_In, in_flat_map.
    unfold regular_files.
    split; intros (pattern & Hp & Hpath); exists pattern;
      rewrite filter_In, regular_true in *; tauto. }
  split.
  - intros files w' t H. apply collect_files_inv in H.
    destruct H as (_ & _ & -> & _).
    repeat split.
    + unfold upload_plan. rewrite <- Set_of_dedup_first.
      apply Set_of_NoDup.
    + intros path Hpath. apply Hin in Hpath.
      now destruct Hpath as (_ & _ & _ & Hstat).
    + intros path Hdir Hpath. apply Hin in Hpath.
      destruct Hpath as (_ & _ & _ & Hstat). congruence.
    + apply Hin.
    + apply Hin.
  - intros Hread Hsome.
    destruct (collect_files fs js assetPaths w) as [[res w'] t] eqn:H.
    apply collect_files_inv in H. destruct H as (-> & _ & Hres).
    destruct res as [files| |e|].
    + destruct Hres as (-> & _). now exists t.
    + now destruct Hres as (_ & _ & Hnone & _).
    + now destruct Hres.
    + destruct Hres.
Qed.

(** C6.  A run that reaches its end has parsed a pattern array, has
    uploaded the files of the deduplicated plan one after the other
    under their base names, each resolved upload once, and has set
    [download_urls] once, to the JSON text of the array of the URLs the
    service answered, in that order; it reported no failure. *)
Theorem download_urls_in_upload_order (fuel : nat) (params : Params)
    (w w' : World) (t : list Event) :
  upload_assets github fs js context fuel params w = (Val tt, w', t) ->
  exists assetPaths,
    JSON_parse js (assetPathsInput params) = Ok (JArray assetPaths) /\
    map fst (uploaded t) = map (basename js) (upload_plan fs assetPaths) /\
    List.length (uploaded t) = List.length (upload_plan fs assetPaths) /\
    outputs t =
      [("download_urls",
        JSON_stringify js (JArray (map JString (map snd (uploaded t)))))] /\
    failures t = [].
Proof.
  intros H. apply run_summary in H.
  destruct H as [[_ Hno] | (_ & Hfail & assetPaths & Hjson & Hnames & Hout)];
    [now destruct Hno |].
  exists assetPaths. repeat split; try assumption.
  rewrite <- (length_map fst), Hnames. apply length_map.
Qed.

(** C7.  The collector returns after [core.setFailed] with the
    no-files message exactly when no call throws and the deduplicated
    collection is empty, that is when no pattern has a regular match.
    A pattern without a regular match is warned about and does not stop
    a collection that finds files elsewhere.  When the collection is
    empty the collector has expanded every pattern, in order, and warned
    about each one before reporting the failure; nothing else is
    written.  A run that reaches the collector then ends there, with no
    output set. *)
Theorem no_files_found_exactly (assetPaths : list JsValue) (w : World)
    (res : Res (list string)) (w' : World) (t : list Event) :
  collect_files fs js assetPaths w = (res, w', t) ->
  (res = Return <->
   readable fs assetPaths /\ upload_plan fs assetPaths = []) /\
  (upload_plan fs assetPaths = [] <->
   forall pattern, In pattern assetPaths -> regular_files fs pattern = []) /\
  (forall files,
     res = Val files ->
     files <> [] /\ failures t = [] /\
     forall pattern,
       In pattern assetPaths -> regular_files fs pattern = [] ->
       In (no_match_warning js pattern) t) /\
  (res = Return ->
   w' = w /\
   t = flat_map (fun pattern =>
                   [Glob pattern (glob fs pattern);
                    no_match_warning js pattern]) assetPaths ++
       [SetFailed no_files_message] /\
   forall fuel params w0 t0 target release t1,
     parse_inputs js context params w0 = (Val (assetPaths, target), w0, t0) ->
     find_release github context fuel (fst target) (snd target) w0 =
       (Val release, w, t1) ->
     upload_assets github fs js context fuel params w0 =
       (Return, w, t0 ++ t1 ++ t) /\
     outputs (t0 ++ t1 ++ t) = []).
Proof.
  intros H.
  assert (Hplan : upload_plan fs assetPaths = [] <->
                  forall pattern, In pattern assetPaths ->
                                  regular_files fs pattern = []).
  { unfold upload_plan.
    now rewrite <- Set_of_dedup_first, Set_of_nil, flat_map_nil_iff. }
  pose proof (collect_files_inv _ _ _ _ H) as (-> & Hearly & Hres).
  split; [| split; [exact Hplan | split]].
  - split.
    + intros ->. now destruct Hres as (? & ? & _).
    + intros [Hread Hnone]. destruct res as [files| |e|].
      * destruct Hres as (-> & Hne & _). now destruct Hne.
      * reflexivity.
      * now destruct Hres.
      * destruct Hres.
  - intros files ->.
    destruct Hres as (_ & Hne & _ & Hfail & (rest & ->)).
    split; [assumption | split; [assumption |]].
    intros pattern Hin Hzero. apply in_or_app. left.
    apply in_flat_map. exists pattern. split; [assumption |].
    unfold pattern_events. rewrite Hzero. simpl. tauto.
  - intros ->. destruct Hres as (Hread & Hnone & _ & Ht).
    split; [reflexivity | split].
    + rewrite Ht. f_equal. apply flat_map_ext_in. intros pattern Hin.
      unfold pattern_events.
      now rewrite (proj1 Hplan Hnone pattern Hin).
    + intros fuel params w0 t0 target release t1 Hparse Hfind.
      split.
      * unfold upload_assets, bind at 1. rewrite Hparse. cbn [fst snd].
        unfold bind at 1. rewrite Hfind.
        unfold bind at 1. rewrite H. reflexivity.
      * apply parse_inputs_trace in Hparse.
        destruct Hparse as (_ & Hearly0 & _).
        apply find_release_trace in Hfind. destruct Hfind as [Hearly1 _].
        apply early_quiet.
        now rewrite !forallb_app, Hearly0, Hearly1, Hearly.
Qed.

(** C8.  The parser always ends, without touching the remote service.
    It ends by [return] after one [core.setFailed] exactly when the
    input is invalid in one of the three ways; the whole run is then
    that single failure, before any call of the service.  Otherwise it
    gives the parsed inputs and reports no failure. *)
Theorem invalid_input_exactly (fuel : nat) (params : Params) (w : World) :
  exists r t,
    parse_inputs js context params w = (r, w, t) /\
    (r = Return <-> invalid_input js context params) /\
    (r = Return ->
     exists msg,
       t = [SetFailed msg] /\
       upload_assets github fs js context fuel params w =
         (Return, w, [SetFailed msg])) /\
    (r <> Return ->
     exists inputs,
       r = Val inputs /\ failures t = [] /\
       Forall (fun ev => is_remote ev = false) t).
Proof.
  destruct (parse_inputs js context params w) as [[r w1] t] eqn:Hparse.
  assert (Hrun : r = Return ->
            upload_assets github fs js context fuel params w =
              (Return, w1, t)).
  { intros ->. unfold upload_assets, bind at 1. now rewrite Hparse. }
  pose proof (startsWith_iff (Context.ref context) "refs/tags/") as Href.
  unfold parse_inputs, parse_asset_paths, determine_target in Hparse.
  expose. unfold invalid_input, nonempty_array.
  repeat split_in Hparse;
    injection Hparse as <- <- <-;
    do 2 eexists;
    (split; [reflexivity |]);
    repeat match goal with
           | H : truthy _ = true |- _ => apply truthy_true in H
           | H : negb _ = true |- _ => apply negb_true_iff in H
           | H : negb _ = false |- _ => apply negb_false_iff in H
           | H : truthy _ = false |- _ => apply truthy_false in H
           end.
  all: split; [split; [intros Hr | intros Hbad] | split; [intros Hr | intros Hr]];
    try discriminate; try reflexivity; try (exfalso; now apply Hr).
  all: try (eexists; split; [reflexivity | now apply Hrun]).
  all: try (eexists; split; [reflexivity | split; [reflexivity |]];
            repeat constructor).
  all: try (right; left; eexists; split; [reflexivity |];
            intros (first & tail & Heq); discriminate).
  all: try (left; eexists; reflexivity).
  all: try (right; right; repeat split; try assumption;
            intros Hform; apply Href in Hform; congruence).
  all: exfalso; destruct Hbad as [[? ?] | [(? & Hv & Hno) | (Ht & Hn & Hno)]];
    try congruence.
  all: try (apply Hno; injection Hv as <-; eexists; eexists; reflexivity).
  all: apply Hno, Href; first [assumption | reflexivity].
Qed.

(** C9.  A run that does not reach its end (it returned early, threw,
    or is still listing) has set no output, and neither has a run that
    reported a failure, whatever was uploaded before.  When the output
    is set the run has reached its end without a failure, every file of
    the plan has a resolved upload, and the output was set once. *)
Theorem output_only_on_success (fuel : nat) (params : Params)
    (w : World) (res : Res unit) (w' : World) (t : list Event) :
  upload_assets github fs js context fuel params w = (res, w', t) ->
  (res <> Val tt -> outputs t = []) /\
  (failures t <> [] -> outputs t = []) /\
  (outputs t <> [] ->
   res = Val tt /\ failures t = [] /\
   exists assetPaths,
     JSON_parse js (assetPathsInput params) = Ok (JArray assetPaths) /\
     map fst (uploaded t) = map (basename js) (upload_plan fs assetPaths) /\
     outputs t = [("download_urls", output_value js (map snd (uploaded t)))]).
Proof.
  intros H. apply run_summary in H.
  destruct H as [[Hout Hres] | (Hres & Hfail & Hrest)].
  - split; [now intros _ | split; [now intros _ |]].
    intros Hset. now destruct Hset.
  - split; [intros Hno; now destruct Hno | split].
    + intros Hno. now destruct Hno.
    + intros _. now repeat split.
Qed.

(** C10.  Overwriting is denied exactly for the boolean [true] and the
    string [true]; the spellings [True], [TRUE], [1], [yes], the empty
    string and an unset value do not deny it.  With any value that does
    not deny it the run is the run with [denyOverwrite = false], and a
    file refused with a name conflict whose asset is in the snapshot is
    replaced: the asset is deleted, the upload is repeated and its URL
    is appended. *)
Theorem overwrite_denied_only_for_true (raw : JsValue) :
  (denyOverwriteBool raw = true <->
   raw = JBool true \/ raw = JString "true") /\
  Forall (fun v => denyOverwriteBool v = false)
    [JString "True"; JString "TRUE"; JString "1"; JString "yes";
     JString ""; JUndefined] /\
  (raw <> JBool true -> raw <> JString "true" ->
   (forall fuel paths tag name (w : World),
      upload_assets github fs js context fuel
        (mkParams paths tag name raw) w =
      upload_assets github fs js context fuel
        (mkParams paths tag name (JBool false)) w) /\
   (forall r urls filePath (w w1 w2 w3 : World) content e existing u asset,
      readFileSync fs filePath = Ok content ->
      uploadReleaseAsset github owner repo (Release.id r)
        (basename js filePath) content w = (Fail e, w1) ->
      already_exists e = true ->
      find (fun a => String.eqb (Asset.name a) (basename js filePath))
        (Release.assets r) = Some existing ->
      deleteReleaseAsset github owner repo (Asset.id existing) w1 =
        (Ok u, w2) ->
      uploadReleaseAsset github owner repo (Release.id r)
        (basename js filePath) content w2 = (Ok asset, w3) ->
      upload_file github fs js context (Some r) (denyOverwriteBool raw)
        urls filePath w =
      (Val (urls ++ [Asset.browser_download_url asset]), w3,
       refused r (basename js filePath) content e ++
       [Warning (overwriting_message (basename js filePath));
        DeleteReleaseAsset (Asset.id existing) (Ok u);
        Info (deleted_message (basename js filePath));
        UploadReleaseAsset (Release.id r) (basename js filePath) content
          (Ok asset);
        Info (uploaded_message (basename js filePath))]))).
Proof.
  assert (Hiff : denyOverwriteBool raw = true <->
                 raw = JBool true \/ raw = JString "true").
  { unfold denyOverwriteBool, strictly_equal_string, strictly_equal_bool.
    destruct raw as [| |[|]|lexeme|s|items|fields]; simpl;
      try (split; [discriminate | intros [H | H]; discriminate]).
    - split; auto.
    - rewrite orb_false_r, String.eqb_eq.
      split; [intros ->; now right | intros [H | H]; congruence]. }
  split; [exact Hiff | split].
  - repeat constructor.
  - intros Hbool Hstring.
    assert (Hoff : denyOverwriteBool raw = false).
    { destruct (denyOverwriteBool raw); [| reflexivity].
      destruct (proj1 Hiff eq_refl); contradiction. }
    split.
    + intros fuel paths tag name w. unfold upload_assets. simpl.
      now rewrite Hoff.
    + intros r urls filePath w w1 w2 w3 content e existing u asset
        Hread Hup Hconflict Hfind Hdel Hretry.
      rewrite Hoff.
      rewrite (upload_file_conflict github fs js context r false urls
                 filePath w Hread Hup Hconflict).
      cbn zeta. rewrite Hfind. fold owner repo. now rewrite Hdel, Hretry.
Qed.
End Claims.

(** * The script on concrete inputs *)

Lemma triple_eta {A B C} (x : A * B * C) : x = (fst (fst x), snd (fst x), snd x).
Proof. now destruct x as [[a b] c]. Qed.

(** Witness of C1: a hundred old releases and then a draft tagged
    [v2.0.0].  The indexed lookup does not see the draft; the listing
    passes over the first page and finds it on the second. *)
Lemma listing_fallback_witness :
  let result :=
    find_release Mock.github Scenario.context 2 "v2.0.0" ""
      Scenario.long_world in
  fst (fst result) = Val (Some Scenario.upcoming) /\
  map (fun call => fst call) (listed (snd result)) = [(100, 1); (100, 2)] /\
  exists before full final,
    snd result = before ++ searching_info :: page_events 1 full ++ final /\
    Forall (passed_over "v2.0.0" "") full.
Proof.
  intros result.
  split; [vm_compute; reflexivity | split; [vm_compute; reflexivity |]].
  destruct (@listing_fallback _ Mock.github Scenario.context 2 "v2.0.0" ""
              Scenario.long_world _ _ _ eq_refl
              (fun _ => ex_intro _ (Mock.http 404 "Not Found")
                          (ex_intro _ Scenario.long_world
                             (conj eq_refl eq_refl)))
              (triple_eta result))
    as ((before & full & final & Ht & _ & _ & Hfull & _) & _).
  exists before, full, final. split; assumption.
Defined.

(** Witness of C2: [b.tar.gz] is already an asset of the release and
    overwriting is denied; the refused upload of [b.tar.gz] is followed
    by the failure only, whose message names [b.tar.gz]. *)
Lemma denied_conflict_aborts_witness :
  let result :=
    Scenario.run 1 (Scenario.params Scenario.tarballs "v1.0.0" "" (JBool true))
      Scenario.stocked_world in
  In (UploadReleaseAsset 7 "b.tar.gz" [] (Fail Scenario.conflict)) (snd result) /\
  fst (fst result) = Throw Scenario.conflict /\
  failures (snd result) =
    [("Error: Overwriting artifacts is not prohibited ❌" ++ newline ++
      "Asset 'b.tar.gz' already exists in this release." ++ newline ++
      "Set 'deny_overwrite: false' to allow replacing existing assets.")%string] /\
  outputs (snd result) = [].
Proof.
  intros result.
  assert (Hin : In (UploadReleaseAsset 7 "b.tar.gz" []
                      (Fail Scenario.conflict)) (snd result))
    by (vm_compute; tauto).
  destruct (@denied_conflict_aborts _ Mock.github Scenario.fs Scenario.js
              Scenario.context 1
              (Scenario.params Scenario.tarballs "v1.0.0" "" (JBool true))
              Scenario.stocked_world _ _ _ _ _ _ _
              eq_refl (triple_eta result) Hin eq_refl)
    as (Hres & _ & Htext & Hout & _).
  split; [exact Hin | split; [exact Hres | split; [| exact Hout]]].
  vm_compute. reflexivity.
Defined.

(** Witness of C3: [b.tar.gz] is already an asset of the release and
    overwriting is allowed; the old asset is deleted and the file is
    uploaded again, which gives the one URL of the file. *)
Lemma conflict_overwrite_allowed_witness :
  let replacement := Asset.mk 100 "b.tar.gz" (Mock.url_of "b.tar.gz") in
  exists t,
    upload_file Mock.github Scenario.fs Scenario.js Scenario.context
      (Some Scenario.stocked) false [] "dist/b.tar.gz" Scenario.stocked_world =
    (Val [Mock.url_of "b.tar.gz"],
     Mock.mkWorld [Scenario.stocked] [replacement] 101, t) /\
    uploaded t = [("b.tar.gz", Mock.url_of "b.tar.gz")] /\
    In (DeleteReleaseAsset 41 (Ok tt)) t.
Proof.
  intros replacement.
  destruct (@conflict_overwrite_allowed _ Mock.github Scenario.fs Scenario.js
              Scenario.context Scenario.stocked "dist/b.tar.gz" [] []
              Scenario.stocked_world Scenario.stocked_world []
              Scenario.conflict eq_refl eq_refl eq_refl) as [_ Hfound].
  destruct (Hfound Scenario.old_b eq_refl) as [_ Hdeleted].
  destruct (Hdeleted tt (Mock.mkWorld [Scenario.stocked] [] 100) eq_refl)
    as [_ Hretried].
  destruct (Hretried replacement
              (Mock.mkWorld [Scenario.stocked] [replacement] 101) eq_refl)
    as (Hfile & Hup & _).
  eexists. split; [exact Hfile | split; [exact Hup |]].
  simpl. tauto.
Defined.

(** Witness of C4: the release tagged [v1.0.0] is named [Good Name], the
    run asks for [Bad Name]; a draft with that tag and that name is in
    the listing, and is not looked for. *)
Lemma name_mismatch_stops_witness :
  let result :=
    Scenario.run 3 (Scenario.params Scenario.tarballs "v1.0.0" "Bad Name"
                      (JString "true")) Scenario.empty_world in
  find (matches "v1.0.0" "Bad Name") (Mock.releases Scenario.empty_world) =
    Some Scenario.draft /\
  fst (fst result) = Return /\
  failures (snd result) =
    ["Release name mismatch: found 'Good Name' but expected 'Bad Name'"] /\
  listed (snd result) = [].
Proof.
  intros result.
  assert (Hdiff : Release.name Scenario.fresh <> "Bad Name") by discriminate.
  destruct (@name_mismatch_stops _ Mock.github Scenario.fs Scenario.js
              Scenario.context 3 "v1.0.0" "Bad Name" Scenario.empty_world
              Scenario.empty_world Scenario.fresh eq_refl eq_refl eq_refl Hdiff)
    as (_ & _ & _ & _ & Hrun).
  specialize (Hrun (Scenario.params Scenario.tarballs "v1.0.0" "Bad Name"
                      (JString "true"))
                Scenario.empty_world _ _ eq_refl).
  unfold result, Scenario.run. rewrite Hrun.
  repeat split.
Defined.

(** Witness of C5: two overlapping patterns and a directory among the
    matches; [b.tar.gz] is kept where it was met first and the directory
    is dropped. *)
Lemma collector_output_witness :
  let result :=
    collect_files Scenario.overlapping Scenario.js
      [JString "dist/b*"; JString "dist/*"] Scenario.empty_world in
  fst (fst result) = Val ["dist/b.tar.gz"; "dist/a.tar.gz"] /\
  NoDup ["dist/b.tar.gz"; "dist/a.tar.gz"] /\
  In (Warning "Removed 1 duplicate file(s) from overlapping glob patterns")
    (snd result).
Proof.
  intros result.
  assert (Hrun : collect_files Scenario.overlapping Scenario.js
                   [JString "dist/b*"; JString "dist/*"] Scenario.empty_world =
                 (Val ["dist/b.tar.gz"; "dist/a.tar.gz"],
                  snd (fst result), snd result))
    by (vm_compute; reflexivity).
  destruct (collector_output Scenario.overlapping Scenario.js
              [JString "dist/b*"; JString "dist/*"] Scenario.empty_world)
    as [Hout _].
  destruct (Hout _ _ _ Hrun) as (Hnodup & _).
  split; [vm_compute; reflexivity | split; [exact Hnodup |]].
  vm_compute. tauto.
Defined.

(** Witness of C6: the pattern [dist/*.tar.gz] matching [dist/a.tar.gz]
    and [dist/b.tar.gz], a release without assets: the run ends, and the
    output is the array of the two URLs, [a.tar.gz] first. *)
Lemma download_urls_in_upload_order_witness :
  let result :=
    Scenario.run 1 (Scenario.params Scenario.tarballs "v1.0.0" "" (JString "true"))
      Scenario.empty_world in
  fst (fst result) = Val tt /\
  uploaded (snd result) =
    [("a.tar.gz", Mock.url_of "a.tar.gz"); ("b.tar.gz", Mock.url_of "b.tar.gz")] /\
  outputs (snd result) =
    [("download_urls",
      Mock.stringify (JArray [JString (Mock.url_of "a.tar.gz");
                              JString (Mock.url_of "b.tar.gz")]))].
Proof.
  intros result.
  assert (Hrun : Scenario.run 1
            (Scenario.params Scenario.tarballs "v1.0.0" "" (JString "true"))
            Scenario.empty_world = (Val tt, snd (fst result), snd result))
    by (vm_compute; reflexivity).
  destruct (download_urls_in_upload_order _ _ _ _ _ _ _ Hrun)
    as (assetPaths & _ & _ & _ & Hout & _).
  split; [vm_compute; reflexivity | split; [vm_compute; reflexivity |]].
  rewrite Hout. vm_compute. reflexivity.
Defined.

(** Witness of C7: the pattern [missing/*.zip] matches nothing; the
    collector warns about it and fails, and the run sets no output. *)
Lemma no_files_found_exactly_witness :
  let result :=
    collect_files Scenario.fs Scenario.js [JString "missing/*.zip"]
      Scenario.empty_world in
  let whole :=
    Scenario.run 1 (Scenario.params "missing/*.zip" "v1.0.0" "" (JString "true"))
      Scenario.empty_world in
  fst (fst result) = Return /\
  snd result =
    [Glob (JString "missing/*.zip") (Ok []);
     Warning "No files matched pattern: missing/*.zip";
     SetFailed "No files found to upload"] /\
  fst (fst whole) = Return /\ outputs (snd whole) = [].
Proof.
  intros result whole.
  assert (Hres : fst (fst result) = Return) by (vm_compute; reflexivity).
  destruct (@no_files_found_exactly _ Mock.github Scenario.fs Scenario.js
              Scenario.context [JString "missing/*.zip"] Scenario.empty_world
              _ _ _ (triple_eta result)) as (_ & _ & _ & Hreturn).
  destruct (Hreturn Hres) as (_ & Ht & Hwhole).
  destruct (Hwhole 1 (Scenario.params "missing/*.zip" "v1.0.0" ""
                        (JString "true"))
              Scenario.empty_world _ ("v1.0.0", "") (Some Scenario.fresh) _
              eq_refl eq_refl) as [Hrun Hout].
  split; [exact Hres | split; [rewrite Ht; reflexivity |]].
  unfold whole, Scenario.run. rewrite Hrun. split; [reflexivity | exact Hout].
Defined.

(** Witness of C8: the text [7] parses to a number, not to an array. *)
Lemma invalid_input_exactly_witness :
  invalid_input Scenario.js Scenario.context
    (mkParams "7" "v1.0.0" "" JUndefined) /\
  Scenario.run 1 (mkParams "7" "v1.0.0" "" JUndefined) Scenario.empty_world =
    (Return, Scenario.empty_world,
     [SetFailed "asset_paths must be a non-empty JSON array"]).
Proof.
  destruct (invalid_input_exactly Mock.github Scenario.fs Scenario.js
              Scenario.context 1 (mkParams "7" "v1.0.0" "" JUndefined)
              Scenario.empty_world) as (r & t & Hparse & Hiff & _).
  split; [| vm_compute; reflexivity].
  apply Hiff. vm_compute in Hparse. now injection Hparse as <- _.
Defined.

(** Witness of C9: [a.tar.gz] is uploaded, [b.tar.gz] is refused while
    overwriting is denied; the run throws and sets no output. *)
Lemma output_only_on_success_witness :
  let result :=
    Scenario.run 1 (Scenario.params Scenario.tarballs "v1.0.0" "" (JBool true))
      Scenario.stocked_world in
  fst (fst result) = Throw Scenario.conflict /\
  uploaded (snd result) = [("a.tar.gz", Mock.url_of "a.tar.gz")] /\
  outputs (snd result) = [].
Proof.
  intros result.
  split; [vm_compute; reflexivity | split; [vm_compute; reflexivity |]].
  apply (output_only_on_success _ _ _ _ _ _ _ (triple_eta result)).
  vm_compute. discriminate.
Defined.

(** Witness of C10: the value [yes] does not deny overwriting; the run
    is the run with [false], and it replaces [b.tar.gz]. *)
Lemma overwrite_denied_only_for_true_witness :
  let result :=
    Scenario.run 1 (Scenario.params Scenario.tarballs "v1.0.0" "" (JString "yes"))
      Scenario.stocked_world in
  denyOverwriteBool (JString "yes") = false /\
  result =
    Scenario.run 1 (Scenario.params Scenario.tarballs "v1.0.0" "" (JBool false))
      Scenario.stocked_world /\
  fst (fst result) = Val tt /\
  In (DeleteReleaseAsset 41 (Ok tt)) (snd result).
Proof.
  intros result.
  destruct (overwrite_denied_only_for_true Mock.github Scenario.fs Scenario.js
              Scenario.context (JString "yes")) as (_ & _ & Hother).
  assert (Hbool : JString "yes" <> JBool true) by discriminate.
  assert (Hstring : JString "yes" <> JString "true") by discriminate.
  destruct (Hother Hbool Hstring) as [Hsame _].
  split; [reflexivity | split; [apply Hsame | split]].
  - vm_compute. reflexivity.
  - vm_compute. tauto.
Defined.

(** The parser on the inputs of the specification: an empty array, a
    text that does not parse, and no tag, no name and a branch ref are
    refused; a tag is taken from a tag ref.  A ref that stops after
    [refs/tags/] is of the form of a tag ref: it is accepted, with an
    empty tag. *)
Example parser_examples :
  let parse := fun ref paths tag name =>
    fst (fst (parse_inputs Scenario.js (Context.mk ref "acme" "widgets")
                (mkParams paths tag name JUndefined) Scenario.empty_world)) in
  let paths := Scenario.asset_paths Scenario.tarballs in
  let patterns := [JString Scenario.tarballs] in
  parse "refs/heads/main" "[]" "v1.0.0" "" = Return /\
  parse "refs/heads/main" "{oops" "v1.0.0" "" = Return /\
  parse "refs/heads/main" paths "  " " " = Return /\
  parse "refs/heads/main" paths " v1.0.0 " "" = Val (patterns, ("v1.0.0", "")) /\
  parse "refs/heads/main" paths "" "Next" = Val (patterns, ("", "Next")) /\
  parse "refs/tags/v1.0.0" paths "" "" = Val (patterns, ("v1.0.0", "")) /\
  parse "refs/tags/" paths "" "" = Val (patterns, ("", "")).
Proof. vm_compute. repeat split. Qed.

(** The tag taken from a tag ref is what follows [refs/tags/]. *)
Lemma derived_tag (tag : string) :
  startsWith ("refs/tags/" ++ tag) "refs/tags/" = true /\
  replace ("refs/tags/" ++ tag) "refs/tags/" "" = tag.
Proof.
  split.
  - apply startsWith_iff. now exists tag.
  - apply replace_prefix.
Qed.

(** A run with no tag, no name and the ref [refs/tags/]: no release is
    looked up, [release] stays undefined, and the first upload throws
    on reading its [id]. *)
Example run_without_target :
  upload_assets Mock.github Scenario.fs Scenario.js
    (Context.mk "refs/tags/" "acme" "widgets") 1
    (Scenario.params Scenario.tarballs "" "" JUndefined) Scenario.empty_world =
  (Throw (TypeError "id"), Scenario.empty_world,
   [Glob (JString Scenario.tarballs) (Ok ["dist/a.tar.gz"; "dist/b.tar.gz"]);
    Info "Pattern 'dist/*.tar.gz' matched 2 file(s)";
    Info "Total files to upload: 2";
    Info "Uploading: a.tar.gz (0 bytes)";
    Error "Failed to upload a.tar.gz: Cannot read properties of undefined (reading 'id')"]).
Proof. vm_compute. reflexivity. Qed.

(** * Further facts *)

(** ** Projections of a trace, continued *)

Lemma listed_app (t1 t2 : list Event) :
  listed (t1 ++ t2) = listed t1 ++ listed t2.
Proof. apply flat_map_app. Qed.

Lemma looked_up_app (t1 t2 : list Event) :
  looked_up (t1 ++ t2) = looked_up t1 ++ looked_up t2.
Proof. apply flat_map_app. Qed.

Lemma in_looked_up (t : list Event) (tag : string) (answer : Reply Release.t) :
  In (GetReleaseByTag tag answer) t -> In (tag, answer) (looked_up t).
Proof.
  intros H. unfold looked_up. apply in_flat_map.
  exists (GetReleaseByTag tag answer). split; [assumption | now left].
Qed.

Lemma fails_last_none {A} (res : Res A) (t : list Event) :
  failures t = [] -> fails_last res t.
Proof. intros H. now left. Qed.

Lemma fails_last_app {A B} (res : Res A) (res2 : Res B) (t1 t2 : list Event) :
  failures t1 = [] -> fails_last res2 t2 ->
  ((exists b, res2 = Val b) \/ forall a, res <> Val a) ->
  fails_last res (t1 ++ t2).
Proof.
  intros H1 [H2 | (Hno & before & msg & -> & Hbefore)] Hres.
  - left. now rewrite failures_app, H1, H2.
  - right. split.
    + destruct Hres as [[b ->] | Hres]; [now destruct (Hno b) | exact Hres].
    + exists (t1 ++ before), msg. rewrite app_assoc, failures_app, H1, Hbefore.
      now split.
Qed.

(** ** The resolver, case by case *)

Section ResolverCases.
Variable World : Type.
Variable github : Octokit World.
Variable context : Context.t.

Let owner := Context.owner context.
Let repo := Context.repo context.

Lemma find_release_eq fuel targetTag trimmedReleaseName (w : World) :
  find_release github context fuel targetTag trimmedReleaseName w =
  if truthy targetTag then
    match getReleaseByTag github owner repo targetTag w with
    | (Ok release, w1) =>
        if truthy trimmedReleaseName &&
           negb (String.eqb (Release.name release) trimmedReleaseName)
        then
          (Return, w1,
           lookup_events context targetTag (Ok release) ++
           [Info ("Found release by tag: " ++ describe release);
            SetFailed (mismatch_message release trimmedReleaseName)])
        else
          (Val (Some release), w1,
           lookup_events context targetTag (Ok release) ++
           [Info ("Found release by tag: " ++ describe release)])
    | (Fail e, w1) =>
        if not_found e then
          after_listing targetTag trimmedReleaseName
            (lookup_events context targetTag (Fail e) ++ [not_by_tag_info])
            (search_releases github context fuel targetTag
               trimmedReleaseName 1 w1)
        else (Throw e, w1, lookup_events context targetTag (Fail e))
    end
  else if truthy trimmedReleaseName then
    after_listing targetTag trimmedReleaseName []
      (search_releases github context fuel targetTag trimmedReleaseName 1 w)
  else (Val None, w, []).
Proof.
  unfold find_release. destruct (truthy targetTag) eqn:Htag.
  - unfold bind at 1. rewrite get_by_tag_eq. fold owner repo.
    destruct (getReleaseByTag github owner repo targetTag w)
      as [[release|e] w1].
    + destruct (truthy trimmedReleaseName &&
                negb (String.eqb (Release.name release) trimmedReleaseName));
        [reflexivity |].
      unfold ret. now rewrite app_nil_r.
    + destruct (not_found e); [| reflexivity].
      cbn [orb]. unfold bind at 1, emit at 1. unfold bind at 1.
      destruct (search_releases github context fuel targetTag
                  trimmedReleaseName 1 w1) as [[r2 w2] t2].
      unfold after_listing, not_by_tag_info, searching_info.
      destruct r2 as [[found|]| |e'|]; expose;
        rewrite <- ?app_assoc, ?app_nil_r; reflexivity.
  - cbn [orb]. destruct (truthy trimmedReleaseName); [| reflexivity].
    expose.
    destruct (search_releases github context fuel targetTag
                trimmedReleaseName 1 w) as [[r2 w2] t2].
    unfold after_listing, searching_info.
    destruct r2 as [[found|]| |e'|]; rewrite ?app_nil_r; reflexivity.
Qed.

(** The listing loop writes listing calls and at most one line of log;
    a release it gives is on a listed page and matches. *)
Lemma search_releases_trace fuel targetTag trimmedReleaseName page
    (w : World) res w' t :
  search_releases github context fuel targetTag trimmedReleaseName page w =
    (res, w', t) ->
  forallb resolving t = true /\ failures t = [] /\ looked_up t = [] /\
  (forall r, res = Val (Some r) ->
     matches targetTag trimmedReleaseName r = true /\
     exists number releases,
       In (100, number, Ok releases) (listed t) /\ In r releases).
Proof.
  intros H. apply search_releases_inv in H.
  destruct H as (full & final & -> & _ & _ & Hend).
  assert (Hpages : forall p,
            forallb resolving (page_events p full) = true /\
            failures (page_events p full) = [] /\
            looked_up (page_events p full) = []).
  { clear. induction full as [|releases rest IH]; intros p; simpl;
      [now repeat split | apply IH]. }
  destruct (Hpages page) as (Hclass & Hfail & Hlook).
  rewrite forallb_app, failures_app, looked_up_app, Hclass, Hfail, Hlook.
  destruct Hend as [(releases & release & -> & Hfind & ->)
                   | [(releases & -> & _ & _ & ->)
                     | [(e & -> & ->) | (-> & -> & _)]]];
    (split; [reflexivity | split; [reflexivity | split; [reflexivity |]]]);
    intros found Hfound; try discriminate Hfound.
  injection Hfound as <-. apply find_some in Hfind.
  split; [now destruct Hfind |].
  exists (page + List.length full), releases.
  split; [| now destruct Hfind].
  rewrite listed_app. apply in_or_app. right. now left.
Qed.
End ResolverCases.

Section ResolverShape.
Variable World : Type.
Variable github : Octokit World.
Variable context : Context.t.

Let owner := Context.owner context.
Let repo := Context.repo context.

(** After the listing loop: the class of the events, the single
    failure, and where a resolved release comes from. *)
Lemma after_listing_facts fuel targetTag trimmedReleaseName before
    (w0 : World) res w' t :
  truthy targetTag || truthy trimmedReleaseName = true ->
  forallb resolving before = true -> failures before = [] ->
  listed before = [] ->
  after_listing targetTag trimmedReleaseName before
    (search_releases github context fuel targetTag trimmedReleaseName 1 w0) =
    (res, w', t) ->
  forallb resolving t = true /\ fails_last res t /\
  looked_up t = looked_up before /\
  res <> Val None /\
  (forall r, res = Val (Some r) ->
     (truthy trimmedReleaseName = true ->
      Release.name r = trimmedReleaseName) /\
     matches targetTag trimmedReleaseName r = true /\
     exists number releases,
       In (100, number, Ok releases) (listed t) /\ In r releases).
Proof.
  intros Hcriteria Hclass Hfail Hlisted H.
  destruct (search_releases github context fuel targetTag
              trimmedReleaseName 1 w0) as [[r2 w2] t2] eqn:Hsearch.
  apply search_releases_trace in Hsearch.
  destruct Hsearch as (Hclass2 & Hfail2 & Hlook2 & Hfound).
  unfold after_listing, searching_info in H.
  assert (Hprefix : forallb resolving
                      (before ++ Info "Searching all releases (including drafts)..." :: t2) = true /\
                    failures
                      (before ++ Info "Searching all releases (including drafts)..." :: t2) = [] /\
                    looked_up
                      (before ++ Info "Searching all releases (including drafts)..." :: t2) =
                    looked_up before).
  { rewrite forallb_app, failures_app, looked_up_app. simpl.
    rewrite Hclass, Hclass2, Hfail, Hfail2, Hlook2.
    split; [reflexivity | split; [reflexivity | apply app_nil_r]]. }
  destruct Hprefix as (Hc & Hf & Hl).
  destruct r2 as [[found|]| |e|]; injection H as <- <- <-.
  - split; [exact Hc | split; [now left | split; [exact Hl |]]].
    split; [discriminate |]. intros r [= <-].
    destruct (Hfound found eq_refl) as (Hmatch & number & releases & Hin & Hr).
    split; [| split; [exact Hmatch |]].
    + intros Hname.
      destruct (proj1 (matches_iff targetTag trimmedReleaseName found
                         Hcriteria) Hmatch) as [_ Hn].
      now apply Hn.
    + exists number, releases. split; [| exact Hr].
      rewrite listed_app. apply in_or_app. right. exact Hin.
  - split; [| split; [| split; [| split; [discriminate | discriminate]]]].
    + rewrite app_comm_cons, app_assoc, forallb_app, Hc. reflexivity.
    + right. split; [discriminate |].
      exists (before ++ Info "Searching all releases (including drafts)..." :: t2).
      eexists. split; [| exact Hf].
      now rewrite <- app_assoc.
    + rewrite app_comm_cons, app_assoc, looked_up_app, Hl. simpl.
      now rewrite app_nil_r.
  - repeat split; try assumption; try discriminate. now left.
  - repeat split; try assumption; try discriminate. now left.
  - repeat split; try assumption; try discriminate. now left.
Qed.

(** The resolver, whatever the service answers. *)
Lemma find_release_facts fuel targetTag trimmedReleaseName
    (w : World) res w' t :
  find_release github context fuel targetTag trimmedReleaseName w =
    (res, w', t) ->
  forallb resolving t = true /\ fails_last res t /\
  (truthy targetTag = false -> looked_up t = []) /\
  (truthy targetTag = true ->
   exists answer w1,
     getReleaseByTag github owner repo targetTag w = (answer, w1) /\
     looked_up t = [(targetTag, answer)] /\
     match answer with
     | Ok r =>
         listed t = [] /\ w' = w1 /\
         ((res = Val (Some r) /\
           (truthy trimmedReleaseName = true ->
            Release.name r = trimmedReleaseName)) \/
          (res = Return /\ truthy trimmedReleaseName = true /\
           Release.name r <> trimmedReleaseName /\
           failures t = [mismatch_message r trimmedReleaseName]))
     | Fail e =>
         not_found e = false ->
         res = Throw e /\ w' = w1 /\
         t = lookup_events context targetTag (Fail e)
     end) /\
  (forall r, res = Val (Some r) ->
     (truthy trimmedReleaseName = true ->
      Release.name r = trimmedReleaseName) /\
     ((looked_up t = [(targetTag, Ok r)] /\ listed t = []) \/
      (matches targetTag trimmedReleaseName r = true /\
       exists number releases,
         In (100, number, Ok releases) (listed t) /\ In r releases))) /\
  (res = Val None ->
   truthy targetTag = false /\ truthy trimmedReleaseName = false /\
   w' = w /\ t = []).
Proof.
  intros H. rewrite find_release_eq in H. fold owner repo in H.
  destruct (truthy targetTag) eqn:Htag.
  - destruct (getReleaseByTag github owner repo targetTag w)
      as [[release|e] w1] eqn:Hget.
    + destruct (truthy trimmedReleaseName &&
                negb (String.eqb (Release.name release) trimmedReleaseName))
        eqn:Hcheck; injection H as <- <- <-.
      * apply andb_true_iff in Hcheck. destruct Hcheck as [Hname Hdiff].
        apply negb_true_iff, String.eqb_neq in Hdiff.
        split; [reflexivity | split; [| split; [discriminate | split]]].
        -- right. split; [discriminate |].
           exists (lookup_events context targetTag (Ok release) ++
                   [Info ("Found release by tag: " ++ describe release)]),
                  (mismatch_message release trimmedReleaseName).
           split; [now rewrite <- app_assoc | reflexivity].
        -- intros _. exists (Ok release), w1.
           repeat split. right. now repeat split.
        -- split; [discriminate | discriminate].
      * assert (Hname : truthy trimmedReleaseName = true ->
                        Release.name release = trimmedReleaseName).
        { intros Hname. rewrite Hname in Hcheck. simpl in Hcheck.
          now apply negb_false_iff, String.eqb_eq in Hcheck. }
        split; [reflexivity | split; [now left | split; [discriminate | split]]].
        -- intros _. exists (Ok release), w1. repeat split. now left.
        -- split; [| discriminate].
           intros r [= <-]. split; [exact Hname |]. now left.
    + destruct (not_found e) eqn:H404.
      * assert (Hcriteria : truthy targetTag || truthy trimmedReleaseName = true)
          by now rewrite Htag.
        apply after_listing_facts in H;
          [| exact Hcriteria | reflexivity | reflexivity | reflexivity].
        destruct H as (Hclass & Hlast & Hlook & Hnone & Hfound).
        split; [exact Hclass | split; [exact Hlast | split; [discriminate |]]].
        split; [| split].
        -- intros _. exists (Fail e), w1.
           split; [reflexivity | split; [exact Hlook | congruence]].
        -- intros r Hr. destruct (Hfound r Hr) as (Hname & Hmatch & Hin).
           split; [exact Hname | right; now split].
        -- intros Hr. now destruct Hnone.
      * injection H as <- <- <-.
        split; [reflexivity | split; [now left | split; [discriminate |]]].
        split; [| split; discriminate].
        intros _. exists (Fail e), w1. now repeat split.
  - destruct (truthy trimmedReleaseName) eqn:Hname.
    + assert (Hcriteria : truthy targetTag || truthy trimmedReleaseName = true)
        by now rewrite Htag, Hname.
      apply after_listing_facts in H;
        [| exact Hcriteria | reflexivity | reflexivity | reflexivity].
      destruct H as (Hclass & Hlast & Hlook & Hnone & Hfound).
      split; [exact Hclass | split; [exact Hlast | split; [now intros _ |]]].
      split; [discriminate | split].
      * intros r Hr. destruct (Hfound r Hr) as (Hn & Hmatch & Hin).
        split; [intros _; now apply Hn | right; now split].
      * intros Hr. now destruct Hnone.
    + injection H as <- <- <-.
      split; [reflexivity | split; [now left | split; [reflexivity |]]].
      split; [discriminate | split; [discriminate | now repeat split]].
Qed.
End ResolverShape.

(** ** The parser and the collector, event by event *)

Section EarlyPhases.
Variable World : Type.
Variable fs : FileSystem.
Variable js : JsRuntime.
Variable context : Context.t.

Lemma parse_inputs_facts params (w : World) res w' t :
  parse_inputs js context params w = (res, w', t) ->
  w' = w /\ forallb resolving t = true /\ looked_up t = [] /\
  listed t = [] /\ fails_last res t /\
  (forall paths targetTag name,
     res = Val (paths, (targetTag, name)) ->
     JSON_parse js (assetPathsInput params) = Ok (JArray paths) /\
     name = trim js (releaseName params) /\
     t = target_events targetTag name /\
     (truthy (trim js (releaseTag params)) = true ->
      targetTag = trim js (releaseTag params)) /\
     (truthy (trim js (releaseTag params)) = false ->
      startsWith (Context.ref context) "refs/tags/" = true ->
      targetTag = replace (Context.ref context) "refs/tags/" "") /\
     (truthy (trim js (releaseTag params)) = false ->
      startsWith (Context.ref context) "refs/tags/" = false ->
      targetTag = EmptyString /\ truthy name = true)).
Proof.
  unfold parse_inputs, parse_asset_paths, determine_target, target_events.
  expose. intros H.
  repeat split_in H; injection H as <- <- <-;
    (split; [reflexivity |]); (split; [reflexivity |]);
    (split; [reflexivity |]); (split; [reflexivity |]);
    repeat match goal with
           | H : negb _ = true |- _ => apply negb_true_iff in H
           | H : negb _ = false |- _ => apply negb_false_iff in H
           end.
  all: split;
    [ first [ now left
            | right; split; [discriminate |];
              exists []; eexists; split; reflexivity ]
    | intros paths targetTag name Hval; try discriminate Hval ].
  all: injection Hval as <- <- <-.
  all: repeat match goal with
              | H : truthy ?x = _ |- context [truthy ?x] => rewrite H
              end.
  all: repeat split; try reflexivity; try congruence; try discriminate.
  all: try (intros; congruence).
  all: now apply truthy_false.
Qed.
End EarlyPhases.

Section CollectorShape.
Variable World : Type.
Variable fs : FileSystem.
Variable js : JsRuntime.

(** Whatever the file system answers, the expansion writes expansions,
    warnings and counts only. *)
Lemma expand_patterns_class assetPaths filesToUpload (w : World) res w' t :
  expand_patterns fs js assetPaths filesToUpload w = (res, w', t) ->
  forallb collecting t = true /\ failures t = [].
Proof.
  revert filesToUpload w res w' t.
  induction assetPaths as [|pattern rest IH];
    intros filesToUpload w res w' t H; simpl in H.
  - unfold ret in H. injection H as <- <- <-. now split.
  - unfold bind at 1, await in H.
    destruct (glob fs pattern) as [found|e];
      [| injection H as <- <- <-; now split].
    unfold bind at 1 in H.
    destruct (keep_files fs found [] w) as [[rk wk] tk] eqn:Hkeep.
    apply keep_files_inv in Hkeep. destruct Hkeep as (-> & -> & Hkept).
    destruct rk as [files| |e|]; try contradiction;
      [| injection H as <- <- <-; now split].
    destruct (Nat.eqb (List.length files) 0);
      unfold bind at 1, emit at 1 in H;
      match type of H with
      | context [expand_patterns fs js rest ?acc w] =>
          destruct (expand_patterns fs js rest acc w)
            as [[r2 w2] t2] eqn:Hrest
      end;
      injection H as <- <- <-;
      apply IH in Hrest; destruct Hrest as [Hclass Hfail];
      simpl; now rewrite Hclass, Hfail.
Qed.

Lemma collect_files_facts assetPaths (w : World) res w' t :
  collect_files fs js assetPaths w = (res, w', t) ->
  forallb collecting t = true /\ fails_last res t /\
  (forall files,
     res = Val files ->
     t = flat_map (pattern_events fs js) assetPaths ++
         plan_events (flat_map (regular_files fs) assetPaths) files).
Proof.
  unfold collect_files. intros H. apply bind_inv in H.
  destruct H as [(all & w1 & t1 & t2 & Hexp & Hnext & ->)
                | (r0 & Hexp & Hstop)].
  - pose proof (expand_patterns_class _ _ _ Hexp) as [Hclass Hfail].
    apply expand_patterns_inv in Hexp.
    destruct Hexp as (-> & _ & Hall & _ & ->). simpl in Hall. subst all.
    set (all := flat_map (regular_files fs) assetPaths) in *.
    destruct (Nat.eqb (List.length (Set_of all)) 0).
    + expose. injection Hnext as <- <- <-.
      rewrite forallb_app, Hclass.
      split; [reflexivity | split; [| discriminate]].
      right. split; [discriminate |].
      eexists. eexists. split; [reflexivity | exact Hfail].
    + unfold plan_events. expose.
      destruct (negb (Nat.eqb (List.length all) (List.length (Set_of all))))
        eqn:Hdup;
        injection Hnext as <- <- <-;
        rewrite forallb_app, Hclass;
        (split; [reflexivity | split]);
        try (left; now rewrite failures_app, Hfail);
        intros files [= <-]; now rewrite Hdup.
  - pose proof (expand_patterns_class _ _ _ Hexp) as [Hclass Hfail].
    split; [exact Hclass | split; [now left |]].
    intros files ->. now apply stopped_not_val in Hstop.
Qed.
End CollectorShape.

(** ** The upload loop, event by event *)

Section LoopShape.
Variable World : Type.
Variable github : Octokit World.
Variable fs : FileSystem.
Variable js : JsRuntime.
Variable context : Context.t.

(** One pass of the loop body: the class of its events, its single
    failure, and the number of calls it makes. *)
Lemma upload_file_shape release deny urls filePath (w : World) res w' t :
  upload_file github fs js context release deny urls filePath w =
    (res, w', t) ->
  forallb uploading t = true /\ fails_last res t /\
  List.length (filter is_upload t) <= 2 /\
  List.length (filter is_delete t) <= 1 /\
  (deny = true ->
   List.length (filter is_upload t) <= 1 /\ filter is_delete t = []).
Proof.
  unfold upload_file, replace_asset, upload. expose. intros H.
  repeat split_in H; injection H as <- <- <-;
    (split; [reflexivity |]);
    (split;
     [ first [ now left
             | right; split; [discriminate |];
               eexists [_; _]; eexists; split; reflexivity ] |]);
    cbn; repeat split; try lia; try discriminate; try reflexivity.
Qed.

(** The calls of one pass: an upload goes to the resolved release under
    the base name and with the content of the file; a deletion needs
    overwriting to be allowed and removes an asset of the snapshot that
    has that name; a rejection that is not a name conflict is thrown at
    once. *)
Lemma upload_file_calls release deny urls filePath (w : World) res w' t :
  upload_file github fs js context release deny urls filePath w =
    (res, w', t) ->
  (forall rid name data answer,
     In (UploadReleaseAsset rid name data answer) t ->
     exists r,
       release = Some r /\ rid = Release.id r /\
       name = basename js filePath /\ readFileSync fs filePath = Ok data) /\
  (forall asset_id answer,
     In (DeleteReleaseAsset asset_id answer) t ->
     deny = false /\
     exists r existing,
       release = Some r /\ In existing (Release.assets r) /\
       Asset.id existing = asset_id /\
       Asset.name existing = basename js filePath) /\
  (forall rid name data e,
     In (UploadReleaseAsset rid name data (Fail e)) t ->
     already_exists e = false ->
     res = Throw e /\
     exists before msg,
       t = before ++ [UploadReleaseAsset rid name data (Fail e); Error msg] /\
       (msg = upload_failed_message name e \/
        msg = replace_failed_message name e)).
Proof.
  unfold upload_file, replace_asset, upload. expose. intros H.
  repeat split_in H; injection H as <- <- <-.
  all: repeat match goal with
              | H : find _ _ = Some _ |- _ =>
                  apply find_some in H; destruct H as [? H];
                  apply String.eqb_eq in H
              end.
  all: split;
    [ intros rid name data answer Hin; in_trace Hin;
      eexists; repeat split; eassumption || reflexivity
    | split;
      [ intros asset_id answer Hin; in_trace Hin
      | intros rid name data err Hin Hconflict; in_trace Hin;
        try congruence ] ].
  all: try (injection Hin as <- <-).
  all: split; [reflexivity |].
  all: first [ eexists [_]; eexists;
               split; [reflexivity | first [now left | now right]]
             | eexists [_; _; _; _; _]; eexists;
               split; [reflexivity | first [now left | now right]]
             | eexists; eexists; repeat split; eassumption || reflexivity ].
Qed.

(** Without a release the loop body calls nothing and throws. *)
Lemma upload_file_undefined deny urls filePath (w : World) res w' t :
  upload_file github fs js context None deny urls filePath w =
    (res, w', t) ->
  w' = w /\ filter is_remote t = [] /\ failures t = [] /\
  exists e, res = Throw e.
Proof.
  unfold upload_file, replace_asset, upload. expose. intros H.
  repeat split_in H; try discriminate; injection H as <- <- <-;
    repeat split; eexists; reflexivity.
Qed.

Lemma upload_files_shape release deny files urls (w : World) res w' t :
  upload_files github fs js context release deny files urls w =
    (res, w', t) ->
  forallb uploading t = true /\ fails_last res t /\
  List.length (filter is_upload t) <= 2 * List.length files /\
  List.length (filter is_delete t) <= List.length files /\
  (deny = true ->
   List.length (filter is_upload t) <= List.length files /\
   filter is_delete t = []).
Proof.
  revert urls w res w' t.
  induction files as [|filePath rest IH]; intros urls w res w' t H;
    simpl in H.
  - unfold ret in H. injection H as <- <- <-.
    repeat split; simpl; auto. now left.
  - apply bind_inv in H.
    destruct H as [(urls1 & w1 & t1 & t2 & Hfile & Hrest & ->)
                  | (r0 & Hfile & Hstop)].
    + pose proof (upload_file_trace _ _ _ _ _ _ _ _ _ Hfile)
        as (_ & (url & _ & _ & Hfail1 & _) & _).
      apply upload_file_shape in Hfile.
      destruct Hfile as (Hclass1 & _ & Hup1 & Hdel1 & Hdeny1).
      apply IH in Hrest.
      destruct Hrest as (Hclass2 & Hlast2 & Hup2 & Hdel2 & Hdeny2).
      rewrite forallb_app, !filter_app, !length_app, Hclass1, Hclass2.
      split; [reflexivity | split; [| split; [| split]]].
      * apply fails_last_app with (res2 := res);
          [exact Hfail1 | exact Hlast2 |].
        destruct res as [x| |e|];
          [left; now exists x | right | right | right]; discriminate.
      * simpl. lia.
      * simpl. lia.
      * intros Hdeny. destruct (Hdeny1 Hdeny) as [Hu1 Hd1].
        destruct (Hdeny2 Hdeny) as [Hu2 Hd2].
        rewrite Hd1, Hd2. split; [simpl; lia | reflexivity].
    + apply upload_file_shape in Hfile.
      destruct Hfile as (Hclass1 & Hlast1 & Hup1 & Hdel1 & Hdeny1).
      assert (Hres : forall a, res <> Val a).
      { intros a ->. now apply stopped_not_val in Hstop. }
      assert (Hlast : fails_last res t).
      { destruct Hlast1 as [Hnone | (_ & Hlast)];
          [now left | right; now split]. }
      split; [assumption | split; [assumption |]].
      split; [simpl; lia | split; [simpl; lia |]].
      intros Hdeny. destruct (Hdeny1 Hdeny) as [Hu1 Hd1].
      split; [simpl; lia | assumption].
Qed.

Lemma upload_files_calls release deny files urls (w : World) res w' t :
  upload_files github fs js context release deny files urls w =
    (res, w', t) ->
  (forall rid name data answer,
     In (UploadReleaseAsset rid name data answer) t ->
     exists r filePath,
       release = Some r /\ rid = Release.id r /\ In filePath files /\
       name = basename js filePath /\ readFileSync fs filePath = Ok data) /\
  (forall asset_id answer,
     In (DeleteReleaseAsset asset_id answer) t ->
     deny = false /\
     exists r existing filePath,
       release = Some r /\ In existing (Release.assets r) /\
       Asset.id existing = asset_id /\ In filePath files /\
       Asset.name existing = basename js filePath) /\
  (forall rid name data e,
     In (UploadReleaseAsset rid name data (Fail e)) t ->
     already_exists e = false ->
     res = Throw e /\
     exists before msg,
       t = before ++ [UploadReleaseAsset rid name data (Fail e); Error msg] /\
       (msg = upload_failed_message name e \/
        msg = replace_failed_message name e)).
Proof.
  revert urls w res w' t.
  induction files as [|filePath rest IH]; intros urls w res w' t H;
    simpl in H.
  - unfold ret in H. injection H as <- <- <-.
    repeat split; intros; contradiction.
  - apply bind_inv in H.
    destruct H as [(urls1 & w1 & t1 & t2 & Hfile & Hrest & ->)
                  | (r0 & Hfile & Hstop)];
      apply upload_file_calls in Hfile;
      destruct Hfile as (Hup1 & Hdel1 & Hfatal1).
    + apply IH in Hrest. destruct Hrest as (Hup2 & Hdel2 & Hfatal2).
      split; [| split].
      * intros rid name data answer Hin. apply in_app_or in Hin.
        destruct Hin as [Hin | Hin].
        -- destruct (Hup1 _ _ _ _ Hin) as (r & Hr & Hid & Hname & Hread).
           exists r, filePath. repeat split; auto. now left.
        -- destruct (Hup2 _ _ _ _ Hin)
             as (r & f & Hr & Hid & Hf & Hname & Hread).
           exists r, f. repeat split; auto. now right.
      * intros asset_id answer Hin. apply in_app_or in Hin.
        destruct Hin as [Hin | Hin].
        -- destruct (Hdel1 _ _ Hin)
             as (Hdeny & r & existing & Hr & Hex & Hid & Hname).
           split; [assumption |].
           exists r, existing, filePath. repeat split; auto. now left.
        -- destruct (Hdel2 _ _ Hin)
             as (Hdeny & r & existing & f & Hr & Hex & Hid & Hf & Hname).
           split; [assumption |].
           exists r, existing, f. repeat split; auto. now right.
      * intros rid name data e Hin Hother. apply in_app_or in Hin.
        destruct Hin as [Hin | Hin].
        -- destruct (Hfatal1 _ _ _ _ Hin Hother) as [Hno _]. discriminate Hno.
        -- destruct (Hfatal2 _ _ _ _ Hin Hother)
             as (-> & before & msg & -> & Hmsg).
           split; [reflexivity |].
           exists (t1 ++ before), msg.
           split; [now rewrite app_assoc | exact Hmsg].
    + assert (Hsame : forall e, r0 = Throw e -> res = Throw e).
      { intros e ->. destruct res as [x| |e'|]; try contradiction.
        simpl in Hstop. now subst e'. }
      split; [| split].
      * intros rid name data answer Hin.
        destruct (Hup1 _ _ _ _ Hin) as (r & Hr & Hid & Hname & Hread).
        exists r, filePath. repeat split; auto. now left.
      * intros asset_id answer Hin.
        destruct (Hdel1 _ _ Hin)
          as (Hdeny & r & existing & Hr & Hex & Hid & Hname).
        split; [assumption |].
        exists r, existing, filePath. repeat split; auto. now left.
      * intros rid name data e Hin Hother.
        destruct (Hfatal1 _ _ _ _ Hin Hother) as [Hr Hshape].
        split; [now apply Hsame | exact Hshape].
Qed.

Lemma upload_files_undefined deny files urls (w : World) res w' t :
  upload_files github fs js context None deny files urls w = (res, w', t) ->
  w' = w /\ filter is_remote t = [] /\ failures t = [] /\
  (files <> [] -> exists e, res = Throw e).
Proof.
  destruct files as [|filePath rest]; intros H; simpl in H.
  - unfold ret in H. injection H as <- <- <-. repeat split. now intros [].
  - apply bind_inv in H.
    destruct H as [(urls1 & w1 & t1 & t2 & Hfile & _)
                  | (r0 & Hfile & Hstop)];
      apply upload_file_undefined in Hfile;
      destruct Hfile as (Hw & Hquiet & Hfail & e & He); [discriminate He |].
    subst r0. destruct res as [x| |e'|]; try contradiction.
    simpl in Hstop. repeat split; try assumption. intros _. now exists e'.
Qed.
End LoopShape.

(** ** The phases of a run *)

(** What the class of a trace rules out. *)
Lemma resolving_quiet (t : list Event) :
  forallb resolving t = true ->
  filter is_upload t = [] /\ filter is_delete t = [] /\
  uploaded t = [] /\ outputs t = [].
Proof.
  induction t as [|ev t IH]; simpl; [now repeat split |].
  rewrite andb_true_iff. intros [Hev Ht].
  destruct (IH Ht) as (Hu & Hd & Hup & Hout).
  destruct ev; try discriminate Hev; simpl; now repeat split.
Qed.

Lemma collecting_quiet (t : list Event) :
  forallb collecting t = true ->
  filter is_remote t = [] /\ filter is_upload t = [] /\
  filter is_delete t = [] /\ looked_up t = [] /\ listed t = [] /\
  uploaded t = [] /\ outputs t = [].
Proof.
  induction t as [|ev t IH]; simpl; [now repeat split |].
  rewrite andb_true_iff. intros [Hev Ht].
  destruct (IH Ht) as (Hr & Hu & Hd & Hl & Hli & Hup & Hout).
  destruct ev; try discriminate Hev; simpl; now repeat split.
Qed.

Lemma uploading_quiet (t : list Event) :
  forallb uploading t = true -> looked_up t = [] /\ listed t = [].
Proof.
  induction t as [|ev t IH]; simpl; [now repeat split |].
  rewrite andb_true_iff. intros [Hev Ht].
  destruct (IH Ht) as (Hl & Hli).
  destruct ev; try discriminate Hev; simpl; now repeat split.
Qed.

Lemma filter_nil_in {A} (f : A -> bool) (l : list A) (x : A) :
  filter f l = [] -> In x l -> f x = false.
Proof.
  intros Hnil Hin. destruct (f x) eqn:Hfx; [| reflexivity].
  assert (Hx : In x (filter f l)) by (apply filter_In; now split).
  rewrite Hnil in Hx. destruct Hx.
Qed.

Section Phases.
Variable World : Type.
Variable github : Octokit World.
Variable fs : FileSystem.
Variable js : JsRuntime.
Variable context : Context.t.

(** A run is its phases, one after the other, up to the first that
    does not give a value. *)
Lemma upload_assets_phases fuel params (w : World) res w' t :
  upload_assets github fs js context fuel params w = (res, w', t) ->
  exists rp tp,
    parse_inputs js context params w = (rp, w, tp) /\
    ((stopped rp res /\ w' = w /\ t = tp) \/
     exists paths targetTag name rf wf tf,
       rp = Val (paths, (targetTag, name)) /\
       find_release github context fuel targetTag name w = (rf, wf, tf) /\
       ((stopped rf res /\ w' = wf /\ t = tp ++ tf) \/
        exists release rc tc,
          rf = Val release /\
          collect_files fs js paths wf = (rc, wf, tc) /\
          ((stopped rc res /\ w' = wf /\ t = tp ++ tf ++ tc) \/
           exists files ru wu tu,
             rc = Val files /\
             upload_files github fs js context release
               (denyOverwriteBool (denyOverwrite params)) files [] wf =
               (ru, wu, tu) /\
             ((stopped ru res /\ w' = wu /\ t = tp ++ tf ++ tc ++ tu) \/
              exists urls r,
                ru = Val urls /\ release = Some r /\ res = Val tt /\
                w' = wu /\
                t = tp ++ tf ++ tc ++ tu ++ closing_events js r urls)))).
Proof.
  unfold upload_assets. intros H. apply bind_inv in H.
  destruct H as [(inputs & wp & tp & t2 & Hparse & H & ->)
                | (rp & Hparse & Hstop)];
    pose proof (parse_inputs_trace _ _ _ _ Hparse) as (-> & _).
  2:{ exists rp, t. split; [exact Hparse | left; now repeat split]. }
  exists (Val inputs), tp. split; [exact Hparse | right].
  destruct inputs as [paths [targetTag name]]. cbn [fst snd] in H.
  exists paths, targetTag, name.
  apply bind_inv in H.
  destruct H as [(release & wf & tf & t3 & Hfind & H & ->)
                | (rf & Hfind & Hstop)].
  2:{ exists rf, w', t2. split; [reflexivity | split; [exact Hfind |]].
      left. now repeat split. }
  exists (Val release), wf, tf. split; [reflexivity | split; [exact Hfind |]].
  right. exists release.
  apply bind_inv in H.
  destruct H as [(files & wc & tc & t4 & Hcollect & H & ->)
                | (rc & Hcollect & Hstop)];
    pose proof (collect_files_inv _ _ _ _ Hcollect) as (-> & _).
  2:{ exists rc, t3. split; [reflexivity | split; [exact Hcollect |]].
      left. now repeat split. }
  pose proof (collect_files_inv _ _ _ _ Hcollect) as (_ & _ & _ & Hplan & _).
  exists (Val files), tc. split; [reflexivity | split; [exact Hcollect |]].
  right. exists files.
  apply bind_inv in H.
  destruct H as [(urls & wu & tu & t5 & Hloop & H & ->)
                | (ru & Hloop & Hstop)].
  2:{ exists ru, w', t4. split; [reflexivity | split; [exact Hloop |]].
      left. now repeat split. }
  exists (Val urls), wu, tu. split; [reflexivity | split; [exact Hloop |]].
  right.
  pose proof (upload_files_trace _ _ _ _ _ _ _ _ _ Hloop)
    as (_ & (_ & _ & _ & Hsome) & _).
  destruct release as [r|]; [| now destruct (Hsome Hplan)].
  rewrite set_output_eq in H. injection H as <- <- <-.
  exists urls, r. now repeat split.
Qed.
End Phases.

(** ** The set of paths and the duplicates *)

Lemma dedup_after_length (l seen : list string) :
  List.length (dedup_after seen l) <= List.length l.
Proof.
  revert seen. induction l as [|x l IH]; intros seen; simpl; [lia |].
  destruct (existsb (String.eqb x) seen); simpl.
  - specialize (IH seen). lia.
  - specialize (IH (x :: seen)). lia.
Qed.

Lemma dedup_after_full (l seen : list string) :
  List.length (dedup_after seen l) = List.length l ->
  NoDup l /\ forall x, In x l -> ~ In x seen.
Proof.
  revert seen. induction l as [|x l IH]; intros seen; simpl.
  - intros _. split; [constructor | intros x []].
  - destruct (existsb (String.eqb x) seen) eqn:Hseen; simpl; intros Hlen.
    + pose proof (dedup_after_length l seen). lia.
    + injection Hlen as Hlen. destruct (IH _ Hlen) as [Hnodup Hfresh].
      assert (Hx : ~ In x seen).
      { intros Hin. apply existsb_eqb_In in Hin. congruence. }
      split.
      * constructor; [| assumption].
        intros Hin. apply (Hfresh x Hin). now left.
      * intros y [<- | Hy]; [assumption |].
        intros Hin. apply (Hfresh y Hy). now right.
Qed.

Lemma dedup_after_fresh (l seen : list string) :
  NoDup l -> (forall x, In x l -> ~ In x seen) -> dedup_after seen l = l.
Proof.
  revert seen. induction l as [|x l IH]; intros seen Hnodup Hfresh; simpl;
    [reflexivity |].
  inversion Hnodup as [|? ? Hx Hl]; subst.
  destruct (existsb (String.eqb x) seen) eqn:Hseen.
  - apply existsb_eqb_In in Hseen. destruct (Hfresh x); [now left | assumption].
  - f_equal. apply IH; [assumption |].
    intros y Hy [<- | Hin]; [contradiction |].
    apply (Hfresh y); [now right | assumption].
Qed.

Lemma Set_of_length (l : list string) :
  List.length (Set_of l) <= List.length l /\
  (List.length (Set_of l) = List.length l <-> NoDup l) /\
  (NoDup l -> Set_of l = l).
Proof.
  rewrite Set_of_dedup_first. unfold dedup_first.
  split; [apply dedup_after_length | split; [split |]].
  - intros H. now apply dedup_after_full in H.
  - intros H. rewrite dedup_after_fresh; auto.
  - intros H. apply dedup_after_fresh; auto.
Qed.

(** ** Deletions and the loop inside a run *)

Section LoopOrder.
Variable World : Type.
Variable github : Octokit World.
Variable fs : FileSystem.
Variable js : JsRuntime.
Variable context : Context.t.

(** A pass of the loop body deletes only right after the service has
    refused its upload as a name conflict, and deletes the first asset
    of the snapshot that has the name of the file. *)
Lemma upload_file_deletes release deny urls filePath (w : World) res w' t :
  upload_file github fs js context release deny urls filePath w =
    (res, w', t) ->
  forall asset_id answer,
    In (DeleteReleaseAsset asset_id answer) t ->
    deny = false /\
    exists r existing data e after,
      release = Some r /\
      find (fun a => String.eqb (Asset.name a) (basename js filePath))
        (Release.assets r) = Some existing /\
      Asset.id existing = asset_id /\
      already_exists e = true /\
      t = [Info (uploading_message (basename js filePath) data);
           UploadReleaseAsset (Release.id r) (basename js filePath) data
             (Fail e);
           Warning (overwriting_message (basename js filePath));
           DeleteReleaseAsset asset_id answer] ++ after.
Proof.
  unfold upload_file, replace_asset, upload. expose. intros H.
  repeat split_in H; injection H as <- <- <-.
  all: intros asset_id answer Hin; in_trace Hin;
    try (injection Hin as <- <-).
  all: split; [reflexivity |].
  all: do 4 eexists; eexists; repeat split; eassumption || reflexivity.
Qed.

Lemma upload_files_deletes release deny files urls (w : World) res w' t :
  upload_files github fs js context release deny files urls w =
    (res, w', t) ->
  forall asset_id answer,
    In (DeleteReleaseAsset asset_id answer) t ->
    deny = false /\
    exists r existing before data e after,
      release = Some r /\
      find (fun a => String.eqb (Asset.name a) (Asset.name existing))
        (Release.assets r) = Some existing /\
      Asset.id existing = asset_id /\
      already_exists e = true /\
      t = before ++
          [UploadReleaseAsset (Release.id r) (Asset.name existing) data
             (Fail e);
           Warning (overwriting_message (Asset.name existing));
           DeleteReleaseAsset asset_id answer] ++ after.
Proof.
  revert urls w res w' t.
  induction files as [|filePath rest IH]; intros urls w res w' t H;
    simpl in H.
  - unfold ret in H. injection H as <- <- <-. intros ? ? [].
  - assert (Hone : forall w0 r0 w1 t1,
              upload_file github fs js context release deny urls filePath w0 =
                (r0, w1, t1) ->
              forall asset_id answer,
                In (DeleteReleaseAsset asset_id answer) t1 ->
                deny = false /\
                exists r existing before data e after,
                  release = Some r /\
                  find (fun a =>
                          String.eqb (Asset.name a) (Asset.name existing))
                    (Release.assets r) = Some existing /\
                  Asset.id existing = asset_id /\
                  already_exists e = true /\
                  t1 = before ++
                       [UploadReleaseAsset (Release.id r)
                          (Asset.name existing) data (Fail e);
                        Warning (overwriting_message (Asset.name existing));
                        DeleteReleaseAsset asset_id answer] ++ after).
    { intros w0 r0 w1 t1 Hfile asset_id answer Hin.
      destruct (upload_file_deletes _ _ _ _ _ Hfile _ _ Hin)
        as (Hdeny & r & existing & data & e & after &
            Hr & Hfind & Hid & He & ->).
      split; [exact Hdeny |].
      pose proof Hfind as Hname. apply find_some in Hname.
      destruct Hname as [_ Hname]. apply String.eqb_eq in Hname.
      rewrite <- Hname in *.
      exists r, existing, [Info (uploading_message (Asset.name existing) data)],
        data, e, after.
      repeat split; assumption || reflexivity. }
    apply bind_inv in H.
    destruct H as [(urls1 & w1 & t1 & t2 & Hfile & Hrest & ->)
                  | (r0 & Hfile & Hstop)].
    + intros asset_id answer Hin. apply in_app_or in Hin.
      destruct Hin as [Hin | Hin].
      * destruct (Hone _ _ _ _ Hfile _ _ Hin)
          as (Hdeny & r & existing & before & data & e & after &
              Hr & Hfind & Hid & He & ->).
        split; [exact Hdeny |].
        exists r, existing, before, data, e, (after ++ t2).
        repeat split; try assumption.
        now rewrite <- !app_assoc.
      * destruct (IH _ _ _ _ _ Hrest _ _ Hin)
          as (Hdeny & r & existing & before & data & e & after &
              Hr & Hfind & Hid & He & ->).
        split; [exact Hdeny |].
        exists r, existing, (t1 ++ before), data, e, after.
        repeat split; try assumption.
        now rewrite <- !app_assoc.
    + intros asset_id answer Hin. exact (Hone _ _ _ _ Hfile _ _ Hin).
Qed.

(** A run either ends before the upload loop, or runs the loop on the
    plan of the collector for the release of the resolver. *)
Lemma upload_assets_loop fuel params (w : World) res w' t :
  upload_assets github fs js context fuel params w = (res, w', t) ->
  (forallb early t = true /\ (forall u, res <> Val u) /\
   filter is_delete t = []) \/
  exists paths targetTag name release wf tp tf tc files ru tu post,
    parse_inputs js context params w =
      (Val (paths, (targetTag, name)), w, tp) /\
    find_release github context fuel targetTag name w =
      (Val release, wf, tf) /\
    collect_files fs js paths wf = (Val files, wf, tc) /\
    upload_files github fs js context release
      (denyOverwriteBool (denyOverwrite params)) files [] wf = (ru, w', tu) /\
    t = (tp ++ tf ++ tc) ++ tu ++ post /\
    forallb early (tp ++ tf ++ tc) = true /\
    filter is_delete (tp ++ tf ++ tc) = [] /\
    failures (tp ++ tf ++ tc) = [] /\
    ((post = [] /\ stopped ru res) \/
     exists urls r,
       ru = Val urls /\ release = Some r /\ res = Val tt /\
       post = closing_events js r urls).
Proof.
  intros H. apply upload_assets_phases in H.
  destruct H as (rp & tp & Hparse & H).
  pose proof Hparse as Hp. apply parse_inputs_facts in Hp.
  destruct Hp as (_ & Hclassp & _ & _ & Hlastp & _).
  pose proof (resolving_quiet _ Hclassp) as (_ & Hdelp & _).
  assert (Hearlyp : forallb early tp = true).
  { apply forallb_forall. intros ev Hin.
    rewrite forallb_forall in Hclassp. specialize (Hclassp ev Hin).
    now destruct ev. }
  destruct H as [(Hstop & -> & ->) | H].
  { left. split; [assumption | split; [| assumption]].
    intros u ->. now apply stopped_not_val in Hstop. }
  destruct H as (paths & targetTag & name & rf & wf & tf & -> & Hfind & H).
  pose proof Hfind as Hf. apply find_release_facts in Hf.
  destruct Hf as (Hclassf & Hlastf & _).
  pose proof (resolving_quiet _ Hclassf) as (_ & Hdelf & _).
  assert (Hearlyf : forallb early tf = true).
  { apply forallb_forall. intros ev Hin.
    rewrite forallb_forall in Hclassf. specialize (Hclassf ev Hin).
    now destruct ev. }
  destruct H as [(Hstop & -> & ->) | H].
  { left. rewrite forallb_app, filter_app, Hearlyp, Hearlyf, Hdelp, Hdelf.
    split; [reflexivity | split; [| reflexivity]].
    intros u ->. now apply stopped_not_val in Hstop. }
  destruct H as (release & rc & tc & -> & Hcollect & H).
  pose proof Hcollect as Hc. apply collect_files_facts in Hc.
  destruct Hc as (Hclassc & Hlastc & _).
  pose proof (collecting_quiet _ Hclassc) as (_ & _ & Hdelc & _).
  assert (Hearlyc : forallb early tc = true).
  { apply forallb_forall. intros ev Hin.
    rewrite forallb_forall in Hclassc. specialize (Hclassc ev Hin).
    now destruct ev. }
  destruct H as [(Hstop & -> & ->) | H].
  { left. rewrite !forallb_app, !filter_app, Hearlyp, Hearlyf, Hearlyc,
      Hdelp, Hdelf, Hdelc.
    split; [reflexivity | split; [| reflexivity]].
    intros u ->. now apply stopped_not_val in Hstop. }
  destruct H as (files & ru & wu & tu & -> & Hloop & H).
  right.
  assert (Hfailp : failures tp = []).
  { destruct Hlastp as [Hnone | [Hno _]];
      [assumption | now destruct (Hno (paths, (targetTag, name)))]. }
  assert (Hfailf : failures tf = []).
  { destruct Hlastf as [Hnone | [Hno _]];
      [assumption | now destruct (Hno release)]. }
  assert (Hfailc : failures tc = []).
  { destruct Hlastc as [Hnone | [Hno _]];
      [assumption | now destruct (Hno files)]. }
  assert (Hpre : forallb early (tp ++ tf ++ tc) = true /\
                 filter is_delete (tp ++ tf ++ tc) = [] /\
                 failures (tp ++ tf ++ tc) = []).
  { rewrite !forallb_app, !filter_app, !failures_app, Hearlyp, Hearlyf,
      Hearlyc, Hdelp, Hdelf, Hdelc, Hfailp, Hfailf, Hfailc.
    now repeat split. }
  destruct Hpre as (Hearly & Hdel & Hfail).
  destruct H as [(Hstop & -> & ->) | (urls & r & -> & -> & -> & -> & ->)].
  - exists paths, targetTag, name, release, wf, tp, tf, tc, files, ru, tu, [].
    repeat split; try assumption.
    + now rewrite app_nil_r, <- !app_assoc.
    + left. now split.
  - exists paths, targetTag, name, (Some r), wf, tp, tf, tc, files,
      (Val urls), tu, (closing_events js r urls).
    repeat split; try assumption.
    + now rewrite <- !app_assoc.
    + right. exists urls, r. now repeat split.
Qed.
End LoopOrder.

(** ** The shape of the trace of a run *)

Lemma fails_last_val {A} (a : A) (t : list Event) :
  fails_last (Val a) t -> failures t = [].
Proof. intros [H | [Hno _]]; [assumption | now destruct (Hno a)]. Qed.

Lemma fails_last_stop {A B} (r0 : Res A) (res : Res B) (t1 t2 : list Event) :
  failures t1 = [] -> fails_last r0 t2 -> stopped r0 res ->
  fails_last res (t1 ++ t2).
Proof.
  intros H1 H2 Hstop.
  apply fails_last_app with (res2 := r0); [assumption | assumption |].
  right. intros a ->. now apply stopped_not_val in Hstop.
Qed.

Lemma filter_none {A} (f : A -> bool) (l : list A) :
  (forall x, In x l -> f x = false) -> filter f l = [].
Proof.
  induction l as [|x l IH]; intros H; simpl; [reflexivity |].
  rewrite (H x (or_introl eq_refl)). apply IH.
  intros y Hy. apply H. now right.
Qed.

Lemma closing_quiet (js : JsRuntime) (r : Release.t) (urls : list string) :
  forallb uploading (closing_events js r urls) = true /\
  failures (closing_events js r urls) = [] /\
  filter is_remote (closing_events js r urls) = [] /\
  filter is_upload (closing_events js r urls) = [] /\
  filter is_delete (closing_events js r urls) = [] /\
  uploaded (closing_events js r urls) = [].
Proof. now repeat split. Qed.

Lemma early_not_delete (t : list Event) :
  forallb early t = true -> filter is_delete t = [].
Proof.
  intros H. apply filter_none. intros ev Hin.
  rewrite forallb_forall in H. specialize (H ev Hin). now destruct ev.
Qed.

Section RunShape.
Variable World : Type.
Variable github : Octokit World.
Variable fs : FileSystem.
Variable js : JsRuntime.
Variable context : Context.t.

(** The trace of a run is the trace of the resolver, then that of the
    collector, then that of the loop and the report; a failure is
    reported at most once, at the very end. *)
Lemma upload_assets_shape fuel params (w : World) res w' t :
  upload_assets github fs js context fuel params w = (res, w', t) ->
  exists tr tc tu,
    t = tr ++ tc ++ tu /\
    forallb resolving tr = true /\ forallb collecting tc = true /\
    forallb uploading tu = true /\
    fails_last res t.
Proof.
  intros H. apply upload_assets_phases in H.
  destruct H as (rp & tp & Hparse & H).
  apply parse_inputs_facts in Hparse.
  destruct Hparse as (_ & Hclassp & _ & _ & Hlastp & _).
  destruct H as [(Hstop & -> & ->) | H].
  { exists tp, [], []. rewrite !app_nil_r.
    repeat split; try assumption.
    change tp with ([] ++ tp).
    now apply fails_last_stop with (r0 := rp). }
  destruct H as (paths & targetTag & name & rf & wf & tf & -> & Hfind & H).
  apply fails_last_val in Hlastp.
  apply find_release_facts in Hfind. destruct Hfind as (Hclassf & Hlastf & _).
  assert (Hclassr : forallb resolving (tp ++ tf) = true)
    by now rewrite forallb_app, Hclassp, Hclassf.
  destruct H as [(Hstop & -> & ->) | H].
  { exists (tp ++ tf), [], []. rewrite !app_nil_r.
    repeat split; try assumption.
    now apply fails_last_stop with (r0 := rf). }
  destruct H as (release & rc & tc & -> & Hcollect & H).
  apply fails_last_val in Hlastf.
  apply collect_files_facts in Hcollect.
  destruct Hcollect as (Hclassc & Hlastc & _).
  assert (Hfailr : failures (tp ++ tf) = [])
    by now rewrite failures_app, Hlastp, Hlastf.
  destruct H as [(Hstop & -> & ->) | H].
  { exists (tp ++ tf), tc, []. rewrite !app_nil_r, <- app_assoc.
    repeat split; try assumption.
    rewrite app_assoc.
    now apply fails_last_stop with (r0 := rc). }
  destruct H as (files & ru & wu & tu & -> & Hloop & H).
  apply fails_last_val in Hlastc.
  apply upload_files_shape in Hloop.
  destruct Hloop as (Hclassu & Hlastu & _).
  assert (Hfailc : failures ((tp ++ tf) ++ tc) = [])
    by now rewrite failures_app, Hfailr, Hlastc.
  destruct H as [(Hstop & -> & ->) | (urls & r & -> & -> & -> & -> & ->)].
  - exists (tp ++ tf), tc, tu. rewrite <- app_assoc.
    repeat split; try assumption.
    rewrite !app_assoc.
    now apply fails_last_stop with (r0 := ru).
  - exists (tp ++ tf), tc, (tu ++ closing_events js r urls).
    rewrite <- app_assoc.
    destruct (closing_quiet js r urls) as (Hclasse & Hfaile & _).
    rewrite (forallb_app uploading tu), Hclassu, Hclasse.
    repeat split; try assumption.
    left. apply fails_last_val in Hlastu.
    now rewrite !failures_app, Hlastp, Hlastf, Hlastc, Hlastu, Hfaile.
Qed.

(** The lookups and the listings of a run are those of the resolver,
    which runs on the target of the parser. *)
Lemma upload_assets_resolver fuel params (w : World) res w' t :
  upload_assets github fs js context fuel params w = (res, w', t) ->
  exists rp tp,
    parse_inputs js context params w = (rp, w, tp) /\
    ((t = tp /\ stopped rp res /\ w' = w) \/
     exists paths targetTag name rf wf tf rest,
       rp = Val (paths, (targetTag, name)) /\
       find_release github context fuel targetTag name w = (rf, wf, tf) /\
       t = tp ++ tf ++ rest /\
       looked_up t = looked_up tf /\ listed t = listed tf /\
       filter is_remote tp = [] /\
       ((rest = [] /\ stopped rf res /\ w' = wf) \/ exists release, rf = Val release)).
Proof.
  intros H. apply upload_assets_phases in H.
  destruct H as (rp & tp & Hparse & H). exists rp, tp.
  split; [exact Hparse |].
  apply parse_inputs_facts in Hparse.
  destruct Hparse as (_ & Hclassp & Hlookp & Hlistp & _ & Hvalp).
  destruct H as [(Hstop & -> & ->) | H]; [left; now repeat split |].
  destruct H as (paths & targetTag & name & rf & wf & tf & -> & Hfind & H).
  right. exists paths, targetTag, name, rf, wf, tf.
  assert (Hquietp : filter is_remote tp = []).
  { destruct (Hvalp _ _ _ eq_refl) as (_ & _ & -> & _).
    unfold target_events.
    now destruct (truthy targetTag), (truthy name). }
  assert (Hrest : forall rest,
            looked_up rest = [] -> listed rest = [] ->
            looked_up (tp ++ tf ++ rest) = looked_up tf /\
            listed (tp ++ tf ++ rest) = listed tf).
  { intros rest Hl Hli.
    rewrite !looked_up_app, !listed_app, Hlookp, Hlistp, Hl, Hli.
    now rewrite !app_nil_r. }
  destruct H as [(Hstop & -> & ->) | H].
  { exists []. destruct (Hrest [] eq_refl eq_refl) as [Hl Hli].
    rewrite app_nil_r in *. repeat split; try assumption.
    left. now repeat split. }
  destruct H as (release & rc & tc & -> & Hcollect & H).
  apply collect_files_facts in Hcollect. destruct Hcollect as (Hclassc & _).
  destruct (collecting_quiet _ Hclassc) as (_ & _ & _ & Hlc & Hlic & _).
  destruct H as [(Hstop & -> & ->) | H].
  { exists tc. destruct (Hrest tc Hlc Hlic) as [Hl Hli].
    repeat split; try assumption. right. now exists release. }
  destruct H as (files & ru & wu & tu & -> & Hloop & H).
  apply upload_files_shape in Hloop. destruct Hloop as (Hclassu & _).
  destruct (uploading_quiet _ Hclassu) as (Hlu & Hliu).
  destruct H as [(Hstop & -> & ->) | (urls & r & -> & -> & -> & -> & ->)].
  - exists (tc ++ tu).
    destruct (Hrest (tc ++ tu)) as [Hl Hli];
      [now rewrite looked_up_app, Hlc, Hlu
      | now rewrite listed_app, Hlic, Hliu |].
    repeat split; try assumption. right. now exists release.
  - exists (tc ++ tu ++ closing_events js r urls).
    destruct (Hrest (tc ++ tu ++ closing_events js r urls)) as [Hl Hli];
      [now rewrite !looked_up_app, Hlc, Hlu
      | now rewrite !listed_app, Hlic, Hliu |].
    repeat split; try assumption. right. now exists (Some r).
Qed.
End RunShape.


Section RunCalls.
Variable World : Type.
Variable github : Octokit World.
Variable fs : FileSystem.
Variable js : JsRuntime.
Variable context : Context.t.

(** The parser stops in one way only: it reports a failure and
    returns. *)
Lemma parse_inputs_stops params (w : World) res w' t :
  parse_inputs js context params w = (res, w', t) ->
  (forall inputs, res <> Val inputs) ->
  res = Return /\ exists msg, t = [SetFailed msg].
Proof.
  unfold parse_inputs, parse_asset_paths, determine_target. expose.
  intros H. repeat split_in H; injection H as <- <- <-; intros Hno;
    try (now destruct (Hno _ eq_refl));
    (split; [reflexivity | eexists; reflexivity]).
Qed.

(** Every upload and every deletion of a run is a call of the upload
    loop. *)
Lemma upload_assets_calls fuel params (w : World) res w' t ev :
  upload_assets github fs js context fuel params w = (res, w', t) ->
  In ev t -> is_upload ev || is_delete ev = true ->
  exists paths targetTag name release wf tp tf tc files ru tu post,
    parse_inputs js context params w =
      (Val (paths, (targetTag, name)), w, tp) /\
    find_release github context fuel targetTag name w =
      (Val release, wf, tf) /\
    collect_files fs js paths wf = (Val files, wf, tc) /\
    upload_files github fs js context release
      (denyOverwriteBool (denyOverwrite params)) files [] wf = (ru, w', tu) /\
    t = (tp ++ tf ++ tc) ++ tu ++ post /\
    failures (tp ++ tf ++ tc) = [] /\
    outputs (tp ++ tf ++ tc) = [] /\
    ((post = [] /\ stopped ru res) \/
     exists urls r,
       ru = Val urls /\ release = Some r /\ res = Val tt /\
       post = closing_events js r urls) /\
    In ev tu.
Proof.
  intros H Hin Hev. apply upload_assets_loop in H.
  assert (Hearly_no : forall pre, forallb early pre = true -> ~ In ev pre).
  { intros pre Hearly Hpre.
    pose proof (early_not_delete _ Hearly) as Hdel.
    apply early_quiet in Hearly. destruct Hearly as (_ & _ & Hup).
    rewrite (Hup _ Hpre), (filter_nil_in _ _ _ Hdel Hpre) in Hev.
    discriminate Hev. }
  destruct H as [(Hearly & _)
                | (paths & targetTag & name & release & wf & tp & tf & tc &
                   files & ru & tu & post & Hparse & Hfind & Hcollect &
                   Hloop & -> & Hearly & _ & Hfail & Hpost)].
  { now destruct (Hearly_no _ Hearly). }
  exists paths, targetTag, name, release, wf, tp, tf, tc, files, ru, tu, post.
  pose proof (early_quiet _ Hearly) as (_ & Hout & _).
  repeat split; try assumption.
  apply in_app_or in Hin. destruct Hin as [Hin | Hin];
    [now destruct (Hearly_no _ Hearly) |].
  apply in_app_or in Hin. destruct Hin as [Hin | Hin]; [assumption |].
  destruct Hpost as [[-> _] | (urls & r & _ & _ & _ & ->)];
    [destruct Hin |].
  simpl in Hin.
  destruct Hin as [<- | [<- | [<- | []]]]; discriminate Hev.
Qed.
End RunCalls.

(** ** The ways out of a run *)

Lemma stopped_same {A B} (r0 : Res A) (res : Res B) :
  stopped r0 res ->
  (r0 = Return /\ res = Return) \/
  (exists e, r0 = Throw e /\ res = Throw e) \/
  (r0 = OutOfFuel /\ res = OutOfFuel).
Proof.
  destruct r0 as [a| |e|], res as [b| |e'|]; simpl; try contradiction.
  - now left.
  - intros <-. right. left. now exists e.
  - now right; right.
Qed.

Section WaysOut.
Variable World : Type.
Variable github : Octokit World.
Variable fs : FileSystem.
Variable js : JsRuntime.
Variable context : Context.t.

Lemma after_listing_ways fuel targetTag trimmedReleaseName before
    (w0 : World) res w' t :
  failures before = [] ->
  after_listing targetTag trimmedReleaseName before
    (search_releases github context fuel targetTag trimmedReleaseName 1 w0) =
    (res, w', t) ->
  (res = Return -> exists msg, failures t = [msg]) /\
  (forall n, bounded_listing github context n -> n < fuel ->
             res <> OutOfFuel).
Proof.
  intros Hbefore H.
  assert (Hends : forall n, bounded_listing github context n -> n < fuel ->
            fst (fst (search_releases github context fuel targetTag
                        trimmedReleaseName 1 w0)) <> OutOfFuel).
  { intros n Hbound Hfuel.
    apply search_releases_ends with (n := n); [assumption | lia | lia]. }
  destruct (search_releases github context fuel targetTag
              trimmedReleaseName 1 w0) as [[r2 w2] t2] eqn:Hsearch.
  pose proof Hsearch as Htrace. apply search_releases_trace in Htrace.
  destruct Htrace as (_ & Hfail2 & _).
  apply search_releases_inv in Hsearch.
  destruct Hsearch as (full & final & _ & _ & _ & Hend).
  unfold after_listing, searching_info in H.
  destruct r2 as [[found|]| |e|]; injection H as <- <- <-.
  - split; [discriminate | intros; discriminate].
  - split; [| intros; discriminate].
    intros _. eexists.
    rewrite failures_app, Hbefore. cbn [app failures flat_map].
    fold (failures (t2 ++
                    [SetFailed (not_found_message targetTag
                                  trimmedReleaseName)])).
    rewrite failures_app, Hfail2. reflexivity.
  - destruct Hend as [(? & ? & _ & _ & Hres)
                     | [(? & _ & _ & _ & Hres)
                       | [(? & _ & Hres) | (_ & Hres & _)]]];
      discriminate Hres.
  - split; [discriminate | intros; discriminate].
  - split; [discriminate |]. intros n Hbound Hfuel _.
    now apply (Hends n Hbound Hfuel).
Qed.

(** The resolver returns only after it has reported a failure, and
    ends on a finite listing. *)
Lemma find_release_ways fuel targetTag trimmedReleaseName
    (w : World) res w' t :
  find_release github context fuel targetTag trimmedReleaseName w =
    (res, w', t) ->
  (res = Return -> exists msg, failures t = [msg]) /\
  (forall n, bounded_listing github context n -> n < fuel ->
             res <> OutOfFuel).
Proof.
  rewrite find_release_eq.
  destruct (truthy targetTag).
  - destruct (getReleaseByTag github (Context.owner context)
                (Context.repo context) targetTag w) as [[release|e] w1].
    + destruct (truthy trimmedReleaseName &&
                negb (String.eqb (Release.name release) trimmedReleaseName));
        intros H; injection H as <- <- <-;
        (split; [| intros; discriminate]); [| discriminate].
      intros _. now eexists.
    + destruct (not_found e).
      * apply after_listing_ways. reflexivity.
      * intros H; injection H as <- <- <-.
        split; [discriminate | intros; discriminate].
  - destruct (truthy trimmedReleaseName).
    + apply after_listing_ways. reflexivity.
    + intros H; injection H as <- <- <-.
      split; [discriminate | intros; discriminate].
Qed.

(** A pass of the loop body that fails has uploaded nothing. *)
Lemma upload_file_failed release deny urls filePath (w : World) res w' t :
  upload_file github fs js context release deny urls filePath w =
    (res, w', t) ->
  (forall a, res <> Val a) -> uploaded t = [].
Proof.
  unfold upload_file, replace_asset, upload. expose. intros H.
  repeat split_in H; injection H as <- <- <-; intros Hno;
    try reflexivity; now destruct (Hno _ eq_refl).
Qed.

(** The loop uploads the files of the plan one after the other up to
    the file at which it stops. *)
Lemma upload_files_prefix release deny files urls (w : World) res w' t :
  upload_files github fs js context release deny files urls w =
    (res, w', t) ->
  exists done todo,
    files = done ++ todo /\
    map fst (uploaded t) = map (basename js) done /\
    (forall a, res = Val a -> todo = []) /\
    ((forall a, res <> Val a) -> todo <> []).
Proof.
  revert urls w res w' t.
  induction files as [|filePath rest IH]; intros urls w res w' t H;
    simpl in H.
  - unfold ret in H. injection H as <- <- <-.
    exists [], []. repeat split. intros Hno. now destruct (Hno urls).
  - apply bind_inv in H.
    destruct H as [(urls1 & w1 & t1 & t2 & Hfile & Hrest & ->)
                  | (r0 & Hfile & Hstop)].
    + apply upload_file_trace in Hfile.
      destruct Hfile as (_ & (url & _ & Hup1 & _) & _).
      apply IH in Hrest.
      destruct Hrest as (done & todo & -> & Hnames & Hval & Hstop).
      exists (filePath :: done), todo.
      rewrite uploaded_app, Hup1. simpl. rewrite Hnames.
      now repeat split.
    + assert (Hno : forall a, r0 <> Val a).
      { intros a ->. now destruct res. }
      apply upload_file_failed in Hfile; [| exact Hno].
      exists [], (filePath :: rest). rewrite Hfile.
      repeat split; try discriminate.
      intros a ->. now apply stopped_not_val in Hstop.
Qed.
End WaysOut.

(** ** The passes of the loop *)

Section Passes.
Variable World : Type.
Variable github : Octokit World.
Variable fs : FileSystem.
Variable js : JsRuntime.
Variable context : Context.t.

Lemma upload_file_pass release deny urls filePath (w : World) res w' t :
  upload_file github fs js context release deny urls filePath w =
    (res, w', t) ->
  pass_of js deny filePath t.
Proof.
  intros H. pose proof H as Hshape. apply upload_file_shape in Hshape.
  destruct Hshape as (_ & _ & Hup & Hdel & Hdeny).
  apply upload_file_calls in H. destruct H as (Hname & _).
  split; [| split; [exact Hup | split; [exact Hdel | exact Hdeny]]].
  intros rid name data answer Hin.
  now destruct (Hname _ _ _ _ Hin) as (r & _ & _ & -> & _).
Qed.

(** The trace of the loop is a pass per file, for the files of the plan
    in order up to the file at which the loop stops. *)
Lemma upload_files_passes release deny files urls (w : World) res w' t :
  upload_files github fs js context release deny files urls w =
    (res, w', t) ->
  exists passes,
    t = concat passes /\
    List.length passes <= List.length files /\
    Forall2 (pass_of js deny) (firstn (List.length passes) files) passes /\
    (forall a, res = Val a -> List.length passes = List.length files).
Proof.
  revert urls w res w' t.
  induction files as [|filePath rest IH]; intros urls w res w' t H;
    simpl in H.
  - unfold ret in H. injection H as <- <- <-.
    exists []. repeat split; constructor.
  - apply bind_inv in H.
    destruct H as [(urls1 & w1 & t1 & t2 & Hfile & Hrest & ->)
                  | (r0 & Hfile & Hstop)];
      apply upload_file_pass in Hfile.
    + apply IH in Hrest.
      destruct Hrest as (passes & -> & Hlen & Hpasses & Hval).
      exists (t1 :: passes). simpl.
      split; [reflexivity | split; [lia | split]].
      * now constructor.
      * intros a Ha. now rewrite (Hval a Ha).
    + exists [t]. simpl. rewrite app_nil_r.
      split; [reflexivity | split; [lia | split]].
      * constructor; [assumption | constructor].
      * intros a ->. now apply stopped_not_val in Hstop.
Qed.



End Passes.

(** * Further properties of the script *)

Section Extras.
Variable World : Type.
Variable github : Octokit World.
Variable fs : FileSystem.
Variable js : JsRuntime.
Variable context : Context.t.

Let owner := Context.owner context.
Let repo := Context.repo context.

(** X3.  A release the resolver gives carries the requested name when a
    name was asked for, whichever way it was found: it is either the
    answer of the indexed lookup, and then no page was listed, or a
    release of a listed page that matches the criteria.  The resolver
    gives no release exactly when neither a tag nor a name is set, and
    has then called nothing. *)
Theorem resolved_release_meets_criteria (fuel : nat)
    (targetTag trimmedReleaseName : string) (w : World)
    (res : Res (option Release.t)) (w' : World) (t : list Event) :
  find_release github context fuel targetTag trimmedReleaseName w =
    (res, w', t) ->
  (forall r,
     res = Val (Some r) ->
     (truthy trimmedReleaseName = true ->
      Release.name r = trimmedReleaseName) /\
     ((looked_up t = [(targetTag, Ok r)] /\ listed t = []) \/
      (matches targetTag trimmedReleaseName r = true /\
       exists number releases,
         In (100, number, Ok releases) (listed t) /\ In r releases))) /\
  (res = Val None <->
   truthy targetTag = false /\ truthy trimmedReleaseName = false) /\
  (res = Val None -> w' = w /\ t = []).
Proof.
  intros H.
  pose proof H as Hfacts. apply find_release_facts in Hfacts.
  destruct Hfacts as (_ & _ & _ & _ & Hfound & Hnone).
  split; [exact Hfound | split; [split |]].
  - intros Hres. now destruct (Hnone Hres) as (? & ? & _).
  - intros [Htag Hname]. rewrite find_release_eq, Htag, Hname in H.
    now injection H as <- _ _.
  - intros Hres. now destruct (Hnone Hres) as (_ & _ & ? & ?).
Qed.

(** X4.  The target of a run.  The name is the trimmed input.  A tag
    given as input, trimmed, is the target tag whatever the ref is;
    without one, the target tag is what follows [refs/tags/] in the ref
    (the first occurrence only, so a tag that itself contains
    [refs/tags/] is kept whole); with neither, the parser goes on only
    if there is a name, with an empty tag.  The parser logs the tag and
    the name it found and nothing else. *)
Theorem target_of_the_run (params : Params) (w w' : World)
    (paths : list JsValue) (targetTag name : string) (t : list Event) :
  parse_inputs js context params w = (Val (paths, (targetTag, name)), w', t) ->
  name = trim js (releaseName params) /\
  (trim js (releaseTag params) <> EmptyString ->
   targetTag = trim js (releaseTag params)) /\
  (trim js (releaseTag params) = EmptyString ->
   forall derived,
     Context.ref context = ("refs/tags/" ++ derived)%string ->
     targetTag = derived) /\
  (trim js (releaseTag params) = EmptyString ->
   (~ exists derived, Context.ref context = ("refs/tags/" ++ derived)%string) ->
   targetTag = EmptyString /\ name <> EmptyString) /\
  t = target_events targetTag name /\ w' = w.
Proof.
  intros H.
  pose proof H as Hfacts. apply parse_inputs_facts in Hfacts.
  destruct Hfacts as (Hw & _ & _ & _ & _ & Hval).
  destruct (Hval paths targetTag name eq_refl)
    as (_ & Hname & Ht & Hgiven & Hderived & Hnone).
  split; [exact Hname | split; [| split; [| split; [| now split]]]].
  - intros Htag. apply Hgiven. now apply truthy_true.
  - intros Htag derived Href.
    rewrite Hderived.
    + rewrite Href. apply replace_prefix.
    + now apply truthy_false.
    + apply startsWith_iff. now exists derived.
  - intros Htag Hform.
    assert (Hstart : startsWith (Context.ref context) "refs/tags/" = false).
    { destruct (startsWith (Context.ref context) "refs/tags/") eqn:Hs;
        [| reflexivity].
      apply startsWith_iff in Hs. contradiction. }
    destruct (Hnone (proj2 (truthy_false _) Htag) Hstart) as [Hempty Htruthy].
    split; [exact Hempty | now apply truthy_true].
Qed.

(** X12.  When the collector gives a plan it has written, after the
    lines of the patterns, the size of the plan, preceded by a warning
    exactly when some path was matched more than once; the warning
    counts the occurrences that were dropped.  The plan is never longer
    than the list of matches, and a list without a repeated path is
    kept as it is. *)
Theorem duplicates_are_counted (assetPaths : list JsValue) (w w' : World)
    (files : list string) (t : list Event) :
  collect_files fs js assetPaths w = (Val files, w', t) ->
  let all := flat_map (regular_files fs) assetPaths in
  let removed :=
    Warning ("Removed " ++
             string_of_nat (List.length all - List.length files) ++
             " duplicate file(s) from overlapping glob patterns") in
  let total :=
    Info ("Total files to upload: " ++ string_of_nat (List.length files)) in
  List.length files <= List.length all /\
  (NoDup all ->
   files = all /\
   t = flat_map (pattern_events fs js) assetPaths ++ [total]) /\
  (~ NoDup all ->
   List.length files < List.length all /\
   t = flat_map (pattern_events fs js) assetPaths ++ [removed; total]).
Proof.
  intros H all removed total.
  pose proof H as Hfacts. apply collect_files_facts in Hfacts.
  destruct Hfacts as (_ & _ & Ht).
  specialize (Ht files eq_refl). fold all in Ht.
  apply collect_files_inv in H. destruct H as (_ & _ & Hfiles & _).
  unfold upload_plan in Hfiles. fold all in Hfiles.
  rewrite <- Set_of_dedup_first in Hfiles.
  destruct (Set_of_length all) as (Hle & Hiff & Hsame).
  rewrite <- Hfiles in Hle, Hiff, Hsame.
  unfold plan_events in Ht.
  split; [exact Hle | split].
  - intros Hnodup. split; [now apply Hsame |].
    assert (Heq : Nat.eqb (List.length all) (List.length files) = true)
      by (apply Nat.eqb_eq; symmetry; now apply Hiff).
    rewrite Heq in Ht. exact Ht.
  - intros Hdup.
    assert (Hlt : List.length files <> List.length all).
    { intros Heq. apply Hdup. now apply Hiff. }
    split; [lia |].
    assert (Hneq : Nat.eqb (List.length all) (List.length files) = false)
      by (apply Nat.eqb_neq; lia).
    rewrite Hneq in Ht. exact Ht.
Qed.

(** X1.  A release found by the indexed lookup is final.  When
    [getReleaseByTag] answers with a release, it is the only lookup of
    the run and no page of releases is ever listed; every upload of the
    run goes to that release and every deletion removes an asset of the
    asset list that came with it. *)
Theorem successful_lookup_is_final (fuel : nat) (params : Params)
    (w : World) (res : Res unit) (w' : World) (t : list Event)
    (tag : string) (r : Release.t) :
  upload_assets github fs js context fuel params w = (res, w', t) ->
  In (GetReleaseByTag tag (Ok r)) t ->
  looked_up t = [(tag, Ok r)] /\ listed t = [] /\
  (forall rid name data answer,
     In (UploadReleaseAsset rid name data answer) t -> rid = Release.id r) /\
  (forall asset_id answer,
     In (DeleteReleaseAsset asset_id answer) t ->
     exists existing,
       In existing (Release.assets r) /\ Asset.id existing = asset_id).
Proof.
  intros H Hin.
  pose proof H as Hres. apply upload_assets_resolver in Hres.
  destruct Hres as (rp & tp & Hparse & Hres).
  assert (Hlook : In (tag, Ok r) (looked_up t)) by now apply in_looked_up.
  pose proof Hparse as Hp. apply parse_inputs_facts in Hp.
  destruct Hp as (_ & _ & Hlookp & _).
  destruct Hres as [(-> & _)
                   | (paths & targetTag & name & rf & wf & tf & rest & -> &
                      Hfind & Ht & Hl & Hli & _ & Hrf)].
  { rewrite Hlookp in Hlook. destruct Hlook. }
  rewrite Hl in Hlook. rewrite Hl, Hli.
  pose proof Hfind as Hf. apply find_release_facts in Hf.
  destruct Hf as (_ & _ & Hnotag & Htag & _).
  destruct (truthy targetTag) eqn:Htruthy.
  2:{ rewrite (Hnotag eq_refl) in Hlook. destruct Hlook. }
  destruct (Htag eq_refl) as (answer & w1 & Hget & Hlooked & Hanswer).
  rewrite Hlooked in Hlook. destruct Hlook as [Heq | []].
  injection Heq as -> ->.
  destruct Hanswer as (Hlisted & Hw1 & Hcase).
  split; [exact Hlooked | split; [exact Hlisted |]].
  assert (Hrel : forall release, rf = Val release -> release = Some r).
  { intros release ->.
    destruct Hcase as [[Heq _] | [Heq _]]; [| discriminate Heq].
    now injection Heq as ->. }
  assert (Hloop : forall ev,
            In ev t -> is_upload ev || is_delete ev = true ->
            exists files ru wu tu,
              upload_files github fs js context (Some r)
                (denyOverwriteBool (denyOverwrite params)) files [] wf =
                (ru, wu, tu) /\ In ev tu).
  { intros ev Hev Hkind.
    destruct (upload_assets_calls _ _ _ _ _ _ _ _ H Hev Hkind)
      as (paths' & targetTag' & name' & release & wf' & tp' & tf' & tc &
          files & ru & tu & post & Hparse' & Hfind' & _ & Hloop & _ & _ &
          _ & _ & Hintu).
    rewrite Hparse in Hparse'. injection Hparse' as <- <- <- <-.
    rewrite Hfind in Hfind'. injection Hfind' as Hval <- <-.
    rewrite (Hrel _ Hval) in Hloop.
    now exists files, ru, w', tu. }
  split.
  - intros rid nm data answer Hu.
    destruct (Hloop _ Hu eq_refl) as (files & ru & wu & tu & Hrun & Hintu).
    apply upload_files_calls in Hrun. destruct Hrun as (Hup & _).
    destruct (Hup _ _ _ _ Hintu) as (r0 & f & Hr0 & Hid & _).
    now injection Hr0 as <-.
  - intros asset_id answer Hd.
    destruct (Hloop _ Hd eq_refl) as (files & ru & wu & tu & Hrun & Hintu).
    apply upload_files_calls in Hrun. destruct Hrun as (_ & Hdel & _).
    destruct (Hdel _ _ Hintu)
      as (_ & r0 & existing & f & Hr0 & Hex & Hid & _).
    injection Hr0 as <-. now exists existing.
Qed.

(** X2.  An indexed lookup that the service rejects with anything but
    a 404 ends the run at once: the error is thrown as it is, the run
    has written the target and the three lines of the lookup and
    nothing else, [core.setFailed] is not called, no output is set, and
    the lookup is the only call the service has seen. *)
Theorem lookup_error_ends_run (fuel : nat) (params : Params)
    (w : World) (res : Res unit) (w' : World) (t : list Event)
    (tag : string) (e : JsError) :
  upload_assets github fs js context fuel params w = (res, w', t) ->
  In (GetReleaseByTag tag (Fail e)) t ->
  not_found e = false ->
  res = Throw e /\
  getReleaseByTag github owner repo tag w = (Fail e, w') /\
  t = target_events tag (trim js (releaseName params)) ++
      lookup_events context tag (Fail e) /\
  failures t = [] /\ outputs t = [] /\
  filter is_remote t = [GetReleaseByTag tag (Fail e)].
Proof.
  intros H Hin Hother.
  apply upload_assets_resolver in H.
  destruct H as (rp & tp & Hparse & Hres).
  assert (Hlook : In (tag, Fail e) (looked_up t)) by now apply in_looked_up.
  apply parse_inputs_facts in Hparse.
  destruct Hparse as (_ & _ & Hlookp & _ & _ & Hvalp).
  destruct Hres as [(-> & _)
                   | (paths & targetTag & name & rf & wf & tf & rest & -> &
                      Hfind & -> & Hl & Hli & _ & Hrf)].
  { rewrite Hlookp in Hlook. destruct Hlook. }
  rewrite Hl in Hlook.
  destruct (Hvalp _ _ _ eq_refl) as (_ & -> & -> & _).
  apply find_release_facts in Hfind.
  destruct Hfind as (_ & _ & Hnotag & Htag & _).
  destruct (truthy targetTag) eqn:Htruthy.
  2:{ rewrite (Hnotag eq_refl) in Hlook. destruct Hlook. }
  destruct (Htag eq_refl) as (answer & w1 & Hget & Hlooked & Hanswer).
  rewrite Hlooked in Hlook. destruct Hlook as [Heq | []].
  injection Heq as -> ->.
  destruct (Hanswer Hother) as (-> & -> & ->).
  destruct Hrf as [(-> & Hstop & ->) | [release Hval]];
    [| discriminate Hval].
  destruct res as [u| |e'|]; try contradiction. simpl in Hstop. subst e'.
  rewrite app_nil_r.
  split; [reflexivity | split; [exact Hget | split; [reflexivity |]]].
  unfold target_events, lookup_events. rewrite Htruthy.
  now destruct (truthy (trim js (releaseName params))).
Qed.

(** X5.  An upload that the service rejects for any reason other than
    a name conflict ends the run at once, on the first attempt as on
    the retry: the error is thrown as it is, the last thing written is
    the error line of that upload, [core.setFailed] is not called and
    no output is set. *)
Theorem rejected_upload_ends_run (fuel : nat) (params : Params)
    (w : World) (res : Res unit) (w' : World) (t : list Event)
    (rid : nat) (name : string) (data : list Byte.byte) (e : JsError) :
  upload_assets github fs js context fuel params w = (res, w', t) ->
  In (UploadReleaseAsset rid name data (Fail e)) t ->
  already_exists e = false ->
  res = Throw e /\
  (exists before msg,
     t = before ++ [UploadReleaseAsset rid name data (Fail e); Error msg] /\
     (msg = upload_failed_message name e \/
      msg = replace_failed_message name e)) /\
  failures t = [] /\ outputs t = [].
Proof.
  intros H Hin Hother.
  destruct (upload_assets_calls _ _ _ _ _ _ _ _ H Hin eq_refl)
    as (paths & targetTag & name' & release & wf & tp & tf & tc &
        files & ru & tu & post & _ & _ & _ & Hloop & -> & Hfail & Hout &
        Hpost & Hintu).
  pose proof Hloop as Hcalls. apply upload_files_calls in Hcalls.
  destruct Hcalls as (_ & _ & Hfatal).
  destruct (Hfatal _ _ _ _ Hintu Hother) as (-> & before & msg & Htu & Hmsg).
  destruct Hpost as [[-> Hstop] | (urls & r & Hval & _)];
    [| discriminate Hval].
  destruct res as [u| |e'|]; try contradiction. simpl in Hstop. subst e'.
  pose proof Hloop as Hshape. apply upload_files_shape in Hshape.
  destruct Hshape as (_ & Hlast & _).
  apply upload_files_trace in Hloop. destruct Hloop as (Houtu & _).
  assert (Hfailu : failures tu = []).
  { destruct Hlast as [Hnone | (_ & before' & msg' & Heq & _)];
      [assumption |].
    rewrite Htu in Heq.
    change (before ++ [UploadReleaseAsset rid name data (Fail e); Error msg])
      with (before ++ [UploadReleaseAsset rid name data (Fail e)] ++
            [Error msg]) in Heq.
    rewrite app_assoc in Heq. apply app_inj_tail in Heq.
    destruct Heq as [_ Heq]. discriminate Heq. }
  rewrite app_nil_r, failures_app, outputs_app, Hfail, Hout, Hfailu, Houtu.
  split; [reflexivity | split; [| now split]].
  exists ((tp ++ tf ++ tc) ++ before), msg.
  split; [now rewrite Htu, app_assoc | exact Hmsg].
Qed.

(** X6.  The calls of a run are bounded by its plan, file by file.  The
    indexed lookup is called at most once.  The uploads and deletions
    of a run lie in consecutive passes, one pass for each file of a
    first part of the plan, in plan order; a pass uploads under the
    base name of its file, at most twice, and deletes at most once;
    when overwriting is denied a pass uploads at most once and no asset
    is ever deleted.  So a run uploads at most twice and deletes at
    most once per file of the plan.  Without an array of patterns
    nothing is uploaded. *)
Theorem calls_are_bounded (fuel : nat) (params : Params)
    (w : World) (res : Res unit) (w' : World) (t : list Event) :
  upload_assets github fs js context fuel params w = (res, w', t) ->
  List.length (looked_up t) <= 1 /\
  (forall paths,
     JSON_parse js (assetPathsInput params) = Ok (JArray paths) ->
     exists before passes after,
       t = before ++ concat passes ++ after /\
       filter is_upload before = [] /\ filter is_delete before = [] /\
       filter is_upload after = [] /\ filter is_delete after = [] /\
       List.length passes <= List.length (upload_plan fs paths) /\
       Forall2 (pass_of js (denyOverwriteBool (denyOverwrite params)))
         (firstn (List.length passes) (upload_plan fs paths)) passes) /\
  (forall paths,
     JSON_parse js (assetPathsInput params) = Ok (JArray paths) ->
     List.length (filter is_upload t) <=
       2 * List.length (upload_plan fs paths) /\
     List.length (filter is_delete t) <= List.length (upload_plan fs paths) /\
     (denyOverwriteBool (denyOverwrite params) = true ->
      List.length (filter is_upload t) <=
        List.length (upload_plan fs paths))) /\
  (denyOverwriteBool (denyOverwrite params) = true ->
   filter is_delete t = []) /\
  ((forall paths,
      JSON_parse js (assetPathsInput params) <> Ok (JArray paths)) ->
   filter is_upload t = [] /\ filter is_delete t = []).
Proof.
  intros H.
  assert (Hpasses : forall paths,
     JSON_parse js (assetPathsInput params) = Ok (JArray paths) ->
     exists before passes after,
       t = before ++ concat passes ++ after /\
       filter is_upload before = [] /\ filter is_delete before = [] /\
       filter is_upload after = [] /\ filter is_delete after = [] /\
       List.length passes <= List.length (upload_plan fs paths) /\
       Forall2 (pass_of js (denyOverwriteBool (denyOverwrite params)))
         (firstn (List.length passes) (upload_plan fs paths)) passes).
  { intros paths Hjson. pose proof H as Hl. apply upload_assets_loop in Hl.
    destruct Hl as [(Hearly & _ & Hdel)
                   | (paths' & targetTag & name & release & wf & tp & tf &
                      tc & files & ru & tu & post & Hparse & _ & Hcollect &
                      Hloop & -> & Hearly & Hdel & _ & Hpost)].
    - exists t, [], []. cbn [concat app List.length firstn].
      rewrite app_nil_r.
      assert (Hup : filter is_upload t = []).
      { apply filter_none. now apply early_quiet in Hearly. }
      repeat split; try assumption; try reflexivity; [lia | constructor].
    - apply parse_inputs_facts in Hparse.
      destruct Hparse as (_ & _ & _ & _ & _ & Hvalp).
      destruct (Hvalp _ _ _ eq_refl) as (Hjson' & _).
      rewrite Hjson in Hjson'. injection Hjson' as <-.
      apply collect_files_inv in Hcollect.
      destruct Hcollect as (_ & _ & -> & _).
      apply upload_files_passes in Hloop.
      destruct Hloop as (passes & -> & Hlen & Hall & _).
      exists (tp ++ tf ++ tc), passes, post.
      assert (Hup : filter is_upload (tp ++ tf ++ tc) = []).
      { apply filter_none. now apply early_quiet in Hearly. }
      assert (Hpostq : filter is_upload post = [] /\
                       filter is_delete post = []).
      { destruct Hpost as [[-> _] | (urls & r & _ & _ & _ & ->)];
          now split. }
      destruct Hpostq as [Hupp Hdelp].
      repeat split; assumption. }
  split.
  { apply upload_assets_resolver in H.
    destruct H as (rp & tp & Hparse & Hres).
    apply parse_inputs_facts in Hparse.
    destruct Hparse as (_ & _ & Hlookp & _).
    destruct Hres as [(-> & _)
                     | (paths & targetTag & name & rf & wf & tf & rest & _ &
                        Hfind & _ & -> & _)].
    - rewrite Hlookp. simpl. lia.
    - apply find_release_facts in Hfind.
      destruct Hfind as (_ & _ & Hnotag & Htag & _).
      destruct (truthy targetTag).
      + destruct (Htag eq_refl) as (answer & w1 & _ & -> & _). simpl. lia.
      + rewrite (Hnotag eq_refl). simpl. lia. }
  split; [exact Hpasses |]. clear Hpasses.
  apply upload_assets_loop in H.
  destruct H as [(Hearly & _ & Hdel)
                | (paths & targetTag & name & release & wf & tp & tf & tc &
                   files & ru & tu & post & Hparse & _ & Hcollect &
                   Hloop & -> & Hearly & Hdel & _ & Hpost)].
  { assert (Hup : filter is_upload t = []).
    { apply filter_none. now apply early_quiet in Hearly. }
    rewrite Hup, Hdel. simpl.
    repeat split; try reflexivity; lia. }
  assert (Hup : filter is_upload (tp ++ tf ++ tc) = []).
  { apply filter_none. now apply early_quiet in Hearly. }
  assert (Hpostq : filter is_upload post = [] /\ filter is_delete post = []).
  { destruct Hpost as [[-> _] | (urls & r & _ & _ & _ & ->)]; now split. }
  destruct Hpostq as [Hupp Hdelp].
  rewrite (filter_app is_upload (tp ++ tf ++ tc)),
    (filter_app is_delete (tp ++ tf ++ tc)),
    (filter_app is_upload tu), (filter_app is_delete tu),
    Hup, Hdel, Hupp, Hdelp, !app_nil_r.
  simpl app.
  apply parse_inputs_facts in Hparse.
  destruct Hparse as (_ & _ & _ & _ & _ & Hvalp).
  destruct (Hvalp _ _ _ eq_refl) as (Hjson & _).
  apply collect_files_inv in Hcollect. destruct Hcollect as (_ & _ & -> & _).
  apply upload_files_shape in Hloop.
  destruct Hloop as (_ & _ & Hups & Hdels & Hdeny).
  split; [| split].
  - intros paths' Hjson'. rewrite Hjson in Hjson'.
    injection Hjson' as <-.
    split; [exact Hups | split; [exact Hdels |]].
    intros Hd. now destruct (Hdeny Hd).
  - intros Hd. now destruct (Hdeny Hd).
  - intros Hno. now destruct (Hno paths).
Qed.

(** X7.  Every upload of a run comes from the plan: the asset is named
    after the base name of a file of the plan and carries the content
    read from that file, and the file is a regular file that one of the
    given patterns expanded to. *)
Theorem uploads_come_from_the_plan (fuel : nat) (params : Params)
    (w : World) (res : Res unit) (w' : World) (t : list Event)
    (rid : nat) (name : string) (data : list Byte.byte)
    (answer : Reply Asset.t) :
  upload_assets github fs js context fuel params w = (res, w', t) ->
  In (UploadReleaseAsset rid name data answer) t ->
  exists paths pattern found filePath,
    JSON_parse js (assetPathsInput params) = Ok (JArray paths) /\
    In pattern paths /\ glob fs pattern = Ok found /\ In filePath found /\
    statSync_isFile fs filePath = Ok true /\
    In filePath (upload_plan fs paths) /\
    name = basename js filePath /\ readFileSync fs filePath = Ok data.
Proof.
  intros H Hin.
  destruct (upload_assets_calls _ _ _ _ _ _ _ _ H Hin eq_refl)
    as (paths & targetTag & name' & release & wf & tp & tf & tc &
        files & ru & tu & post & Hparse & _ & Hcollect & Hloop & _ & _ & _ &
        _ & Hintu).
  apply parse_inputs_facts in Hparse.
  destruct Hparse as (_ & _ & _ & _ & _ & Hvalp).
  destruct (Hvalp _ _ _ eq_refl) as (Hjson & _).
  apply collect_files_inv in Hcollect. destruct Hcollect as (_ & _ & -> & _).
  apply upload_files_calls in Hloop. destruct Hloop as (Hup & _).
  destruct (Hup _ _ _ _ Hintu) as (r & filePath & _ & _ & Hplan & -> & Hread).
  pose proof Hplan as Hall. unfold upload_plan in Hall.
  rewrite <- Set_of_dedup_first in Hall.
  apply (proj1 (Set_of_In _ _)) in Hall.
  apply in_flat_map in Hall. destruct Hall as (pattern & Hpattern & Hfile).
  unfold regular_files in Hfile. apply filter_In in Hfile.
  destruct Hfile as [Hglob Hregular].
  unfold globbed in Hglob. unfold regular in Hregular.
  destruct (glob fs pattern) as [found | err] eqn:Hfound; [| destruct Hglob].
  destruct (statSync_isFile fs filePath) as [b | err] eqn:Hstat;
    [| discriminate Hregular].
  subst b.
  exists paths, pattern, found, filePath. now repeat split.
Qed.

(** X8.  An asset is deleted only to be replaced.  A deletion happens
    only when overwriting is not denied, right after the service has
    refused an upload to the release of the run as a name conflict and
    the warning about the overwrite has been written; the asset deleted
    is the first one that has the name of that upload in the asset
    list of the release of the run, which is the release the resolver
    gave for the target of the parser. *)
Theorem deletions_are_replacements (fuel : nat) (params : Params)
    (w : World) (res : Res unit) (w' : World) (t : list Event)
    (asset_id : nat) (answer : Reply unit) :
  upload_assets github fs js context fuel params w = (res, w', t) ->
  In (DeleteReleaseAsset asset_id answer) t ->
  denyOverwriteBool (denyOverwrite params) = false /\
  exists r existing before data e after,
    resolved github js context fuel params w r /\
    find (fun a => String.eqb (Asset.name a) (Asset.name existing))
      (Release.assets r) = Some existing /\
    Asset.id existing = asset_id /\
    already_exists e = true /\
    t = before ++
        [UploadReleaseAsset (Release.id r) (Asset.name existing) data
           (Fail e);
         Warning (overwriting_message (Asset.name existing));
         DeleteReleaseAsset asset_id answer] ++ after.
Proof.
  intros H Hin.
  destruct (upload_assets_calls _ _ _ _ _ _ _ _ H Hin eq_refl)
    as (paths & targetTag & name' & release & wf & tp & tf & tc &
        files & ru & tu & post & Hparse & Hfind & _ & Hloop & -> & _ & _ &
        _ & Hintu).
  destruct (upload_files_deletes _ _ _ _ _ _ _ _ _ Hloop _ _ Hintu)
    as (Hdeny & r & existing & before & data & e & after &
        -> & Hexisting & Hid & He & ->).
  split; [exact Hdeny |].
  exists r, existing, ((tp ++ tf ++ tc) ++ before), data, e, (after ++ post).
  split; [now exists paths, targetTag, name', tp, wf, tf |].
  repeat split; try assumption.
  now rewrite <- !app_assoc.
Qed.

(** X9.  The three parts of a run follow each other.  The trace of a
    run is made of three pieces in this order: one in which only the
    lookup and the listing are called, one in which only patterns are
    expanded, and one in which only assets are uploaded and deleted and
    the output and the summary are written.  So no pattern is expanded
    before the release is resolved, and no asset is touched before
    every pattern has been expanded. *)
Theorem phases_follow_each_other (fuel : nat) (params : Params)
    (w : World) (res : Res unit) (w' : World) (t : list Event) :
  upload_assets github fs js context fuel params w = (res, w', t) ->
  exists tr tc tu,
    t = tr ++ tc ++ tu /\
    forallb resolving tr = true /\
    forallb collecting tc = true /\
    forallb uploading tu = true.
Proof.
  intros H. apply upload_assets_shape in H.
  destruct H as (tr & tc & tu & Ht & Hr & Hc & Hu & _).
  now exists tr, tc, tu.
Qed.

(** X10.  A run calls [core.setFailed] at most once, and when it does,
    that call is the last thing the run does and the run does not end
    normally. *)
Theorem failure_is_reported_once_and_last (fuel : nat) (params : Params)
    (w : World) (res : Res unit) (w' : World) (t : list Event) :
  upload_assets github fs js context fuel params w = (res, w', t) ->
  List.length (failures t) <= 1 /\
  (forall msg,
     In msg (failures t) ->
     res <> Val tt /\
     exists before, t = before ++ [SetFailed msg] /\ failures before = []).
Proof.
  intros H. apply upload_assets_shape in H.
  destruct H as (tr & tc & tu & _ & _ & _ & _ & Hlast).
  destruct Hlast as [Hnone | (Hno & before & msg & -> & Hbefore)].
  - rewrite Hnone. split; [simpl; lia | intros msg []].
  - rewrite failures_app, Hbefore. simpl.
    split; [lia |].
    intros msg' [<- | []]. split; [apply Hno |].
    now exists before.
Qed.

(** X11.  A run that ends normally closes with the report: the last
    three events are the output, the count and the step summary, built
    from the download URLs of the uploads in upload order.  The release
    named in the summary is the release of the run, the one the
    resolver gave for the target of the parser, and every upload went
    to it; nothing was reported as failed. *)
Theorem report_closes_the_run (fuel : nat) (params : Params)
    (w w' : World) (t : list Event) :
  upload_assets github fs js context fuel params w = (Val tt, w', t) ->
  exists r before,
    resolved github js context fuel params w r /\
    t = before ++ closing_events js r (map snd (uploaded before)) /\
    uploaded t = uploaded before /\
    outputs before = [] /\ failures t = [] /\
    (forall rid name data answer,
       In (UploadReleaseAsset rid name data answer) t ->
       rid = Release.id r).
Proof.
  intros H. apply upload_assets_loop in H.
  destruct H as [(_ & Hno & _)
                | (paths & targetTag & name & release & wf & tp & tf & tc &
                   files & ru & tu & post & Hparse & Hfind & _ &
                   Hloop & -> & Hearly & _ & Hfail & Hpost)].
  { now destruct (Hno tt). }
  destruct Hpost as [[_ Hstop] | (urls & r & -> & -> & _ & ->)].
  { now apply stopped_not_val in Hstop. }
  pose proof Hloop as Hcalls. apply upload_files_calls in Hcalls.
  destruct Hcalls as (Hup & _).
  apply upload_files_trace in Hloop.
  destruct Hloop as (Houtu & (Hurls & _ & Hfailu & _) & _).
  simpl in Hurls. subst urls.
  pose proof (early_quiet _ Hearly) as (Hupl & Hout & _).
  destruct (closing_quiet js r (map snd (uploaded tu)))
    as (_ & Hfaile & _ & _ & _ & Huple).
  exists r, ((tp ++ tf ++ tc) ++ tu).
  split; [now exists paths, targetTag, name, tp, wf, tf |].
  rewrite (uploaded_app (tp ++ tf ++ tc) tu), Hupl. cbn [app].
  split; [now rewrite <- !app_assoc |].
  split; [| split; [| split]].
  - now rewrite (uploaded_app (tp ++ tf ++ tc)), (uploaded_app tu),
      Hupl, Huple, app_nil_r.
  - now rewrite outputs_app, Hout, Houtu.
  - now rewrite (failures_app (tp ++ tf ++ tc)), (failures_app tu),
      Hfail, Hfailu, Hfaile.
  - intros rid nm data answer Hin.
    apply in_app_or in Hin. destruct Hin as [Hin | Hin].
    { apply early_quiet in Hearly. destruct Hearly as (_ & _ & Hquiet).
      apply Hquiet in Hin. discriminate Hin. }
    apply in_app_or in Hin. destruct Hin as [Hin | Hin].
    + destruct (Hup _ _ _ _ Hin) as (r0 & f & Hr0 & -> & _).
      now injection Hr0 as <-.
    + simpl in Hin.
      destruct Hin as [Heq | [Heq | [Heq | []]]]; discriminate Heq.
Qed.

(** X13.  Nothing is uploaded to a release the service has not given.
    Every upload of a run goes to a release that is either the answer
    of the one indexed lookup, in which case nothing was listed, or a
    release of a listed page whose tag is the target tag, given or
    derived from the ref.  When a release name is given, that release
    has exactly this name in both cases. *)
Theorem uploads_go_to_a_found_release (fuel : nat) (params : Params)
    (w : World) (res : Res unit) (w' : World) (t : list Event)
    (rid : nat) (name : string) (data : list Byte.byte)
    (answer : Reply Asset.t) :
  upload_assets github fs js context fuel params w = (res, w', t) ->
  In (UploadReleaseAsset rid name data answer) t ->
  exists r,
    rid = Release.id r /\
    (trim js (releaseName params) <> EmptyString ->
     Release.name r = trim js (releaseName params)) /\
    ((exists tag, looked_up t = [(tag, Ok r)] /\ listed t = []) \/
     ((forall tag,
         tag <> EmptyString ->
         trim js (releaseTag params) = tag \/
         (trim js (releaseTag params) = EmptyString /\
          Context.ref context = ("refs/tags/" ++ tag)%string) ->
         Release.tag_name r = tag) /\
      exists number releases,
        In (100, number, Ok releases) (listed t) /\ In r releases)).
Proof.
  intros H Hin.
  destruct (upload_assets_calls _ _ _ _ _ _ _ _ H Hin eq_refl)
    as (paths & targetTag & name' & release & wf & tp & tf & tc &
        files & ru & tu & post & Hparse & Hfind & _ & Hloop & _ & _ &
        _ & _ & Hintu).
  apply upload_assets_resolver in H.
  destruct H as (rp & tp' & Hparse' & Hres).
  rewrite Hparse in Hparse'. injection Hparse' as <- <-.
  destruct Hres as [(_ & Hstop & _)
                   | (paths' & targetTag' & name'' & rf & wf' & tf' & rest &
                      Heq & Hfind' & _ & Hl & Hli & _)].
  { now destruct res. }
  injection Heq as <- <- <-.
  rewrite Hfind in Hfind'. injection Hfind' as <- <- <-.
  apply upload_files_calls in Hloop. destruct Hloop as (Hup & _).
  destruct (Hup _ _ _ _ Hintu) as (r & f & -> & -> & _).
  apply parse_inputs_facts in Hparse.
  destruct Hparse as (_ & _ & _ & _ & _ & Hvalp).
  destruct (Hvalp _ _ _ eq_refl) as (_ & -> & _ & Hgiven & Hderived & _).
  apply find_release_facts in Hfind.
  destruct Hfind as (_ & _ & _ & _ & Hfound & _).
  destruct (Hfound r eq_refl) as (Hname & Hfrom).
  exists r. split; [reflexivity | split].
  { intros Hn. apply Hname. now apply truthy_true. }
  rewrite Hl, Hli.
  destruct Hfrom as [[Hlooked Hlisted]
                    | (Hmatch & number & releases & Hpage & Hr)].
  - left. now exists targetTag.
  - right. split; [| now exists number, releases].
    intros tag Htag Hsource.
    assert (Htarget : targetTag = tag).
    { destruct Hsource as [Hin1 | [Hempty Href]].
      - rewrite <- Hin1. apply Hgiven. apply truthy_true. now rewrite Hin1.
      - rewrite Hderived.
        + rewrite Href. apply replace_prefix.
        + now apply truthy_false.
        + apply startsWith_iff. now exists tag. }
    subst targetTag.
    assert (Htruthy : truthy tag = true) by now apply truthy_true.
    apply matches_iff in Hmatch; [| now rewrite Htruthy].
    destruct Hmatch as [Htagname _]. now apply Htagname.
Qed.


(** X15.  The files of the plan are uploaded in plan order and none is
    skipped, also in a run that fails: the names of the assets uploaded
    so far are the base names of a first part of the plan, and the rest
    of the plan was not uploaded.  A run with a plan ends normally
    exactly when nothing of the plan is left. *)
Theorem uploads_are_a_prefix_of_the_plan (fuel : nat) (params : Params)
    (w : World) (res : Res unit) (w' : World) (t : list Event)
    (paths : list JsValue) :
  upload_assets github fs js context fuel params w = (res, w', t) ->
  JSON_parse js (assetPathsInput params) = Ok (JArray paths) ->
  exists done todo,
    upload_plan fs paths = done ++ todo /\
    map fst (uploaded t) = map (basename js) done /\
    (res = Val tt -> todo = []) /\
    (todo = [] -> upload_plan fs paths <> [] -> res = Val tt).
Proof.
  intros H Hjson. apply upload_assets_loop in H.
  destruct H as [(Hearly & Hno & _)
                | (paths' & targetTag & name & release & wf & tp & tf & tc &
                   files & ru & tu & post & Hparse & _ & Hcollect &
                   Hloop & -> & Hearly & _ & _ & Hpost)].
  - exists [], (upload_plan fs paths).
    apply early_quiet in Hearly. destruct Hearly as (Hup & _).
    rewrite Hup. repeat split.
    + intros ->. now destruct (Hno tt).
    + intros Htodo Hplan. contradiction.
  - apply parse_inputs_facts in Hparse.
    destruct Hparse as (_ & _ & _ & _ & _ & Hvalp).
    destruct (Hvalp _ _ _ eq_refl) as (Hjson' & _).
    rewrite Hjson in Hjson'. injection Hjson' as <-.
    apply collect_files_inv in Hcollect.
    destruct Hcollect as (_ & _ & -> & _).
    apply upload_files_prefix in Hloop.
    destruct Hloop as (done & todo & Hplan & Hnames & Hval & Hleft).
    apply early_quiet in Hearly. destruct Hearly as (Hup & _).
    assert (Hupp : uploaded post = []).
    { destruct Hpost as [[-> _] | (urls & r & _ & _ & _ & ->)];
        reflexivity. }
    exists done, todo.
    rewrite (uploaded_app (tp ++ tf ++ tc)), (uploaded_app tu),
      Hup, Hupp, app_nil_r.
    split; [exact Hplan | split; [exact Hnames | split]].
    + intros ->.
      destruct Hpost as [[_ Hstop] | (urls & r & -> & _)];
        [now apply stopped_not_val in Hstop | now apply (Hval urls)].
    + intros Htodo _.
      destruct Hpost as [[_ Hstop] | (urls & r & _ & _ & -> & _)];
        [| reflexivity].
      destruct Hleft; [| assumption].
      intros a ->. now destruct res.
Qed.

(** X16.  The ways out of a run.  A run that returns early has
    reported exactly one failure with [core.setFailed]: it never
    returns silently.  On a repository whose listing is finite, a run
    with more fuel than the listing has full pages comes to an end: it
    ends normally, returns, or throws. *)
Theorem run_ends_and_returns_after_failure (fuel : nat) (params : Params)
    (w : World) (res : Res unit) (w' : World) (t : list Event) :
  upload_assets github fs js context fuel params w = (res, w', t) ->
  (res = Return -> exists msg, failures t = [msg]) /\
  (forall n, bounded_listing github context n -> n < fuel ->
             res = Val tt \/ res = Return \/ exists e, res = Throw e).
Proof.
  intros H.
  cut ((res = Return -> exists msg, failures t = [msg]) /\
       (forall n, bounded_listing github context n -> n < fuel ->
                  res <> OutOfFuel)).
  { intros [Hreturn Hends]. split; [exact Hreturn |].
    intros n Hbound Hfuel. specialize (Hends n Hbound Hfuel).
    destruct res as [[]| |e|]; auto.
    - right. right. now exists e.
    - now destruct Hends. }
  apply upload_assets_phases in H.
  destruct H as (rp & tp & Hparse & H).
  pose proof Hparse as Hp. apply parse_inputs_facts in Hp.
  destruct Hp as (_ & _ & _ & _ & Hlastp & _).
  destruct H as [(Hstop & -> & ->) | H].
  { assert (Hno : forall inputs, rp <> Val inputs).
    { intros inputs ->. now destruct res. }
    apply parse_inputs_stops in Hparse; [| exact Hno].
    destruct Hparse as (-> & msg & ->).
    destruct res as [u| |e|]; try contradiction.
    split; [intros _; now exists msg | intros; discriminate]. }
  destruct H as (paths & targetTag & name & rf & wf & tf & -> & Hfind & H).
  apply fails_last_val in Hlastp.
  pose proof Hfind as Hf. apply find_release_facts in Hf.
  destruct Hf as (_ & Hlastf & _).
  apply find_release_ways in Hfind. destruct Hfind as [Hreturnf Hendsf].
  destruct H as [(Hstop & -> & ->) | H].
  { rewrite failures_app, Hlastp. cbn [app].
    apply stopped_same in Hstop.
    destruct Hstop as [[-> ->] | [(e & -> & ->) | [-> ->]]].
    - split; [intros _; now apply Hreturnf | intros; discriminate].
    - split; [discriminate | intros; discriminate].
    - split; [discriminate |].
      intros n Hbound Hfuel _. now apply (Hendsf n Hbound Hfuel). }
  destruct H as (release & rc & tc & -> & Hcollect & H).
  apply fails_last_val in Hlastf.
  pose proof Hcollect as Hc. apply collect_files_facts in Hc.
  destruct Hc as (_ & Hlastc & _).
  apply collect_files_inv in Hcollect. destruct Hcollect as (_ & _ & Hrc).
  destruct H as [(Hstop & -> & ->) | H].
  { rewrite !failures_app, Hlastp, Hlastf. cbn [app].
    apply stopped_same in Hstop.
    destruct Hstop as [[-> ->] | [(e & -> & ->) | [-> ->]]].
    - split; [| intros; discriminate].
      intros _. destruct Hrc as (_ & _ & _ & ->).
      rewrite failures_app, failures_pattern_events. now eexists.
    - split; [discriminate | intros; discriminate].
    - destruct Hrc. }
  destruct H as (files & ru & wu & tu & -> & Hloop & H).
  apply upload_files_trace in Hloop. destruct Hloop as (_ & Hru & _).
  destruct H as [(Hstop & -> & ->) | (urls & r & _ & _ & -> & _)].
  - apply stopped_same in Hstop.
    destruct Hstop as [[-> ->] | [(e & -> & ->) | [-> ->]]];
      try contradiction.
    split; [discriminate | intros; discriminate].
  - split; [discriminate | intros; discriminate].
Qed.
End Extras.

(** * The further properties on concrete inputs *)

(** Witness of X1: the release tagged [v1.0.0] holds [b.tar.gz] and
    overwriting is allowed.  The lookup finds the release, nothing is
    listed, and the three uploads go to release 7. *)
Lemma successful_lookup_is_final_witness :
  let result :=
    Scenario.run 1 (Scenario.params Scenario.tarballs "v1.0.0" "" (JBool false))
      Scenario.stocked_world in
  In (GetReleaseByTag "v1.0.0" (Ok Scenario.stocked)) (snd result) /\
  looked_up (snd result) = [("v1.0.0", Ok Scenario.stocked)] /\
  listed (snd result) = [] /\
  List.length (filter is_upload (snd result)) = 3 /\
  forall rid name data answer,
    In (UploadReleaseAsset rid name data answer) (snd result) -> rid = 7.
Proof.
  intros result.
  assert (Hin : In (GetReleaseByTag "v1.0.0" (Ok Scenario.stocked))
                  (snd result)) by (vm_compute; tauto).
  destruct (@successful_lookup_is_final _ Mock.github Scenario.fs Scenario.js
              Scenario.context 1
              (Scenario.params Scenario.tarballs "v1.0.0" "" (JBool false))
              Scenario.stocked_world _ _ _ "v1.0.0" Scenario.stocked
              (triple_eta result) Hin)
    as (Hlooked & Hlisted & Hup & _).
  split; [exact Hin | split; [exact Hlooked | split; [exact Hlisted |]]].
  split; [vm_compute; reflexivity | exact Hup].
Defined.

(** Witness of X2: the service answers the lookup with a 503. *)
Lemma lookup_error_ends_run_witness :
  let result :=
    upload_assets (Faulty.no_lookup Faulty.unavailable) Scenario.fs
      Scenario.js Scenario.context 1
      (Scenario.params Scenario.tarballs "v1.0.0" "" (JBool true))
      Scenario.empty_world in
  fst (fst result) = Throw Faulty.unavailable /\
  failures (snd result) = [] /\ outputs (snd result) = [] /\
  filter is_remote (snd result) =
    [GetReleaseByTag "v1.0.0" (Fail Faulty.unavailable)].
Proof.
  intros result.
  assert (Hin : In (GetReleaseByTag "v1.0.0" (Fail Faulty.unavailable))
                  (snd result)) by (vm_compute; tauto).
  destruct (@lookup_error_ends_run _ (Faulty.no_lookup Faulty.unavailable)
              Scenario.fs Scenario.js Scenario.context 1
              (Scenario.params Scenario.tarballs "v1.0.0" "" (JBool true))
              Scenario.empty_world _ _ _ "v1.0.0" Faulty.unavailable
              (triple_eta result) Hin eq_refl)
    as (Hres & _ & _ & Hfail & Hout & Hremote).
  now repeat split.
Defined.

(** Witness of X3: a hundred old releases and then a draft tagged
    [v2.0.0]; the release resolved for that tag is on a listed page. *)
Lemma resolved_release_meets_criteria_witness :
  let result :=
    find_release Mock.github Scenario.context 2 "v2.0.0" ""
      Scenario.long_world in
  fst (fst result) = Val (Some Scenario.upcoming) /\
  matches "v2.0.0" "" Scenario.upcoming = true /\
  exists number releases,
    In (100, number, Ok releases) (listed (snd result)) /\
    In Scenario.upcoming releases.
Proof.
  intros result.
  assert (Hres : fst (fst result) = Val (Some Scenario.upcoming))
    by (vm_compute; reflexivity).
  destruct (@resolved_release_meets_criteria _ Mock.github Scenario.context 2
              "v2.0.0" "" Scenario.long_world _ _ _ (triple_eta result))
    as (Hfound & _).
  destruct (Hfound Scenario.upcoming Hres) as (_ & [[Hlooked _] | Hpage]).
  - vm_compute in Hlooked. discriminate Hlooked.
  - split; [exact Hres | exact Hpage].
Defined.

(** Witness of X4: no tag is given and the ref is [refs/tags/v1.0.0]. *)
Lemma target_of_the_run_witness :
  let tagged := Context.mk "refs/tags/v1.0.0" "acme" "widgets" in
  let params := Scenario.params Scenario.tarballs "  " "" JUndefined in
  parse_inputs Scenario.js tagged params Scenario.empty_world =
    (Val ([JString Scenario.tarballs], ("v1.0.0", "")), Scenario.empty_world,
     [Info "Target release tag: v1.0.0"]) /\
  [Info "Target release tag: v1.0.0"] = target_events "v1.0.0" "".
Proof.
  intros tagged params.
  assert (H : parse_inputs Scenario.js tagged params Scenario.empty_world =
              (Val ([JString Scenario.tarballs], ("v1.0.0", "")),
               Scenario.empty_world, [Info "Target release tag: v1.0.0"]))
    by (vm_compute; reflexivity).
  destruct (@target_of_the_run _ Scenario.js tagged params
              Scenario.empty_world _ _ _ _ _ H)
    as (_ & _ & Hderived & _ & Ht & _).
  split; [exact H | exact Ht].
Defined.

(** Witness of X5: the service rejects every upload with a 403. *)
Lemma rejected_upload_ends_run_witness :
  let result :=
    upload_assets (Faulty.no_upload Faulty.forbidden) Scenario.fs
      Scenario.js Scenario.context 1
      (Scenario.params Scenario.tarballs "v1.0.0" "" (JBool false))
      Scenario.empty_world in
  fst (fst result) = Throw Faulty.forbidden /\
  (exists before msg,
     snd result =
       before ++ [UploadReleaseAsset 7 "a.tar.gz" [] (Fail Faulty.forbidden);
                  Error msg] /\
     (msg = upload_failed_message "a.tar.gz" Faulty.forbidden \/
      msg = replace_failed_message "a.tar.gz" Faulty.forbidden)) /\
  failures (snd result) = [] /\ outputs (snd result) = [].
Proof.
  intros result.
  assert (Hin : In (UploadReleaseAsset 7 "a.tar.gz" []
                      (Fail Faulty.forbidden)) (snd result))
    by (vm_compute; tauto).
  exact (@rejected_upload_ends_run _ (Faulty.no_upload Faulty.forbidden)
           Scenario.fs Scenario.js Scenario.context 1
           (Scenario.params Scenario.tarballs "v1.0.0" "" (JBool false))
           Scenario.empty_world _ _ _ 7 "a.tar.gz" [] Faulty.forbidden
           (triple_eta result) Hin eq_refl).
Defined.

(** Witness of X6: two files in the plan, one of them replaced: one
    lookup, three uploads and one deletion, in two passes. *)
Lemma calls_are_bounded_witness :
  let result :=
    Scenario.run 1 (Scenario.params Scenario.tarballs "v1.0.0" "" (JBool false))
      Scenario.stocked_world in
  List.length (looked_up (snd result)) <= 1 /\
  List.length (filter is_upload (snd result)) <= 4 /\
  List.length (filter is_delete (snd result)) <= 2 /\
  exists before passes after,
    snd result = before ++ concat passes ++ after /\
    filter is_upload before = [] /\ filter is_delete before = [] /\
    filter is_upload after = [] /\ filter is_delete after = [] /\
    List.length passes <= 2 /\
    Forall2 (pass_of Scenario.js false)
      (firstn (List.length passes) ["dist/a.tar.gz"; "dist/b.tar.gz"])
      passes.
Proof.
  intros result.
  destruct (@calls_are_bounded _ Mock.github Scenario.fs Scenario.js
              Scenario.context 1
              (Scenario.params Scenario.tarballs "v1.0.0" "" (JBool false))
              Scenario.stocked_world _ _ _ (triple_eta result))
    as (Hlook & Hpasses & Hplan & _).
  destruct (Hplan [JString Scenario.tarballs] eq_refl) as (Hup & Hdel & _).
  split; [exact Hlook | split; [exact Hup | split; [exact Hdel |]]].
  exact (Hpasses [JString Scenario.tarballs] eq_refl).
Defined.

(** Witness of X7: the upload of [a.tar.gz] comes from [dist/a.tar.gz],
    which the pattern [dist/*.tar.gz] expands to. *)
Lemma uploads_come_from_the_plan_witness :
  let result :=
    Scenario.run 1 (Scenario.params Scenario.tarballs "v1.0.0" "" (JBool true))
      Scenario.empty_world in
  let asset := Asset.mk 100 "a.tar.gz" (Mock.url_of "a.tar.gz") in
  In (UploadReleaseAsset 7 "a.tar.gz" [] (Ok asset)) (snd result) /\
  exists paths pattern found filePath,
    JSON_parse Scenario.js (Scenario.asset_paths Scenario.tarballs) =
      Ok (JArray paths) /\
    In pattern paths /\ glob Scenario.fs pattern = Ok found /\
    In filePath found /\
    statSync_isFile Scenario.fs filePath = Ok true /\
    In filePath (upload_plan Scenario.fs paths) /\
    "a.tar.gz" = basename Scenario.js filePath /\
    readFileSync Scenario.fs filePath = Ok [].
Proof.
  intros result asset.
  assert (Hin : In (UploadReleaseAsset 7 "a.tar.gz" [] (Ok asset))
                  (snd result)) by (vm_compute; tauto).
  split; [exact Hin |].
  exact (@uploads_come_from_the_plan _ Mock.github Scenario.fs Scenario.js
           Scenario.context 1
           (Scenario.params Scenario.tarballs "v1.0.0" "" (JBool true))
           Scenario.empty_world _ _ _ 7 "a.tar.gz" [] (Ok asset)
           (triple_eta result) Hin).
Defined.

(** Witness of X8: the old [b.tar.gz], asset 41 of the release found by
    the lookup, is deleted after the upload of [b.tar.gz] was
    refused. *)
Lemma deletions_are_replacements_witness :
  let params := Scenario.params Scenario.tarballs "v1.0.0" "" (JBool false) in
  let result := Scenario.run 1 params Scenario.stocked_world in
  In (DeleteReleaseAsset 41 (Ok tt)) (snd result) /\
  resolved Mock.github Scenario.js Scenario.context 1 params
    Scenario.stocked_world Scenario.stocked /\
  exists r existing before data e after,
    resolved Mock.github Scenario.js Scenario.context 1 params
      Scenario.stocked_world r /\
    find (fun a => String.eqb (Asset.name a) (Asset.name existing))
      (Release.assets r) = Some existing /\
    Asset.id existing = 41 /\
    already_exists e = true /\
    snd result =
      before ++
      [UploadReleaseAsset (Release.id r) (Asset.name existing) data (Fail e);
       Warning (overwriting_message (Asset.name existing));
       DeleteReleaseAsset 41 (Ok tt)] ++ after.
Proof.
  intros params result.
  assert (Hin : In (DeleteReleaseAsset 41 (Ok tt)) (snd result))
    by (vm_compute; tauto).
  split; [exact Hin | split].
  - do 6 eexists. split; vm_compute; reflexivity.
  - exact (proj2
             (@deletions_are_replacements _ Mock.github Scenario.fs
                Scenario.js Scenario.context 1 params
                Scenario.stocked_world _ _ _ 41 (Ok tt)
                (triple_eta result) Hin)).
Defined.

(** Witness of X9: a run that uploads two files. *)
Lemma phases_follow_each_other_witness :
  let result :=
    Scenario.run 1 (Scenario.params Scenario.tarballs "v1.0.0" "" (JBool true))
      Scenario.empty_world in
  fst (fst result) = Val tt /\
  exists tr tc tu,
    snd result = tr ++ tc ++ tu /\
    forallb resolving tr = true /\
    forallb collecting tc = true /\
    forallb uploading tu = true.
Proof.
  intros result.
  split; [vm_compute; reflexivity |].
  exact (@phases_follow_each_other _ Mock.github Scenario.fs Scenario.js
           Scenario.context 1
           (Scenario.params Scenario.tarballs "v1.0.0" "" (JBool true))
           Scenario.empty_world _ _ _ (triple_eta result)).
Defined.

(** Witness of X10: the release tagged [v1.0.0] has another name than
    the one asked for; the mismatch is the one failure and the last
    event. *)
Lemma failure_is_reported_once_and_last_witness :
  let result :=
    Scenario.run 3 (Scenario.params Scenario.tarballs "v1.0.0" "Bad Name"
                      (JString "true")) Scenario.empty_world in
  let msg := mismatch_message Scenario.fresh "Bad Name" in
  failures (snd result) = [msg] /\
  exists before,
    snd result = before ++ [SetFailed msg] /\ failures before = [].
Proof.
  intros result msg.
  assert (Hfail : failures (snd result) = [msg]) by (vm_compute; reflexivity).
  split; [exact Hfail |].
  destruct (@failure_is_reported_once_and_last _ Mock.github Scenario.fs
              Scenario.js Scenario.context 3
              (Scenario.params Scenario.tarballs "v1.0.0" "Bad Name"
                 (JString "true"))
              Scenario.empty_world _ _ _ (triple_eta result))
    as [_ Hlast].
  destruct (Hlast msg) as [_ Hshape]; [rewrite Hfail; now left |].
  exact Hshape.
Defined.

(** Witness of X11: a run that uploads two files ends with the report
    on the release of the run. *)
Lemma report_closes_the_run_witness :
  let params := Scenario.params Scenario.tarballs "v1.0.0" "" (JBool true) in
  let result := Scenario.run 1 params Scenario.empty_world in
  resolved Mock.github Scenario.js Scenario.context 1 params
    Scenario.empty_world Scenario.fresh /\
  exists r before,
    resolved Mock.github Scenario.js Scenario.context 1 params
      Scenario.empty_world r /\
    snd result =
      before ++ closing_events Scenario.js r (map snd (uploaded before)) /\
    uploaded (snd result) = uploaded before /\
    outputs before = [] /\ failures (snd result) = [] /\
    forall rid name data answer,
      In (UploadReleaseAsset rid name data answer) (snd result) ->
      rid = Release.id r.
Proof.
  intros params result.
  assert (H : Scenario.run 1 params Scenario.empty_world =
              (Val tt, snd (fst result), snd result))
    by (vm_compute; reflexivity).
  split.
  - do 6 eexists. split; vm_compute; reflexivity.
  - exact (@report_closes_the_run _ Mock.github Scenario.fs Scenario.js
             Scenario.context 1 params Scenario.empty_world _ _ H).
Defined.

(** Witness of X12: [dist/b.tar.gz] is matched by [dist/b*] and by
    [dist/*]; one occurrence is dropped and counted. *)
Lemma duplicates_are_counted_witness :
  let patterns := [JString "dist/b*"; JString "dist/*"] in
  let result :=
    collect_files Scenario.overlapping Scenario.js patterns
      Scenario.empty_world in
  fst (fst result) = Val ["dist/b.tar.gz"; "dist/a.tar.gz"] /\
  snd result =
    flat_map (pattern_events Scenario.overlapping Scenario.js) patterns ++
    [Warning "Removed 1 duplicate file(s) from overlapping glob patterns";
     Info "Total files to upload: 2"].
Proof.
  intros patterns result.
  assert (H : collect_files Scenario.overlapping Scenario.js patterns
                Scenario.empty_world =
              (Val ["dist/b.tar.gz"; "dist/a.tar.gz"],
               snd (fst result), snd result))
    by (vm_compute; reflexivity).
  pose proof (@duplicates_are_counted _ Scenario.overlapping Scenario.js
                patterns Scenario.empty_world _ _ _ H) as Hfacts.
  cbv zeta in Hfacts. destruct Hfacts as (_ & _ & Hdup).
  split; [vm_compute; reflexivity |].
  apply Hdup. vm_compute. intros Hnodup.
  inversion Hnodup as [|? ? Hnotin _]. apply Hnotin. right. now left.
Defined.

(** Witness of X13: the draft tagged [v2.0.0] is on the second page of
    the listing; the upload of [a.tar.gz] goes to it. *)
Lemma uploads_go_to_a_found_release_witness :
  let params := Scenario.params Scenario.tarballs "v2.0.0" "" (JBool true) in
  let result := Scenario.run 2 params Scenario.long_world in
  let asset := Asset.mk 100 "a.tar.gz" (Mock.url_of "a.tar.gz") in
  In (UploadReleaseAsset 9 "a.tar.gz" [] (Ok asset)) (snd result) /\
  exists r,
    9 = Release.id r /\
    (trim Scenario.js (releaseName params) <> EmptyString ->
     Release.name r = trim Scenario.js (releaseName params)) /\
    ((exists tag, looked_up (snd result) = [(tag, Ok r)] /\
                  listed (snd result) = []) \/
     ((forall tag,
         tag <> EmptyString ->
         trim Scenario.js (releaseTag params) = tag \/
         (trim Scenario.js (releaseTag params) = EmptyString /\
          Context.ref Scenario.context = ("refs/tags/" ++ tag)%string) ->
         Release.tag_name r = tag) /\
      exists number releases,
        In (100, number, Ok releases) (listed (snd result)) /\
        In r releases)).
Proof.
  intros params result asset.
  assert (Hin : In (UploadReleaseAsset 9 "a.tar.gz" [] (Ok asset))
                  (snd result)) by (vm_compute; tauto).
  split; [exact Hin |].
  exact (@uploads_go_to_a_found_release _ Mock.github Scenario.fs Scenario.js
           Scenario.context 2 params Scenario.long_world _ _ _
           9 "a.tar.gz" [] (Ok asset) (triple_eta result) Hin).
Defined.


(** Witness of X15: [a.tar.gz] is uploaded, [b.tar.gz] is refused while
    overwriting is denied; the first file of the plan is done and the
    second is left. *)
Lemma uploads_are_a_prefix_of_the_plan_witness :
  let result :=
    Scenario.run 1 (Scenario.params Scenario.tarballs "v1.0.0" "" (JBool true))
      Scenario.stocked_world in
  map fst (uploaded (snd result)) = ["a.tar.gz"] /\
  exists done todo,
    upload_plan Scenario.fs [JString Scenario.tarballs] = done ++ todo /\
    map fst (uploaded (snd result)) = map (basename Scenario.js) done.
Proof.
  intros result.
  split; [vm_compute; reflexivity |].
  destruct (@uploads_are_a_prefix_of_the_plan _ Mock.github Scenario.fs
              Scenario.js Scenario.context 1
              (Scenario.params Scenario.tarballs "v1.0.0" "" (JBool true))
              Scenario.stocked_world _ _ _ [JString Scenario.tarballs]
              (triple_eta result) eq_refl)
    as (done & todo & Hplan & Hnames & _).
  now exists done, todo.
Defined.

(** Witness of X16: the listing has one full page and a second page
    with the draft tagged [v2.0.0]; three units of fuel are enough. *)
Lemma run_ends_and_returns_after_failure_witness :
  let result :=
    upload_assets Archive.github Scenario.fs Scenario.js Scenario.context 3
      (Scenario.params Scenario.tarballs "v2.0.0" "" (JBool true))
      Scenario.long_world in
  bounded_listing Archive.github Scenario.context 2 /\
  (fst (fst result) = Return -> exists msg, failures (snd result) = [msg]) /\
  (fst (fst result) = Val tt \/ fst (fst result) = Return \/
   exists e, fst (fst result) = Throw e).
Proof.
  intros result.
  assert (Hbound : bounded_listing Archive.github Scenario.context 2).
  { intros w page releases w1 Hpage Hlist.
    change ((Ok (firstn 100 (skipn ((page - 1) * 100)
                               (Mock.releases Scenario.long_world))), w) =
            (Ok releases, w1)) in Hlist.
    assert (Hpage2 : releases =
                       firstn 100 (skipn ((page - 1) * 100)
                                     (Mock.releases Scenario.long_world)))
      by congruence.
    assert (Hlen : List.length (Mock.releases Scenario.long_world) = 101)
      by (vm_compute; reflexivity).
    rewrite Hpage2, length_firstn, length_skipn, Hlen. lia. }
  destruct (@run_ends_and_returns_after_failure _ Archive.github Scenario.fs
              Scenario.js Scenario.context 3
              (Scenario.params Scenario.tarballs "v2.0.0" "" (JBool true))
              Scenario.long_world _ _ _ (triple_eta result))
    as [Hreturn Hends].
  split; [exact Hbound | split; [exact Hreturn |]].
  apply (Hends 2 Hbound). lia.
Defined.
